(** * SecureShare: the browser client (static/js/client.js)

    A shallow embedding of the client script that drives the download
    approval flow, the session watcher and the view preference.

    The source file holds three revisions of the script one after the other.
    The second one (lines 185-512) is the only one that has every function
    the specification talks about ([cancelDownload], [loadViewPreference],
    [currentReqId]); it is the one embedded below.  Its [checkStatus],
    [pollRequest], [showApproved] and [showRejected] are the same, statement
    for statement, as those of the third revision (lines 512-736).  The parts
    of the first revision that differ are embedded in [Module Rev1].

    The script runs on the browser's event loop: every click handler, timer
    callback and promise reaction runs to completion before the next one
    starts.  Each of them is a function on [State]; what the environment
    decides (which handler runs next, what a [fetch] returns) is an [event]. *)

From stdpp Require Import gmap strings list fin_maps pretty.
From Stdlib Require Import ZArith.

Local Open Scope string_scope.
Local Open Scope list_scope.

(** ** JavaScript values carried by the JSON payloads and the globals *)

Inductive JsVal :=
| JUndefined
| JNull
| JBool (b : bool)
| JNum (n : Z)
| JStr (s : string).

#[global] Instance JsVal_eq_dec : EqDecision JsVal.
Proof. solve_decision. Defined.

(** [if (v)], [!v], [a && b] *)
Definition truthy (v : JsVal) : bool :=
  match v with
  | JUndefined | JNull => false
  | JBool b => b
  | JNum n => negb (n =? 0)%Z
  | JStr s => negb (String.eqb s "")
  end.

(** [a === b] on primitive values *)
Definition strict_eq (a b : JsVal) : bool := bool_decide (a = b).

Inductive JsError :=
| TypeError (msg : string)
| SyntaxError (msg : string)
| Error (msg : string).

(** ** The page *)

(** [Element.classList]: a set of class names. *)
Abbreviation classList := (gset string).

Definition cl_add (tokens : list string) (c : classList) : classList :=
  c ∪ list_to_set tokens.

Definition cl_remove (tokens : list string) (c : classList) : classList :=
  c ∖ list_to_set tokens.

(** A [.file-card] element with the descendants [toggleView] looks up by
    [querySelector]; [None] is a descendant that is not there. *)
Record TextContent := {
  text_classes : classList;
  text_h3 : option classList
}.

Record ActionBtn := {
  wrapper_classes : classList;
  wrapper_button : option classList;
  wrapper_btn_text : option classList
}.

Record Card := {
  card_classes : classList;
  card_bg_icon : option classList;
  card_inner_wrapper : option classList;
  card_icon_wrapper : option classList;
  card_text_content : option TextContent;
  card_action_btn_wrapper : option ActionBtn
}.

(** The elements the script fetches with [getElementById].  The page
    template is not part of the script; it is taken to provide every one of
    them, so that no lookup yields [null]. *)
Record Dom := {
  fileContainer : classList;
  viewIcon : string;                 (* className *)
  cards : list Card;                 (* querySelectorAll('.file-card') *)
  pauseOverlay : classList;
  mainContent : classList;           (* #main-content *)
  approvalModal : classList;
  approvalContent : classList;
  statusWaiting : classList;
  statusRejected : classList;
  statusApproved : classList;
  reqIdDisplay : string              (* innerText *)
}.

(** ** The script's module-level variables (lines 189-210) *)

Record Globals := {
  isGridView : bool;
  pausedState : bool;
  currentConfigId : JsVal;
  currentReqId : JsVal;
  pollInterval : option positive     (* null or a timer handle *)
}.

(** ** The browser around the script *)

(** What a timer of the page runs when it fires. *)
Inductive Timer :=
| IntervalCheckStatus                (* setInterval(checkStatus, 1000) *)
| IntervalPoll (reqId : JsVal)       (* the interval set by pollRequest *)
| TimeoutRedirect (link : JsVal).    (* the setTimeout of the approved branch *)

Inductive Request :=
| GetStatus                                   (* GET /api/client/status *)
| PostRequestDownload (filename path : string)
| GetCheckRequest (reqId : JsVal)
| PostCancelRequest (reqId : JsVal).

Inductive Navigation :=
| Assign (url : JsVal)               (* window.location.href = url *)
| Reload.                            (* window.location.reload() *)

Record Browser := {
  timers : gmap positive Timer;      (* active intervals and timeouts *)
  nextHandle : positive;             (* handles are integers above zero *)
  localStorage : gmap string string;
  navigations : list Navigation;     (* oldest first *)
  requests : list Request;           (* fetch calls, oldest first *)
  console : list string;             (* console.error *)
  alerts : list string;
  unhandled : list JsError           (* unhandledrejection events *)
}.

Record State := {
  globals : Globals;
  dom : Dom;
  browser : Browser
}.

(** *** Field updates *)

Definition with_globals (f : Globals -> Globals) (s : State) : State :=
  {| globals := f (globals s); dom := dom s; browser := browser s |}.

Definition with_dom (f : Dom -> Dom) (s : State) : State :=
  {| globals := globals s; dom := f (dom s); browser := browser s |}.

Definition with_browser (f : Browser -> Browser) (s : State) : State :=
  {| globals := globals s; dom := dom s; browser := f (browser s) |}.

Definition set_isGridView (b : bool) (g : Globals) : Globals :=
  {| isGridView := b; pausedState := pausedState g;
     currentConfigId := currentConfigId g; currentReqId := currentReqId g;
     pollInterval := pollInterval g |}.

Definition set_pausedState (b : bool) (g : Globals) : Globals :=
  {| isGridView := isGridView g; pausedState := b;
     currentConfigId := currentConfigId g; currentReqId := currentReqId g;
     pollInterval := pollInterval g |}.

Definition set_currentConfigId (v : JsVal) (g : Globals) : Globals :=
  {| isGridView := isGridView g; pausedState := pausedState g;
     currentConfigId := v; currentReqId := currentReqId g;
     pollInterval := pollInterval g |}.

Definition set_currentReqId (v : JsVal) (g : Globals) : Globals :=
  {| isGridView := isGridView g; pausedState := pausedState g;
     currentConfigId := currentConfigId g; currentReqId := v;
     pollInterval := pollInterval g |}.

Definition set_pollInterval (h : option positive) (g : Globals) : Globals :=
  {| isGridView := isGridView g; pausedState := pausedState g;
     currentConfigId := currentConfigId g; currentReqId := currentReqId g;
     pollInterval := h |}.

Definition set_timers (t : gmap positive Timer) (n : positive) (b : Browser)
  : Browser :=
  {| timers := t; nextHandle := n; localStorage := localStorage b;
     navigations := navigations b; requests := requests b;
     console := console b; alerts := alerts b; unhandled := unhandled b |}.

Definition set_localStorage (l : gmap string string) (b : Browser) : Browser :=
  {| timers := timers b; nextHandle := nextHandle b; localStorage := l;
     navigations := navigations b; requests := requests b;
     console := console b; alerts := alerts b; unhandled := unhandled b |}.

Definition add_navigation (n : Navigation) (b : Browser) : Browser :=
  {| timers := timers b; nextHandle := nextHandle b;
     localStorage := localStorage b;
     navigations := navigations b ++ [n]; requests := requests b;
     console := console b; alerts := alerts b; unhandled := unhandled b |}.

Definition add_request (r : Request) (b : Browser) : Browser :=
  {| timers := timers b; nextHandle := nextHandle b;
     localStorage := localStorage b;
     navigations := navigations b; requests := requests b ++ [r];
     console := console b; alerts := alerts b; unhandled := unhandled b |}.

Definition add_console (m : string) (b : Browser) : Browser :=
  {| timers := timers b; nextHandle := nextHandle b;
     localStorage := localStorage b;
     navigations := navigations b; requests := requests b;
     console := console b ++ [m]; alerts := alerts b;
     unhandled := unhandled b |}.

Definition add_alert (m : string) (b : Browser) : Browser :=
  {| timers := timers b; nextHandle := nextHandle b;
     localStorage := localStorage b;
     navigations := navigations b; requests := requests b;
     console := console b; alerts := alerts b ++ [m];
     unhandled := unhandled b |}.

Definition add_unhandled (e : JsError) (b : Browser) : Browser :=
  {| timers := timers b; nextHandle := nextHandle b;
     localStorage := localStorage b;
     navigations := navigations b; requests := requests b;
     console := console b; alerts := alerts b;
     unhandled := unhandled b ++ [e] |}.

(** *** Browser operations used by the script *)

(** [setInterval] and [setTimeout] draw their handles from one counter and
    keep their timers in one table. *)
Definition setTimer (t : Timer) (s : State) : positive * State :=
  let h := nextHandle (browser s) in
  (h, with_browser (set_timers (<[h := t]> (timers (browser s))) (h + 1)%positive) s).

(** [clearInterval(h)]; [clearInterval(null)] finds no timer. *)
Definition clearInterval (h : option positive) (s : State) : State :=
  match h with
  | Some i =>
      with_browser (fun b => set_timers (delete i (timers b)) (nextHandle b) b) s
  | None => s
  end.

Definition navigate (n : Navigation) : State -> State :=
  with_browser (add_navigation n).

Definition fetch_send (r : Request) : State -> State :=
  with_browser (add_request r).

Definition console_error (m : string) : State -> State :=
  with_browser (add_console m).

Definition alert (m : string) : State -> State :=
  with_browser (add_alert m).

Definition error_message (e : JsError) : string :=
  match e with
  | TypeError m => "TypeError: " +:+ m
  | SyntaxError m => "SyntaxError: " +:+ m
  | Error m => "Error: " +:+ m
  end.

(** ** Promises

    A promise reaction chain runs as one uninterrupted sequence of
    microtasks; it is a function on the state that ends fulfilled or
    rejected.  What a handler wrote before it threw stays written. *)

Inductive Settled (A : Type) :=
| Fulfilled (a : A)
| Rejected (e : JsError).

Arguments Fulfilled {A} a.
Arguments Rejected {A} e.

Definition Promise (A : Type) : Type := State -> Settled A * State.

Definition resolve {A} (a : A) : Promise A := fun s => (Fulfilled a, s).

Definition throw {A} (e : JsError) : Promise A := fun s => (Rejected e, s).

(** A handler that only runs statements and returns [undefined]. *)
Definition exec (f : State -> State) : Promise unit :=
  fun s => (Fulfilled tt, f s).

(** [p.then(f)]: a rejection of [p] skips [f]. *)
Definition then_ {A B} (p : Promise A) (f : A -> Promise B) : Promise B :=
  fun s =>
    match p s with
    | (Fulfilled a, s') => f a s'
    | (Rejected e, s') => (Rejected e, s')
    end.

(** [p.catch(h)]: [h] runs only on a rejection of [p]. *)
Definition catch_ {A} (p : Promise A) (h : JsError -> Promise unit)
  : Promise unit :=
  fun s =>
    match p s with
    | (Fulfilled _, s') => (Fulfilled tt, s')
    | (Rejected e, s') => h e s'
    end.

Notation "p 'THEN' f" := (then_ p f) (at level 61, left associativity).
Notation "p 'CATCH' h" := (catch_ p h) (at level 61, left associativity).

(** The end of a chain: a rejection that met no handler is reported by the
    browser as an unhandled rejection. *)
Definition settle {A} (p : Promise A) (s : State) : State :=
  match p s with
  | (Fulfilled _, s') => s'
  | (Rejected e, s') => with_browser (add_unhandled e) s'
  end.

(** *** What [fetch] comes back with *)

(** A response: [ok] is true for a 2xx status; [body] is [None] when the
    payload is not JSON, so that [response.json()] rejects. *)
Record Response (D : Type) := {
  ok : bool;
  body : option D
}.

Arguments ok {D} r.
Arguments body {D} r.

Inductive FetchOutcome (D : Type) :=
| NetworkError
| Responded (r : Response D).

Arguments NetworkError {D}.
Arguments Responded {D} r.

Definition fetch_result {D} (o : FetchOutcome D) : Promise (Response D) :=
  match o with
  | NetworkError => throw (TypeError "Failed to fetch")
  | Responded r => resolve r
  end.

Definition json {D} (r : Response D) : Promise D :=
  match body r with
  | Some d => resolve d
  | None => throw (SyntaxError "Unexpected token in JSON")
  end.

(** The properties the script reads of a [/api/client/status] reply; a
    property the reply lacks reads as [JUndefined]. *)
Record StatusData := {
  force_logout : JsVal;
  running : JsVal;
  config_id : JsVal;
  paused : JsVal
}.

(** The properties read of a [request_download] or [check_request] reply. *)
Record RequestData := {
  status : JsVal;
  direct_link : JsVal;
  req_id : JsVal;
  link : JsVal
}.

(** *** Writes to the page *)

Definition set_view (c : classList) (i : string) (cs : list Card) (d : Dom)
  : Dom :=
  {| fileContainer := c; viewIcon := i; cards := cs;
     pauseOverlay := pauseOverlay d; mainContent := mainContent d;
     approvalModal := approvalModal d; approvalContent := approvalContent d;
     statusWaiting := statusWaiting d; statusRejected := statusRejected d;
     statusApproved := statusApproved d; reqIdDisplay := reqIdDisplay d |}.

Definition set_pause (o m : classList) (d : Dom) : Dom :=
  {| fileContainer := fileContainer d; viewIcon := viewIcon d;
     cards := cards d;
     pauseOverlay := o; mainContent := m;
     approvalModal := approvalModal d; approvalContent := approvalContent d;
     statusWaiting := statusWaiting d; statusRejected := statusRejected d;
     statusApproved := statusApproved d; reqIdDisplay := reqIdDisplay d |}.

Definition set_modal (m c : classList) (d : Dom) : Dom :=
  {| fileContainer := fileContainer d; viewIcon := viewIcon d;
     cards := cards d;
     pauseOverlay := pauseOverlay d; mainContent := mainContent d;
     approvalModal := m; approvalContent := c;
     statusWaiting := statusWaiting d; statusRejected := statusRejected d;
     statusApproved := statusApproved d; reqIdDisplay := reqIdDisplay d |}.

Definition set_status (w r a : classList) (d : Dom) : Dom :=
  {| fileContainer := fileContainer d; viewIcon := viewIcon d;
     cards := cards d;
     pauseOverlay := pauseOverlay d; mainContent := mainContent d;
     approvalModal := approvalModal d; approvalContent := approvalContent d;
     statusWaiting := w; statusRejected := r;
     statusApproved := a; reqIdDisplay := reqIdDisplay d |}.

Definition set_reqIdDisplay (t : string) (d : Dom) : Dom :=
  {| fileContainer := fileContainer d; viewIcon := viewIcon d;
     cards := cards d;
     pauseOverlay := pauseOverlay d; mainContent := mainContent d;
     approvalModal := approvalModal d; approvalContent := approvalContent d;
     statusWaiting := statusWaiting d; statusRejected := statusRejected d;
     statusApproved := statusApproved d; reqIdDisplay := t |}.

(** ** toggleView (lines 231-362) *)

(** The body of [cards.forEach] in the grid branch (lines 253-301). *)
Definition card_grid (el : Card) : Card :=
  {| card_classes :=
       cl_add ["flex-col"; "justify-between"; "min-h-[180px]"; "p-4"]
         (cl_remove ["flex-row"; "items-center"; "h-20"; "px-5"; "py-0"; "w-full"]
            (card_classes el));
     card_bg_icon := cl_remove ["hidden"] <$> card_bg_icon el;
     card_inner_wrapper :=
       (fun c => cl_add ["flex-col"] (cl_remove ["flex-row"; "items-center"] c))
         <$> card_inner_wrapper el;
     card_icon_wrapper :=
       (fun c => cl_add ["w-12"; "h-12"; "mb-3"]
                   (cl_remove ["w-10"; "h-10"; "mb-0"] c))
         <$> card_icon_wrapper el;
     card_text_content :=
       (fun t =>
          {| text_classes :=
               cl_remove ["ml-4"; "flex-1"; "flex"; "flex-col"; "justify-center"]
                 (text_classes t);
             text_h3 :=
               (fun c => cl_add ["line-clamp-2"; "break-all"]
                           (cl_remove ["truncate"] c)) <$> text_h3 t |})
         <$> card_text_content el;
     card_action_btn_wrapper :=
       (fun w =>
          {| wrapper_classes :=
               cl_add ["w-full"; "pt-4"; "mt-auto"]
                 (cl_remove ["w-auto"; "ml-auto"; "pt-0"; "mt-0"]
                    (wrapper_classes w));
             wrapper_button :=
               (fun c => cl_add ["w-full"; "py-2.5"]
                           (cl_remove ["px-6"; "py-2"] c)) <$> wrapper_button w;
             wrapper_btn_text :=
               cl_remove ["hidden"; "sm:inline"] <$> wrapper_btn_text w |})
         <$> card_action_btn_wrapper el |}.

(** The body of [cards.forEach] in the list branch (lines 311-360). *)
Definition card_list (el : Card) : Card :=
  {| card_classes :=
       cl_add ["flex-row"; "items-center"; "h-20"; "px-5"; "py-0"; "w-full"]
         (cl_remove ["flex-col"; "justify-between"; "min-h-[180px]"; "p-4"]
            (card_classes el));
     card_bg_icon := cl_add ["hidden"] <$> card_bg_icon el;
     card_inner_wrapper :=
       (fun c => cl_add ["flex-row"; "items-center"] (cl_remove ["flex-col"] c))
         <$> card_inner_wrapper el;
     card_icon_wrapper :=
       (fun c => cl_add ["w-10"; "h-10"; "mb-0"]
                   (cl_remove ["w-12"; "h-12"; "mb-3"] c))
         <$> card_icon_wrapper el;
     card_text_content :=
       (fun t =>
          {| text_classes :=
               cl_add ["ml-4"; "flex-1"; "flex"; "flex-col"; "justify-center"]
                 (text_classes t);
             text_h3 :=
               (fun c => cl_add ["truncate"]
                           (cl_remove ["line-clamp-2"; "break-all"] c))
                 <$> text_h3 t |})
         <$> card_text_content el;
     card_action_btn_wrapper :=
       (fun w =>
          {| wrapper_classes :=
               cl_add ["w-auto"; "ml-auto"; "pt-0"; "mt-0"]
                 (cl_remove ["w-full"; "pt-4"; "mt-auto"] (wrapper_classes w));
             wrapper_button :=
               (fun c => cl_add ["px-6"; "py-2"]
                           (cl_remove ["w-full"; "py-2.5"] c)) <$> wrapper_button w;
             wrapper_btn_text :=
               cl_add ["hidden"; "sm:inline"] <$> wrapper_btn_text w |})
         <$> card_action_btn_wrapper el |}.

Definition enable_grid (d : Dom) : Dom :=
  set_view
    (cl_add ["grid"; "grid-cols-1"; "sm:grid-cols-2"; "md:grid-cols-3";
             "lg:grid-cols-4"; "gap-4"]
       (cl_remove ["flex"; "flex-col"; "gap-3"] (fileContainer d)))
    "fas fa-list-ul"
    (card_grid <$> cards d)
    d.

Definition enable_list (d : Dom) : Dom :=
  set_view
    (cl_add ["flex"; "flex-col"; "gap-3"]
       (cl_remove ["grid"; "grid-cols-1"; "sm:grid-cols-2"; "md:grid-cols-3";
                   "lg:grid-cols-4"; "gap-4"] (fileContainer d)))
    "fas fa-th-large"
    (card_list <$> cards d)
    d.

(** The string [toggleView] hands to [localStorage.setItem]. *)
Definition mode_name (grid : bool) : string :=
  if grid then "grid" else "list".

Definition toggleView (forceList : bool) (s : State) : State :=
  let grid := if forceList then false else negb (isGridView (globals s)) in
  let s := with_globals (set_isGridView grid) s in
  let s :=
    with_browser
      (fun b => set_localStorage (<["viewMode" := mode_name grid]> (localStorage b)) b)
      s in
  with_dom (if grid then enable_grid else enable_list) s.

(** ** loadViewPreference (lines 216-221) *)

Definition loadViewPreference (s : State) : State :=
  let savedMode := localStorage (browser s) !! "viewMode" in
  if bool_decide (savedMode = Some "list") then toggleView true s else s.

(** ** showApproved, showRejected, closeModal (lines 486-506) *)

Definition showApproved : State -> State :=
  with_dom (fun d =>
    set_status (cl_add ["hidden"] (statusWaiting d))
               (statusRejected d)
               (cl_remove ["hidden"] (statusApproved d)) d).

Definition showRejected : State -> State :=
  with_dom (fun d =>
    set_status (cl_add ["hidden"] (statusWaiting d))
               (cl_remove ["hidden"] (statusRejected d))
               (statusApproved d) d).

(** A timer handle is an integer above zero, so [if (pollInterval)] only
    tells [null] from a handle. *)
Definition closeModal (s : State) : State :=
  let s :=
    with_dom (fun d =>
      set_modal (cl_add ["opacity-0"; "pointer-events-none"] (approvalModal d))
                (cl_remove ["scale-100"] (cl_add ["scale-95"] (approvalContent d)))
                d) s in
  let s := clearInterval (pollInterval (globals s)) s in
  with_globals (set_currentReqId JNull) s.

(** ** checkStatus (lines 367-402, and again 583-623) *)

(** Lines 388-400: the pause overlay follows [data.paused]. *)
Definition apply_pause (data : StatusData) (s : State) : State :=
  if truthy (paused data) && negb (pausedState (globals s)) then
    let s := with_globals (set_pausedState true) s in
    with_dom (fun d =>
      set_pause (cl_remove ["opacity-0"; "pointer-events-none"] (pauseOverlay d))
                (cl_add ["blur-sm"] (mainContent d)) d) s
  else if negb (truthy (paused data)) && pausedState (globals s) then
    let s := with_globals (set_pausedState false) s in
    with_dom (fun d =>
      set_pause (cl_add ["opacity-0"; "pointer-events-none"] (pauseOverlay d))
                (cl_remove ["blur-sm"] (mainContent d)) d) s
  else s.

(** The [data => { ... }] reaction (lines 370-401). *)
Definition checkStatus_data (data : StatusData) (s : State) : State :=
  if truthy (force_logout data) then
    navigate (Assign (JStr "/login?reason=logout")) s
  else if negb (truthy (running data)) then
    navigate (Assign (JStr "/logout")) s
  else if strict_eq (currentConfigId (globals s)) JNull then
    apply_pause data (with_globals (set_currentConfigId (config_id data)) s)
  else if negb (strict_eq (currentConfigId (globals s)) (config_id data)) then
    navigate (Assign (JStr "/files")) s
  else
    apply_pause data s.

(** The call itself only issues the request. *)
Definition checkStatus : State -> State := fetch_send GetStatus.

(** The chain [fetch(...).then(response => response.json()).then(data => ...)]
    once the request has come back with [o]. *)
Definition checkStatus_chain (o : FetchOutcome StatusData) : Promise unit :=
  fetch_result o THEN json THEN (fun data => exec (checkStatus_data data)).

Definition checkStatus_reply (o : FetchOutcome StatusData) : State -> State :=
  settle (checkStatus_chain o).

(** ** pollRequest (lines 466-484) *)

Definition pollRequest (reqId : JsVal) (s : State) : State :=
  let '(h, s) := setTimer (IntervalPoll reqId) s in
  with_globals (set_pollInterval (Some h)) s.

(** The interval callback: one request per tick. *)
Definition pollRequest_tick (reqId : JsVal) : State -> State :=
  fetch_send (GetCheckRequest reqId).

(** The [data => { ... }] reaction (lines 470-482). *)
Definition pollRequest_data (data : RequestData) (s : State) : State :=
  if strict_eq (status data) (JStr "approved") then
    let s := clearInterval (pollInterval (globals s)) s in
    let s := showApproved s in
    snd (setTimer (TimeoutRedirect (link data)) s)
  else if strict_eq (status data) (JStr "rejected") then
    let s := clearInterval (pollInterval (globals s)) s in
    showRejected s
  else s.

Definition pollRequest_chain (o : FetchOutcome RequestData) : Promise unit :=
  fetch_result o THEN json THEN (fun data => exec (pollRequest_data data)).

Definition pollRequest_reply (o : FetchOutcome RequestData) : State -> State :=
  settle (pollRequest_chain o).

(** The [setTimeout] callback of the approved branch (lines 474-477). *)
Definition pollRequest_redirect (link : JsVal) (s : State) : State :=
  closeModal (navigate (Assign link) s).

(** ** initiateDownload (lines 407-447) *)

(** Up to and including the [fetch] call (lines 408-426). *)
Definition initiateDownload (filename path : string) (s : State) : State :=
  let s :=
    with_dom (fun d =>
      set_modal (cl_remove ["opacity-0"; "pointer-events-none"] (approvalModal d))
                (cl_add ["scale-100"] (cl_remove ["scale-95"] (approvalContent d)))
                d) s in
  let s :=
    with_dom (fun d =>
      set_status (cl_remove ["hidden"] (statusWaiting d))
                 (cl_add ["hidden"] (statusRejected d))
                 (cl_add ["hidden"] (statusApproved d)) d) s in
  let s := with_dom (set_reqIdDisplay "ID: ...") s in
  let s := with_globals (set_currentReqId JNull) s in
  fetch_send (PostRequestDownload filename path) s.

(** The first reaction (lines 427-430). *)
Definition initiateDownload_response (response : Response RequestData)
  : Promise RequestData :=
  if negb (ok response) then throw (Error "File not found or server error")
  else json response.

(** The second reaction (lines 431-440).  [data.req_id.substring] throws a
    TypeError unless [data.req_id] is a string; the assignment to
    [currentReqId] has happened by then. *)
Definition initiateDownload_data (data : RequestData) : Promise unit :=
  if strict_eq (status data) (JStr "approved") then
    exec (fun s => navigate (Assign (direct_link data)) (closeModal s))
  else if strict_eq (status data) (JStr "pending") then
    exec (with_globals (set_currentReqId (req_id data))) THEN (fun _ =>
    match req_id data with
    | JStr id =>
        exec (fun s =>
          let s := with_dom (set_reqIdDisplay ("ID: " +:+ String.substring 0 8 id)) s in
          pollRequest (req_id data) s)
    | _ => throw (TypeError "data.req_id.substring is not a function")
    end)
  else resolve tt.

(** The rejection handler (lines 441-446). *)
Definition initiateDownload_catch (err : JsError) (s : State) : State :=
  let s := console_error ("Download Request Failed: " +:+ error_message err) s in
  let s := closeModal s in
  let s := alert "Could not request file. The shared folder might have changed." s in
  navigate Reload s.

Definition initiateDownload_chain (o : FetchOutcome RequestData)
  : Promise unit :=
  fetch_result o THEN initiateDownload_response
                 THEN initiateDownload_data
                 CATCH (fun err => exec (initiateDownload_catch err)).

Definition initiateDownload_reply (o : FetchOutcome RequestData)
  : State -> State :=
  settle (initiateDownload_chain o).

(** ** cancelDownload (lines 452-461) *)

Definition cancelDownload (s : State) : State :=
  let s :=
    if truthy (currentReqId (globals s))
    then fetch_send (PostCancelRequest (currentReqId (globals s))) s
    else s in
  closeModal s.

(** [fetch(...).catch(e => console.error(e))] *)
Definition cancelDownload_chain (o : FetchOutcome unit) : Promise unit :=
  fetch_result o CATCH (fun e => exec (console_error (error_message e))).

Definition cancelDownload_reply (o : FetchOutcome unit) : State -> State :=
  settle (cancelDownload_chain o).

(** ** Loading the page (lines 189-210 and 508-512) *)

Definition initial_globals : Globals :=
  {| isGridView := true; pausedState := false; currentConfigId := JNull;
     currentReqId := JNull; pollInterval := None |}.

Definition fresh_browser (stored : gmap string string) : Browser :=
  {| timers := ∅; nextHandle := 1%positive; localStorage := stored;
     navigations := []; requests := []; console := []; alerts := [];
     unhandled := [] |}.

(** The script's top level: the variables, [loadViewPreference()], then
    [setInterval(checkStatus, 1000)].  [stored] is what client-local storage
    holds from earlier visits. *)
Definition page_load (d : Dom) (stored : gmap string string) : State :=
  let s := {| globals := initial_globals; dom := d;
              browser := fresh_browser stored |} in
  let s := loadViewPreference s in
  snd (setTimer IntervalCheckStatus s).

(** ** The event loop *)

(** One task of the event loop.  A reply is handed to its chain whenever the
    environment chooses; the model does not ask that the request was sent. *)
Inductive event :=
| Call_initiateDownload (filename path : string)
| Call_pollRequest (reqId : JsVal)
| Call_cancelDownload
| Call_closeModal
| Call_toggleView
| TimerFires (h : positive)
| Reply_status (o : FetchOutcome StatusData)
| Reply_request_download (o : FetchOutcome RequestData)
| Reply_check_request (o : FetchOutcome RequestData)
| Reply_cancel_request (o : FetchOutcome unit).

(** A timer that fires runs its callback; a timeout leaves the table. *)
Definition fire (h : positive) (s : State) : State :=
  match timers (browser s) !! h with
  | Some IntervalCheckStatus => checkStatus s
  | Some (IntervalPoll reqId) => pollRequest_tick reqId s
  | Some (TimeoutRedirect link) =>
      pollRequest_redirect link (clearInterval (Some h) s)
  | None => s
  end.

Definition step (s : State) (e : event) : State :=
  match e with
  | Call_initiateDownload f p => initiateDownload f p s
  | Call_pollRequest r => pollRequest r s
  | Call_cancelDownload => cancelDownload s
  | Call_closeModal => closeModal s
  | Call_toggleView => toggleView false s
  | TimerFires h => fire h s
  | Reply_status o => checkStatus_reply o s
  | Reply_request_download o => initiateDownload_reply o s
  | Reply_check_request o => pollRequest_reply o s
  | Reply_cancel_request o => cancelDownload_reply o s
  end.

Definition run (es : list event) (s : State) : State := fold_left step es s.

(** *** Observations *)

Definition is_poll (t : Timer) : bool :=
  match t with IntervalPoll _ => true | _ => false end.

(** The handles of the polling intervals that are active. *)
Definition poll_timers (s : State) : list positive :=
  fst <$> List.filter (fun p => is_poll (snd p))
                      (map_to_list (timers (browser s))).

Definition shown (c : classList) : Prop := "hidden" ∉ c.

(** ** What the properties observe *)

(** The part of the state the pause overlay consists of. *)
Definition pause_ui (s : State) : bool * classList * classList :=
  (pausedState (globals s), pauseOverlay (dom s), mainContent (dom s)).

(** A status reply as the server documents it, with the two flags that
    come before the configuration check given as booleans. *)
Definition status_reply (http_ok logout up : bool) (cfg pause : JsVal)
  : FetchOutcome StatusData :=
  Responded {| ok := http_ok;
               body := Some {| force_logout := JBool logout;
                               running := JBool up;
                               config_id := cfg;
                               paused := pause |} |}.

(** The overlay once shown and once hidden again (lines 391-400). *)
Definition entered (s : State) : bool * classList * classList :=
  (true,
   cl_remove ["opacity-0"; "pointer-events-none"] (pauseOverlay (dom s)),
   cl_add ["blur-sm"] (mainContent (dom s))).

Definition exited (s : State) : bool * classList * classList :=
  (false,
   cl_add ["opacity-0"; "pointer-events-none"] (pauseOverlay (dom s)),
   cl_remove ["blur-sm"] (mainContent (dom s))).

(** What a status reply says about [paused], if it says anything. *)
Definition reply_paused (o : FetchOutcome StatusData) : option bool :=
  match o with
  | Responded r => (fun data => truthy (paused data)) <$> body r
  | NetworkError => None
  end.

(** A [request_download] reply that asks the page to wait for approval. *)
Definition pending_reply (id : string) (dl lk : JsVal)
  : FetchOutcome RequestData :=
  Responded {| ok := true;
               body := Some {| status := JStr "pending"; direct_link := dl;
                               req_id := JStr id; link := lk |} |}.

(** The [status] a [check_request] reply carries, if it carries one. *)
Definition reply_status (o : FetchOutcome RequestData) : option JsVal :=
  match o with
  | Responded r => status <$> body r
  | NetworkError => None
  end.

Definition is_approved (o : FetchOutcome RequestData) : bool :=
  bool_decide (reply_status o = Some (JStr "approved")).

Definition is_rejected (o : FetchOutcome RequestData) : bool :=
  bool_decide (reply_status o = Some (JStr "rejected")).

Definition is_terminal (o : FetchOutcome RequestData) : bool :=
  is_approved o || is_rejected o.

(** The replies of a loop, handed to the page one after the other. *)
Definition poll_replies (os : list (FetchOutcome RequestData)) : list event :=
  Reply_check_request <$> os.

(** The loop with handle [h] is the one [pollInterval] names, and [h] has
    been handed out. *)
Definition owns_loop (h : positive) (s : State) : Prop :=
  pollInterval (globals s) = Some h /\ (h < nextHandle (browser s))%positive.

(** The request did not bring back JSON: the network failed, or the payload
    did not parse. *)
Definition fetch_failed {D} (o : FetchOutcome D) : bool :=
  match o with
  | NetworkError => true
  | Responded r => bool_decide (body r = None)
  end.

(** The error the chain of a failed request is rejected with. *)
Definition fetch_error {D} (o : FetchOutcome D) : JsError :=
  match o with
  | NetworkError => TypeError "Failed to fetch"
  | Responded _ => SyntaxError "Unexpected token in JSON"
  end.

(** ** The first revision (lines 1-185)

    It has no [force_logout], no configuration baseline, no request
    identifier and no failure handler.  [pollRequest], [showApproved],
    [showRejected] and the pause step of [checkStatus] are as above. *)

Module Rev1.

(** Lines 173-182. *)
Definition closeModal (s : State) : State :=
  let s :=
    with_dom (fun d =>
      set_modal (cl_add ["opacity-0"; "pointer-events-none"] (approvalModal d))
                (cl_remove ["scale-100"] (cl_add ["scale-95"] (approvalContent d)))
                d) s in
  clearInterval (pollInterval (globals s)) s.

(** Lines 65-84: the reload is not followed by a [return]. *)
Definition checkStatus_data (data : StatusData) (s : State) : State :=
  let s := if negb (truthy (running data)) then navigate Reload s else s in
  apply_pause data s.

Definition checkStatus_chain (o : FetchOutcome StatusData) : Promise unit :=
  fetch_result o THEN json THEN (fun data => exec (checkStatus_data data)).

Definition checkStatus_reply (o : FetchOutcome StatusData) : State -> State :=
  settle (checkStatus_chain o).

(** Lines 115-125. *)
Definition initiateDownload_data (data : RequestData) : Promise unit :=
  if strict_eq (status data) (JStr "approved") then
    exec (fun s => navigate (Assign (direct_link data)) (closeModal s))
  else if strict_eq (status data) (JStr "pending") then
    match req_id data with
    | JStr id =>
        exec (fun s =>
          let s := with_dom (set_reqIdDisplay ("ID: " +:+ String.substring 0 8 id)) s in
          pollRequest (req_id data) s)
    | _ => throw (TypeError "data.req_id.substring is not a function")
    end
  else resolve tt.

(** Lines 109-125: neither a test of [response.ok] nor a [catch]. *)
Definition initiateDownload_chain (o : FetchOutcome RequestData)
  : Promise unit :=
  fetch_result o THEN json THEN initiateDownload_data.

Definition initiateDownload_reply (o : FetchOutcome RequestData)
  : State -> State :=
  settle (initiateDownload_chain o).

End Rev1.

(** ** A page to run the script on *)

Definition demo_card : Card :=
  {| card_classes := list_to_set ["file-card"; "flex-col"; "min-h-[180px]"; "p-4"];
     card_bg_icon := Some (list_to_set ["bg-icon"]);
     card_inner_wrapper := Some (list_to_set ["inner-wrapper"; "flex-col"]);
     card_icon_wrapper := Some (list_to_set ["icon-wrapper"; "w-12"; "h-12"; "mb-3"]);
     card_text_content :=
       Some {| text_classes := list_to_set ["text-content"];
               text_h3 := Some (list_to_set ["line-clamp-2"; "break-all"]) |};
     card_action_btn_wrapper :=
       Some {| wrapper_classes := list_to_set ["action-btn-wrapper"; "w-full"];
               wrapper_button := Some (list_to_set ["w-full"; "py-2.5"]);
               wrapper_btn_text := Some (list_to_set ["btn-text"]) |} |}.

Definition demo_dom : Dom :=
  {| fileContainer := list_to_set ["grid"; "grid-cols-1"; "gap-4"];
     viewIcon := "fas fa-list-ul";
     cards := [demo_card];
     pauseOverlay := list_to_set ["opacity-0"; "pointer-events-none"];
     mainContent := ∅;
     approvalModal := list_to_set ["opacity-0"; "pointer-events-none"];
     approvalContent := list_to_set ["scale-95"];
     statusWaiting := ∅;
     statusRejected := list_to_set ["hidden"];
     statusApproved := list_to_set ["hidden"];
     reqIdDisplay := "ID: ..." |}.

(** The page right after loading, with nothing in client-local storage. *)
Definition demo_state : State := page_load demo_dom ∅.

(** Two downloads started one after the other, both answered [pending]. *)
Definition two_downloads : list event :=
  [Call_initiateDownload "report.pdf" "docs";
   Reply_request_download (pending_reply "abc123" JUndefined JUndefined);
   Call_initiateDownload "notes.txt" "docs";
   Reply_request_download (pending_reply "def456" JUndefined JUndefined)].

(** ** What the further properties observe *)

Definition is_string (v : JsVal) : bool :=
  match v with JStr _ => true | _ => false end.

(** The outcomes of [request_download] that end in the rejection handler of
    [initiateDownload]: no reply, a status outside 2xx, a body that is not
    JSON, or a [pending] reply whose [req_id] has no [substring]. *)
Definition request_fails (o : FetchOutcome RequestData) : bool :=
  match o with
  | NetworkError => true
  | Responded r =>
      negb (ok r)
      || match body r with
         | None => true
         | Some data =>
             negb (strict_eq (status data) (JStr "approved"))
             && strict_eq (status data) (JStr "pending")
             && negb (is_string (req_id data))
         end
  end.

(** A [check_request] reply with a verdict and, for an approval, a link. *)
Definition verdict_reply (http_ok : bool) (verdict : string) (lnk : JsVal)
  : FetchOutcome RequestData :=
  Responded {| ok := http_ok;
               body := Some {| status := JStr verdict; direct_link := JUndefined;
                               req_id := JUndefined; link := lnk |} |}.

Definition failure_alert : string :=
  "Could not request file. The shared folder might have changed.".

(** The state with the view in a given mode: the flag, the stored
    preference and the layout as [toggleView] writes them. *)
Definition switch_to (grid : bool) (s : State) : State :=
  {| globals := set_isGridView grid (globals s);
     dom := (if grid then enable_grid else enable_list) (dom s);
     browser :=
       set_localStorage (<["viewMode" := mode_name grid]> (localStorage (browser s)))
                        (browser s) |}.

(** The stored preference says [list] exactly when the view is in list
    mode. *)
Definition view_synced (s : State) : Prop :=
  localStorage (browser s) !! "viewMode" = Some "list"
  <-> isGridView (globals s) = false.

(** The timer table, the next handle and the handle the script keeps. *)
Definition timer_state (s : State)
  : gmap positive Timer * positive * option positive :=
  (timers (browser s), nextHandle (browser s), pollInterval (globals s)).

(** The table after [clearInterval(pollInterval)]. *)
Definition cleared (h : option positive) (tm : gmap positive Timer)
  : gmap positive Timer :=
  match h with
  | Some i => delete i tm
  | None => tm
  end.

(** The interval of the session watcher is in the table under the first
    handle, every handle in the table has been handed out, and
    [pollInterval] names a later handle. *)
Definition watcher_alive (s : State) : Prop :=
  timers (browser s) !! 1%positive = Some IntervalCheckStatus
  /\ (forall h t, timers (browser s) !! h = Some t ->
                  (h < nextHandle (browser s))%positive)
  /\ (forall h, pollInterval (globals s) = Some h ->
                (1 < h < nextHandle (browser s))%positive).

(** The pause overlay is up, or down, as a whole. *)
Definition overlay_up (d : Dom) : Prop :=
  ("opacity-0" ∉ pauseOverlay d)
  /\ ("pointer-events-none" ∉ pauseOverlay d)
  /\ ("blur-sm" ∈ mainContent d).

Definition overlay_down (d : Dom) : Prop :=
  ("opacity-0" ∈ pauseOverlay d)
  /\ ("pointer-events-none" ∈ pauseOverlay d)
  /\ ("blur-sm" ∉ mainContent d).

Definition overlay_matches_flag (s : State) : Prop :=
  if pausedState (globals s) then overlay_up (dom s) else overlay_down (dom s).

(** ** toggleView of the first and the third revision (lines 23-56, 540-573)

    The mode is not stored.  Each card is restyled and then asked for its
    icon: [el.querySelector('.fa-file, .fa-folder')] may find none, and
    [.closest('.absolute')] on [null] throws, which ends [forEach] and the
    call with it. *)

Module PlainView.

(** A [.file-card]: its own classes, and what the icon lookup gives:
    [None] when the card has no icon, [Some None] when the icon has no
    [.absolute] ancestor, [Some (Some c)] for the ancestor's classes. *)
Record Card := {
  classes : classList;
  icon_bg : option (option classList)
}.

Record View := {
  grid_view : bool;                  (* isGridView *)
  container : classList;             (* #fileContainer *)
  icon : string;                     (* #viewIcon className *)
  file_cards : list Card
}.

(** The part of the callback before the icon lookup. *)
Definition restyle_classes (grid : bool) (el : Card) : Card :=
  {| classes :=
       if grid
       then cl_add ["flex-col"; "min-h-[180px]"]
              (cl_remove ["flex-row"; "items-center"; "min-h-[60px]"] (classes el))
       else cl_add ["flex-row"; "items-center"; "min-h-[60px]"; "gap-4"]
              (cl_remove ["flex-col"; "min-h-[180px]"] (classes el));
     icon_bg := icon_bg el |}.

(** The whole callback on a card that has its icon. *)
Definition restyle (grid : bool) (el : Card) : Card :=
  {| classes := classes (restyle_classes grid el);
     icon_bg :=
       (fun bg : option classList =>
          (if grid then cl_remove ["hidden"] else cl_add ["hidden"]) <$> bg)
         <$> icon_bg el |}.

Definition has_icon (el : Card) : Prop := is_Some (icon_bg el).

(** [cards.forEach(el => ...)]: the cards in order, up to the first one
    whose callback throws. *)
Fixpoint forEach (grid : bool) (cs : list Card) : list Card * option JsError :=
  match cs with
  | [] => ([], None)
  | el :: rest =>
      match icon_bg el with
      | None =>
          (restyle_classes grid el :: rest,
           Some (TypeError "Cannot read properties of null (reading 'closest')"))
      | Some _ =>
          let '(rest', err) := forEach grid rest in
          (restyle grid el :: rest', err)
      end
  end.

Definition toggleView (v : View) : View * option JsError :=
  let grid := negb (grid_view v) in
  let '(cs, err) := forEach grid (file_cards v) in
  ({| grid_view := grid;
      container :=
        if grid
        then cl_add ["grid"; "grid-cols-1"; "sm:grid-cols-2"; "md:grid-cols-3";
                     "lg:grid-cols-4"]
               (cl_remove ["flex"; "flex-col"] (container v))
        else cl_add ["flex"; "flex-col"]
               (cl_remove ["grid"; "grid-cols-1"; "sm:grid-cols-2";
                           "md:grid-cols-3"; "lg:grid-cols-4"] (container v));
      icon := if grid then "fas fa-list-ul" else "fas fa-th-large";
      file_cards := cs |},
   err).

End PlainView.

(** * The admin dashboard script (the second source file)

    The script of the admin page: a notification toast, two pollers that
    refresh the switches and the table of pending requests, and the calls
    that change the server configuration or decide a request.  It runs on
    its own page, so it has a state of its own; values, class lists and
    fetch outcomes are those of the client script. *)

Module Admin.

Inductive Timer :=
| IntervalFetchState                 (* setInterval(fetchState, 2000) *)
| IntervalFetchRequests              (* setInterval(fetchRequests, 2000) *)
| TimeoutToast.                      (* the setTimeout of showNotification *)

Inductive Request :=
| GetStatus                                   (* GET /admin/api/status *)
| PostStatus (key : string) (value : JsVal)  (* POST, body {[key]: value} *)
| GetRequests                                 (* GET /admin/api/requests *)
| PostDecision (reqId decision : string).     (* POST /admin/api/decision *)

(** [data.config] of a status reply. *)
Record Config := {
  is_running : JsVal;
  is_paused : JsVal;
  require_approval : JsVal
}.

(** The body of a status reply; [config] is [None] when the reply has no
    such property. *)
Record StatusData := {
  config : option Config
}.

(** A value of the object a [requests] reply carries, when that value is
    not [null].  [file] is what [req.file] reads, [undefined] when the
    value has no such property.  [timeStr] is the text that
    [new Date(req.timestamp * 1000).toLocaleTimeString()] gives for the
    value (line 116): it depends on the locale and the time zone of the
    browser, and the script uses the timestamp in no other way. *)
Record PendingRequest := {
  file : JsVal;
  timeStr : string
}.

(** The body of a [requests] reply: [null], or a value with its own
    enumerable keys in the order [Object.keys] gives them, each with the
    value the reply holds under it, [None] for [null]. *)
Inductive RequestsData :=
| DataNull
| DataObject (entries : list (string * option PendingRequest)).

Record Dom := {
  toggleRunning : bool;              (* checked *)
  togglePause : bool;
  toggleApproval : bool;
  indicator_class : string;          (* #status-indicator className *)
  indicator_html : string;           (* #status-indicator innerHTML *)
  folderPath : string;               (* value *)
  clientPass : string;
  notificationToast : classList;
  toastMessage : string;             (* innerText *)
  pendingCount : nat;                (* the number the badge shows *)
  requestsTable : string             (* #requestsTable innerHTML *)
}.

Record State := {
  toastTimeout : option positive;    (* undefined or a timer handle *)
  dom : Dom;
  timers : gmap positive Timer;
  nextHandle : positive;
  requests : list Request;
  unhandled : list JsError
}.

Definition with_dom (f : Dom -> Dom) (s : State) : State :=
  {| toastTimeout := toastTimeout s; dom := f (dom s); timers := timers s;
     nextHandle := nextHandle s; requests := requests s;
     unhandled := unhandled s |}.

Definition set_toast (c : classList) (m : string) (d : Dom) : Dom :=
  {| toggleRunning := toggleRunning d; togglePause := togglePause d;
     toggleApproval := toggleApproval d;
     indicator_class := indicator_class d; indicator_html := indicator_html d;
     folderPath := folderPath d; clientPass := clientPass d;
     notificationToast := c; toastMessage := m;
     pendingCount := pendingCount d; requestsTable := requestsTable d |}.

Definition set_switches (r p a : bool) (ic ih : string) (d : Dom) : Dom :=
  {| toggleRunning := r; togglePause := p; toggleApproval := a;
     indicator_class := ic; indicator_html := ih;
     folderPath := folderPath d; clientPass := clientPass d;
     notificationToast := notificationToast d; toastMessage := toastMessage d;
     pendingCount := pendingCount d; requestsTable := requestsTable d |}.

Definition set_pending (n : nat) (t : string) (d : Dom) : Dom :=
  {| toggleRunning := toggleRunning d; togglePause := togglePause d;
     toggleApproval := toggleApproval d;
     indicator_class := indicator_class d; indicator_html := indicator_html d;
     folderPath := folderPath d; clientPass := clientPass d;
     notificationToast := notificationToast d; toastMessage := toastMessage d;
     pendingCount := n; requestsTable := t |}.

Definition fetch_send (r : Request) (s : State) : State :=
  {| toastTimeout := toastTimeout s; dom := dom s; timers := timers s;
     nextHandle := nextHandle s; requests := requests s ++ [r];
     unhandled := unhandled s |}.

(** A chain that ends rejected: none of the chains of this script has a
    rejection handler. *)
Definition reject (e : JsError) (s : State) : State :=
  {| toastTimeout := toastTimeout s; dom := dom s; timers := timers s;
     nextHandle := nextHandle s; requests := requests s;
     unhandled := unhandled s ++ [e] |}.

Definition clearTimeout (h : option positive) (s : State) : State :=
  match h with
  | Some i =>
      {| toastTimeout := toastTimeout s; dom := dom s;
         timers := delete i (timers s);
         nextHandle := nextHandle s; requests := requests s;
         unhandled := unhandled s |}
  | None => s
  end.

Definition setTimer (t : Timer) (s : State) : positive * State :=
  let h := nextHandle s in
  (h, {| toastTimeout := toastTimeout s; dom := dom s;
         timers := <[h := t]> (timers s);
         nextHandle := (h + 1)%positive; requests := requests s;
         unhandled := unhandled s |}).

(** ** showNotification (lines 12-24) *)

Definition showNotification (message : string) (s : State) : State :=
  let s :=
    with_dom (fun d =>
      set_toast (cl_remove ["translate-y-20"; "opacity-0"] (notificationToast d))
                message d) s in
  let s := clearTimeout (toastTimeout s) s in
  let '(h, s) := setTimer TimeoutToast s in
  {| toastTimeout := Some h; dom := dom s; timers := timers s;
     nextHandle := nextHandle s; requests := requests s;
     unhandled := unhandled s |}.

(** The timeout callback (lines 21-23). *)
Definition hide_toast : State -> State :=
  with_dom (fun d =>
    set_toast (cl_add ["translate-y-20"; "opacity-0"] (notificationToast d))
              (toastMessage d) d).

(** ** fetchState (lines 30-51) *)

Definition fetchState : State -> State := fetch_send GetStatus.

(** The double quote of the markup. *)
Definition dq : string := String (Ascii.ascii_of_nat 34) "".

Definition active_class : string :=
  "px-3 py-1 rounded-full text-xs font-bold bg-emerald-500/20 text-emerald-400 border border-emerald-500/30".

Definition active_html : string :=
  "<i class=" +:+ dq +:+ "fas fa-circle text-[8px] mr-2" +:+ dq +:+ "></i>Active".

Definition offline_class : string :=
  "px-3 py-1 rounded-full text-xs font-bold bg-red-500/20 text-red-400 border border-red-500/30".

Definition offline_html : string :=
  "<i class=" +:+ dq +:+ "fas fa-circle text-[8px] mr-2" +:+ dq +:+ "></i>Offline".

(** The [data => { ... }] reaction (lines 33-50); reading a property of an
    undefined [config] throws before anything is written. *)
Definition fetchState_data (data : StatusData) (s : State) : State :=
  match config data with
  | None => reject (TypeError "Cannot read properties of undefined") s
  | Some c =>
      with_dom
        (set_switches (truthy (is_running c)) (truthy (is_paused c))
                      (truthy (require_approval c))
                      (if truthy (is_running c) then active_class else offline_class)
                      (if truthy (is_running c) then active_html else offline_html))
        s
  end.

(** A chain [fetch(...).then(response => response.json()).then(h)]. *)
Definition then_json {D} (o : FetchOutcome D) (h : D -> State -> State)
    (s : State) : State :=
  match o with
  | NetworkError => reject (TypeError "Failed to fetch") s
  | Responded r =>
      match body r with
      | None => reject (SyntaxError "Unexpected token in JSON") s
      | Some data => h data s
      end
  end.

(** A chain [fetch(...).then(() => h)]: the reaction runs on every
    response, whatever its status. *)
Definition then_any {D} (o : FetchOutcome D) (h : State -> State)
    (s : State) : State :=
  match o with
  | NetworkError => reject (TypeError "Failed to fetch") s
  | Responded _ => h s
  end.

Definition fetchState_reply (o : FetchOutcome StatusData) : State -> State :=
  then_json o fetchState_data.

(** ** toggleState (lines 58-73) *)

Definition checkbox_of (key : string) (d : Dom) : bool :=
  if String.eqb key "is_running" then toggleRunning d
  else if String.eqb key "is_paused" then togglePause d
  else toggleApproval d.

Definition toggleState (key : string) (s : State) : State :=
  fetch_send (PostStatus key (JBool (checkbox_of key (dom s)))) s.

Definition toggleState_reply (o : FetchOutcome unit) : State -> State :=
  then_any o fetchState.

(** ** updateConfig (lines 80-93) *)

Definition updateConfig (type : string) (s : State) : State :=
  let folder := String.eqb type "folder" in
  let configKey := if folder then "folder_path" else "password" in
  let value := if folder then folderPath (dom s) else clientPass (dom s) in
  fetch_send (PostStatus configKey (JStr value)) s.

Definition updateConfig_reply (type : string) (o : FetchOutcome unit)
  : State -> State :=
  then_any o
    (showNotification (if String.eqb type "folder"
                       then "Shared folder path updated."
                       else "Access password updated.")).

(** ** fetchRequests (lines 98-129) *)

Definition fetchRequests : State -> State := fetch_send GetRequests.

(** What a template literal makes of a value it splices in. *)
Definition to_string (v : JsVal) : string :=
  match v with
  | JUndefined => "undefined"
  | JNull => "null"
  | JBool true => "true"
  | JBool false => "false"
  | JNum n => pretty n
  | JStr s => s
  end.

(** The line break of the markup. *)
Definition nl : string := String (Ascii.ascii_of_nat 10) "".

(** The markup of line 109. *)
Definition placeholder_html : string :=
  "<tr><td colspan=" +:+ dq +:+ "3" +:+ dq +:+ " class=" +:+ dq +:+ "px-4 py-4 text-center italic text-slate-600" +:+ dq +:+ ">No pending requests</td></tr>".

(** The template literal of lines 117-126: the time text, the file and
    the key go into the markup as they are. *)
Definition row_html (id : string) (req : PendingRequest) : string :=
  nl +:+
  "                    <tr class=" +:+ dq +:+ "bg-slate-900/20 hover:bg-slate-800/50 transition" +:+ dq +:+ ">" +:+ nl +:+
  "                        <td class=" +:+ dq +:+ "px-4 py-3 font-mono text-xs" +:+ dq +:+ ">" +:+ timeStr req +:+ "</td>" +:+ nl +:+
  "                        <td class=" +:+ dq +:+ "px-4 py-3 text-white font-medium" +:+ dq +:+ ">" +:+ to_string (file req) +:+ "</td>" +:+ nl +:+
  "                        <td class=" +:+ dq +:+ "px-4 py-3 flex gap-2" +:+ dq +:+ ">" +:+ nl +:+
  "                            <button onclick=" +:+ dq +:+ "decide('" +:+ id +:+ "', 'approved')" +:+ dq +:+ " class=" +:+ dq +:+ "px-3 py-1 bg-emerald-600 hover:bg-emerald-500 text-white rounded text-xs transition" +:+ dq +:+ ">Approve</button>" +:+ nl +:+
  "                            <button onclick=" +:+ dq +:+ "decide('" +:+ id +:+ "', 'rejected')" +:+ dq +:+ " class=" +:+ dq +:+ "px-3 py-1 bg-red-600 hover:bg-red-500 text-white rounded text-xs transition" +:+ dq +:+ ">Reject</button>" +:+ nl +:+
  "                        </td>" +:+ nl +:+
  "                    </tr>" +:+ nl +:+
  "                ".

(** [data[id]]: the value under the first key equal to [id]. *)
Fixpoint get (id : string) (entries : list (string * option PendingRequest))
  : option (option PendingRequest) :=
  match entries with
  | [] => None
  | (k, v) :: rest => if String.eqb k id then Some v else get id rest
  end.

(** The callback of [reqIds.map] (lines 114-127): reading [req.timestamp]
    throws when [req] is [null]. *)
Definition row (entries : list (string * option PendingRequest)) (id : string)
  : JsError + string :=
  match get id entries with
  | Some (Some req) => inr (row_html id req)
  | Some None =>
      inl (TypeError "Cannot read properties of null (reading 'timestamp')")
  | None =>
      inl (TypeError "Cannot read properties of undefined (reading 'timestamp')")
  end.

(** [reqIds.map(id => ...).join('')]: the callback runs on the keys in
    order and the first throw ends the call. *)
Fixpoint render (entries : list (string * option PendingRequest))
    (reqIds : list string) : JsError + string :=
  match reqIds with
  | [] => inr ""
  | id :: rest =>
      match row entries id with
      | inl e => inl e
      | inr html =>
          match render entries rest with
          | inl e => inl e
          | inr htmls => inr (html +:+ htmls)
          end
      end
  end.

(** The [data => { ... }] reaction (lines 101-128).  [Object.keys] throws
    on [null]; the badge is written before the table, so a throw in
    [reqIds.map] leaves the new count beside the old table. *)
Definition fetchRequests_data (data : RequestsData) (s : State) : State :=
  match data with
  | DataNull => reject (TypeError "Cannot convert undefined or null to object") s
  | DataObject entries =>
      let reqIds := entries.*1 in
      let s := with_dom (fun d => set_pending (length reqIds) (requestsTable d) d) s in
      if Nat.eqb (length reqIds) 0 then
        with_dom (fun d => set_pending (pendingCount d) placeholder_html d) s
      else
        match render entries reqIds with
        | inr html => with_dom (fun d => set_pending (pendingCount d) html d) s
        | inl e => reject e s
        end
  end.

Definition fetchRequests_reply (o : FetchOutcome RequestsData)
  : State -> State :=
  then_json o fetchRequests_data.

(** ** decide (lines 137-146) *)

Definition decide (reqId decision : string) (s : State) : State :=
  fetch_send (PostDecision reqId decision) s.

Definition decide_reply (decision : string) (o : FetchOutcome unit)
  : State -> State :=
  then_any o (fun s =>
    showNotification ("Request " +:+ decision +:+ ".") (fetchRequests s)).

(** ** Loading the page (lines 5 and 148-152) *)

Definition page_load (d : Dom) : State :=
  let s := {| toastTimeout := None; dom := d; timers := ∅;
              nextHandle := 1%positive; requests := []; unhandled := [] |} in
  let s := snd (setTimer IntervalFetchState s) in
  let s := snd (setTimer IntervalFetchRequests s) in
  fetchRequests (fetchState s).

(** ** The event loop *)

Inductive event :=
| Call_showNotification (message : string)
| Call_toggleState (key : string)
| Call_updateConfig (type : string)
| Call_decide (reqId decision : string)
| TimerFires (h : positive)
| Reply_status (o : FetchOutcome StatusData)
| Reply_requests (o : FetchOutcome RequestsData)
| Reply_toggleState (o : FetchOutcome unit)
| Reply_updateConfig (type : string) (o : FetchOutcome unit)
| Reply_decide (decision : string) (o : FetchOutcome unit).

Definition fire (h : positive) (s : State) : State :=
  match timers s !! h with
  | Some IntervalFetchState => fetchState s
  | Some IntervalFetchRequests => fetchRequests s
  | Some TimeoutToast => hide_toast (clearTimeout (Some h) s)
  | None => s
  end.

Definition step (s : State) (e : event) : State :=
  match e with
  | Call_showNotification m => showNotification m s
  | Call_toggleState k => toggleState k s
  | Call_updateConfig t => updateConfig t s
  | Call_decide r d => decide r d s
  | TimerFires h => fire h s
  | Reply_status o => fetchState_reply o s
  | Reply_requests o => fetchRequests_reply o s
  | Reply_toggleState o => toggleState_reply o s
  | Reply_updateConfig t o => updateConfig_reply t o s
  | Reply_decide d o => decide_reply d o s
  end.

Definition run (es : list event) (s : State) : State := fold_left step es s.

(** *** Observations *)

Definition toast_up (s : State) : Prop :=
  "opacity-0" ∉ notificationToast (dom s).

(** The handles of the toast timeouts that are pending. *)
Definition toast_timers (s : State) : list positive :=
  fst <$> List.filter (fun p => match snd p with TimeoutToast => true | _ => false end)
                      (map_to_list (timers s)).

(** The pollers are in the table under the first two handles, every handle
    in the table has been handed out, a pending toast timeout is the one
    [toastTimeout] names, and a toast that is up has its timeout pending. *)
Definition toast_kept (s : State) : Prop :=
  timers s !! 1%positive = Some IntervalFetchState
  /\ timers s !! 2%positive = Some IntervalFetchRequests
  /\ (forall h t, timers s !! h = Some t -> (h < nextHandle s)%positive)
  /\ (forall h, timers s !! h = Some TimeoutToast -> toastTimeout s = Some h)
  /\ (forall h, toastTimeout s = Some h -> (2 < h < nextHandle s)%positive)
  /\ (toast_up s -> exists h, timers s !! h = Some TimeoutToast).

(** The blocks of markup of a list of requests, one after the other. *)
Definition rows_html (reqs : list (string * PendingRequest)) : string :=
  foldr (fun r html => row_html r.1 r.2 +:+ html) "" reqs.

(** A reply object none of whose values is [null]. *)
Definition all_present (reqs : list (string * PendingRequest))
  : list (string * option PendingRequest) :=
  (fun r => (r.1, Some r.2)) <$> reqs.

End Admin.

(** ** Pages to run the other scripts on *)

Definition demo_admin_dom : Admin.Dom :=
  {| Admin.toggleRunning := true; Admin.togglePause := false;
     Admin.toggleApproval := true;
     Admin.indicator_class := ""; Admin.indicator_html := "";
     Admin.folderPath := "/srv/share"; Admin.clientPass := "secret";
     Admin.notificationToast := list_to_set ["translate-y-20"; "opacity-0"];
     Admin.toastMessage := "";
     Admin.pendingCount := 0;
     Admin.requestsTable := Admin.placeholder_html |}.

Definition demo_admin_state : Admin.State := Admin.page_load demo_admin_dom.

(** Two cards in grid layout; the second one has no icon. *)
Definition demo_plain_view : PlainView.View :=
  {| PlainView.grid_view := true;
     PlainView.container := list_to_set ["grid"; "grid-cols-1"];
     PlainView.icon := "fas fa-list-ul";
     PlainView.file_cards :=
       [ {| PlainView.classes := list_to_set ["file-card"; "flex-col"];
            PlainView.icon_bg := Some (Some ∅) |};
         {| PlainView.classes := list_to_set ["file-card"; "flex-col"];
            PlainView.icon_bg := None |} ] |}.

(** ** One loop at a time, and when *)

(** Every polling interval in the table is the one [pollInterval] names. *)
Definition single_loop (s : State) : Prop :=
  forall h r, timers (browser s) !! h = Some (IntervalPoll r) ->
              pollInterval (globals s) = Some h.

(** The tasks that reach [pollRequest]: a direct call, and a 2xx
    [request_download] reply with status [pending] and a string [req_id]. *)
Definition starts_loop (e : event) : bool :=
  match e with
  | Call_pollRequest _ => true
  | Reply_request_download (Responded r) =>
      ok r
      && match body r with
         | Some data =>
             negb (strict_eq (status data) (JStr "approved"))
             && strict_eq (status data) (JStr "pending")
             && is_string (req_id data)
         | None => false
         end
  | _ => false
  end.

(** A run in which no loop is started while another is in the table. *)
Fixpoint orderly (es : list event) (s : State) : Prop :=
  match es with
  | [] => True
  | e :: es' =>
      (starts_loop e = true -> poll_timers s = []) /\ orderly es' (step s e)
  end.

(** * Properties *)

(** ** How the chains unfold *)

Lemma checkStatus_reply_data k data s :
  checkStatus_reply (Responded {| ok := k; body := Some data |}) s
  = checkStatus_data data s.
Proof. reflexivity. Qed.

Lemma pollRequest_reply_data k data s :
  pollRequest_reply (Responded {| ok := k; body := Some data |}) s
  = pollRequest_data data s.
Proof. reflexivity. Qed.

(** The chain of [initiateDownload], outcome by outcome. *)
Lemma initiateDownload_reply_cases o s :
  initiateDownload_reply o s
  = match o with
    | NetworkError => initiateDownload_catch (TypeError "Failed to fetch") s
    | Responded r =>
        if negb (ok r) then
          initiateDownload_catch (Error "File not found or server error") s
        else
          match body r with
          | None =>
              initiateDownload_catch (SyntaxError "Unexpected token in JSON") s
          | Some data =>
              if strict_eq (status data) (JStr "approved") then
                navigate (Assign (direct_link data)) (closeModal s)
              else if strict_eq (status data) (JStr "pending") then
                let s := with_globals (set_currentReqId (req_id data)) s in
                match req_id data with
                | JStr id =>
                    pollRequest (req_id data)
                      (with_dom
                         (set_reqIdDisplay ("ID: " +:+ String.substring 0 8 id)) s)
                | _ =>
                    initiateDownload_catch
                      (TypeError "data.req_id.substring is not a function") s
                end
              else s
          end
    end.
Proof.
  destruct o as [|[[] [data|]]]; try reflexivity.
  unfold initiateDownload_reply, initiateDownload_chain, settle, catch_, then_; cbn.
  unfold initiateDownload_data.
  destruct (strict_eq (status data) (JStr "approved")); [reflexivity|].
  destruct (strict_eq (status data) (JStr "pending")); [|reflexivity].
  unfold then_; cbn. by destruct (req_id data).
Qed.

Lemma strict_eq_true a b : strict_eq a b = true <-> a = b.
Proof. unfold strict_eq. apply bool_decide_eq_true. Qed.

Lemma strict_eq_false a b : strict_eq a b = false <-> a <> b.
Proof. unfold strict_eq. apply bool_decide_eq_false. Qed.

Lemma strict_eq_refl a : strict_eq a a = true.
Proof. by apply strict_eq_true. Qed.

Lemma pollRequest_reply_cases o s :
  pollRequest_reply o s
  = if is_approved o then
      snd (setTimer (TimeoutRedirect (default JUndefined
                                        (match o with
                                         | Responded r => link <$> body r
                                         | NetworkError => None
                                         end)))
             (showApproved (clearInterval (pollInterval (globals s)) s)))
    else if is_rejected o then
      showRejected (clearInterval (pollInterval (globals s)) s)
    else
      match o with
      | NetworkError => with_browser (add_unhandled (TypeError "Failed to fetch")) s
      | Responded r =>
          match body r with
          | None =>
              with_browser (add_unhandled (SyntaxError "Unexpected token in JSON")) s
          | Some _ => s
          end
      end.
Proof.
  destruct o as [|[k [data|]]]; try reflexivity.
  rewrite pollRequest_reply_data. unfold pollRequest_data.
  unfold is_approved, is_rejected, strict_eq. cbn.
  destruct (decide (status data = JStr "approved")) as [Ha|Ha].
  - rewrite !bool_decide_eq_true_2; [done|congruence|done].
  - rewrite (bool_decide_eq_false_2 (status data = _)) by done.
    rewrite (bool_decide_eq_false_2 (Some (status data) = _)) by congruence.
    destruct (decide (status data = JStr "rejected")) as [Hr|Hr].
    + rewrite !bool_decide_eq_true_2; [done|congruence|done].
    + rewrite (bool_decide_eq_false_2 (status data = _)) by done.
      rewrite (bool_decide_eq_false_2 (Some (status data) = _)) by congruence.
      done.
Qed.

(** ** What each operation leaves alone *)

Lemma globals_clearInterval h s : globals (clearInterval h s) = globals s.
Proof. by destruct h. Qed.

Lemma dom_clearInterval h s : dom (clearInterval h s) = dom s.
Proof. by destruct h. Qed.

Lemma timers_clearInterval h s :
  timers (browser (clearInterval h s))
  = match h with
    | Some i => delete i (timers (browser s))
    | None => timers (browser s)
    end.
Proof. by destruct h. Qed.

Lemma nextHandle_clearInterval h s :
  nextHandle (browser (clearInterval h s)) = nextHandle (browser s).
Proof. by destruct h. Qed.

Lemma navigations_clearInterval h s :
  navigations (browser (clearInterval h s)) = navigations (browser s).
Proof. by destruct h. Qed.

Lemma globals_closeModal s :
  globals (closeModal s) = set_currentReqId JNull (globals s).
Proof. unfold closeModal. cbn. by rewrite globals_clearInterval. Qed.

Lemma browser_closeModal s :
  browser (closeModal s) = browser (clearInterval (pollInterval (globals s)) s).
Proof. unfold closeModal. cbn. by destruct (pollInterval (globals s)). Qed.

Lemma dom_closeModal s :
  dom (closeModal s)
  = set_modal (cl_add ["opacity-0"; "pointer-events-none"] (approvalModal (dom s)))
              (cl_remove ["scale-100"] (cl_add ["scale-95"] (approvalContent (dom s))))
              (dom s).
Proof. unfold closeModal. cbn. by rewrite dom_clearInterval. Qed.

Create Rewrite HintDb frame.

#[local] Hint Rewrite globals_clearInterval dom_clearInterval
  timers_clearInterval nextHandle_clearInterval navigations_clearInterval
  globals_closeModal browser_closeModal dom_closeModal : frame.

(** Splits on the tests a handler makes, then lets the frame equations
    finish. *)
Ltac handler_cases :=
  repeat (cbn; autorewrite with frame;
          match goal with
          | |- context [if ?b then _ else _] => destruct b eqn:?
          | |- context [match ?x with _ => _ end] => destruct x eqn:?
          end);
  cbn; autorewrite with frame; cbn; try done.

(** ** The session watcher *)

(** The configuration baseline is written by no handler but [checkStatus],
    and by that one only while it is still [null]. *)
Lemma step_keeps_baseline s e :
  currentConfigId (globals s) <> JNull ->
  currentConfigId (globals (step s e)) = currentConfigId (globals s).
Proof.
  intros Hb.
  destruct e as [f p|r| | | |h|o|o|o|o]; unfold step.
  - done.
  - done.
  - unfold cancelDownload. handler_cases.
  - by autorewrite with frame.
  - done.
  - unfold fire, pollRequest_redirect. handler_cases.
  - destruct o as [|[k [d|]]]; try done.
    rewrite checkStatus_reply_data. unfold checkStatus_data, apply_pause.
    apply strict_eq_false in Hb. rewrite Hb. handler_cases.
  - rewrite initiateDownload_reply_cases.
    unfold initiateDownload_catch, pollRequest. handler_cases.
  - destruct o as [|[k [d|]]]; try done.
    rewrite pollRequest_reply_data. unfold pollRequest_data.
    handler_cases.
  - by destruct o.
Qed.

Lemma run_keeps_baseline es : forall s,
  currentConfigId (globals s) <> JNull ->
  currentConfigId (globals (run es s)) = currentConfigId (globals s).
Proof.
  induction es as [|e es IH]; intros s Hb; [done|].
  cbn. rewrite IH; rewrite step_keeps_baseline; done.
Qed.

Section SessionWatcher.

Variable s : State.
Variable http_ok : bool.

(** C3: a reply with [force_logout] true makes exactly one navigation, to
    the login page with its reason marker, whatever [running], [paused]
    and [config_id] are, and changes nothing else on that tick. *)
Theorem checkStatus_force_logout (up : bool) (cfg pause : JsVal) :
  let s' := checkStatus_reply (status_reply http_ok true up cfg pause) s in
  navigations (browser s')
  = navigations (browser s) ++ [Assign (JStr "/login?reason=logout")]
  /\ globals s' = globals s
  /\ dom s' = dom s
  /\ s' = navigate (Assign (JStr "/login?reason=logout")) s.
Proof. by cbn. Qed.

(** C6, as amended: in the revisions that know the logout endpoint (lines
    376-379 and 594-597), a reply with [force_logout] false and [running]
    false navigates to the logout endpoint, and does nothing else. *)
Theorem checkStatus_not_running (cfg pause : JsVal) :
  let s' := checkStatus_reply (status_reply http_ok false false cfg pause) s in
  navigations (browser s') = navigations (browser s) ++ [Assign (JStr "/logout")]
  /\ s' = navigate (Assign (JStr "/logout")) s.
Proof. by cbn. Qed.

(** C4: with the session alive, the first reply records its [config_id]
    as the baseline.  From then on a reply with the same [config_id]
    leaves the baseline and the location alone (and the whole state, when
    [paused] has not changed either); a reply with another [config_id]
    makes exactly one navigation, to the file listing, and still leaves
    the baseline alone.  No later task of the page rewrites a baseline. *)
Theorem checkStatus_config_baseline (cfg pause : JsVal) :
  let s' := checkStatus_reply (status_reply http_ok false true cfg pause) s in
  (currentConfigId (globals s) = JNull ->
     currentConfigId (globals s') = cfg
     /\ navigations (browser s') = navigations (browser s))
  /\ (currentConfigId (globals s) <> JNull ->
      cfg = currentConfigId (globals s) ->
        currentConfigId (globals s') = currentConfigId (globals s)
        /\ navigations (browser s') = navigations (browser s)
        /\ (truthy pause = pausedState (globals s) -> s' = s))
  /\ (currentConfigId (globals s) <> JNull ->
      cfg <> currentConfigId (globals s) ->
        s' = navigate (Assign (JStr "/files")) s
        /\ currentConfigId (globals s') = currentConfigId (globals s)
        /\ navigations (browser s')
           = navigations (browser s) ++ [Assign (JStr "/files")])
  /\ (currentConfigId (globals s) <> JNull ->
      forall es, currentConfigId (globals (run es s))
                 = currentConfigId (globals s)).
Proof.
  intros s'. subst s'. unfold status_reply.
  rewrite checkStatus_reply_data. unfold checkStatus_data. simpl.
  split; [|split; [|split]].
  - intros ->. rewrite strict_eq_refl.
    unfold apply_pause. handler_cases.
  - intros Hb ->. apply strict_eq_false in Hb. rewrite Hb.
    rewrite strict_eq_refl. simpl. unfold apply_pause. simpl.
    split; [|split].
    + handler_cases.
    + handler_cases.
    + intros ->. by destruct (pausedState (globals s)).
  - intros Hb Hne. apply strict_eq_false in Hb. rewrite Hb.
    assert (strict_eq (currentConfigId (globals s)) cfg = false) as ->
      by (apply strict_eq_false; congruence).
    done.
  - intros Hb es. by apply run_keeps_baseline.
Qed.

End SessionWatcher.

(** ** The pause overlay *)

Lemma apply_pause_cases data s :
  pause_ui (apply_pause data s)
  = if truthy (paused data) && negb (pausedState (globals s)) then entered s
    else if negb (truthy (paused data)) && pausedState (globals s) then exited s
    else pause_ui s.
Proof. unfold apply_pause. repeat case_match; done. Qed.

Lemma apply_pause_flag data s :
  pausedState (globals (apply_pause data s)) = truthy (paused data).
Proof.
  unfold apply_pause.
  destruct (truthy (paused data)), (pausedState (globals s)) eqn:E; done.
Qed.

Lemma apply_pause_idem data s :
  apply_pause data (apply_pause data s) = apply_pause data s.
Proof.
  unfold apply_pause at 1. rewrite apply_pause_flag.
  by destruct (truthy (paused data)).
Qed.

Lemma apply_pause_baseline data s :
  currentConfigId (globals (apply_pause data s)) = currentConfigId (globals s).
Proof. unfold apply_pause. repeat case_match; done. Qed.

Lemma apply_pause_set_baseline data c s :
  apply_pause data (with_globals (set_currentConfigId c) s)
  = with_globals (set_currentConfigId c) (apply_pause data s).
Proof. unfold apply_pause. cbn. repeat case_match; done. Qed.

(** Handling the same status reply a second time changes neither the flag
    nor the overlay. *)
Lemma checkStatus_reply_twice o s :
  pause_ui (checkStatus_reply o (checkStatus_reply o s))
  = pause_ui (checkStatus_reply o s).
Proof.
  destruct o as [|[k [data|]]]; try done.
  rewrite !checkStatus_reply_data. unfold checkStatus_data at 2.
  destruct (truthy (force_logout data)) eqn:Hf.
  { unfold checkStatus_data. cbn. by rewrite Hf. }
  destruct (negb (truthy (running data))) eqn:Hr.
  { unfold checkStatus_data. cbn. by rewrite Hf, Hr. }
  destruct (strict_eq (currentConfigId (globals s)) JNull) eqn:Hn.
  { unfold checkStatus_data. rewrite Hf, Hr, Hn, apply_pause_baseline. cbn.
    destruct (strict_eq (config_id data) JNull) eqn:Hc.
    - rewrite !apply_pause_set_baseline, apply_pause_idem. done.
    - rewrite strict_eq_refl. cbn. by rewrite apply_pause_idem. }
  destruct (negb (strict_eq (currentConfigId (globals s)) (config_id data)))
    eqn:Hd.
  { unfold checkStatus_data. cbn. by rewrite Hf, Hr, Hn, Hd. }
  unfold checkStatus_data. rewrite Hf, Hr, apply_pause_baseline, Hn, Hd.
  by rewrite apply_pause_idem.
Qed.

(** C7: the pause overlay follows the edges of [paused] and nothing else.
    A status reply either leaves the flag and the overlay as they were, or
    it shows the overlay on a rising edge, or it hides it on a falling
    edge.  A reply whose [paused] equals the flag changes neither, and the
    same reply handled any number of times in a row leaves them as the
    first handling did.  When the reply gets as far as the pause step, an
    edge does toggle the overlay. *)
Theorem checkStatus_pause_edge_triggered (o : FetchOutcome StatusData) (s : State) :
  let s' := checkStatus_reply o s in
  (pause_ui s' = pause_ui s
   \/ (reply_paused o = Some true /\ pausedState (globals s) = false
       /\ pause_ui s' = entered s)
   \/ (reply_paused o = Some false /\ pausedState (globals s) = true
       /\ pause_ui s' = exited s))
  /\ (reply_paused o = Some (pausedState (globals s)) ->
      pause_ui s' = pause_ui s)
  /\ (forall n, pause_ui (Nat.iter (S n) (checkStatus_reply o) s) = pause_ui s')
  /\ (forall k cfg pause,
        o = status_reply k false true cfg pause ->
        currentConfigId (globals s) = JNull
        \/ currentConfigId (globals s) = cfg ->
        truthy pause <> pausedState (globals s) ->
        pause_ui s' = if truthy pause then entered s else exited s).
Proof.
  intros s'. subst s'.
  assert (Hcases : forall data,
    pause_ui (checkStatus_data data s) = pause_ui s
    \/ pause_ui (checkStatus_data data s) = pause_ui (apply_pause data s)).
  { intros data. unfold checkStatus_data.
    repeat case_match; try (by left).
    - right. by rewrite apply_pause_set_baseline.
    - by right. }
  split; [|split; [|split]].
  - destruct o as [|[k [data|]]]; try (by left).
    rewrite checkStatus_reply_data.
    destruct (Hcases data) as [->| ->]; [by left|].
    rewrite apply_pause_cases. cbn.
    destruct (truthy (paused data)), (pausedState (globals s)); cbn; auto.
  - destruct o as [|[k [data|]]]; try done.
    cbn [reply_paused body fmap option_fmap option_map]. intros [= Hp].
    rewrite checkStatus_reply_data.
    destruct (Hcases data) as [->| ->]; [done|].
    rewrite apply_pause_cases, Hp.
    by destruct (pausedState (globals s)).
  - induction n as [|n IH]; [done|].
    change (Nat.iter (S (S n)) (checkStatus_reply o) s)
      with (checkStatus_reply o (Nat.iter (S n) (checkStatus_reply o) s)).
    rewrite <- IH.
    change (Nat.iter (S n) (checkStatus_reply o) s)
      with (checkStatus_reply o (Nat.iter n (checkStatus_reply o) s)).
    apply checkStatus_reply_twice.
  - intros k cfg pause -> Hcfg Hp. unfold status_reply.
    rewrite checkStatus_reply_data. unfold checkStatus_data. simpl.
    assert (pause_ui (apply_pause
              {| force_logout := JBool false; running := JBool true;
                 config_id := cfg; paused := pause |} s)
            = if truthy pause then entered s else exited s) as Hedge.
    { rewrite apply_pause_cases. simpl.
      destruct (truthy pause), (pausedState (globals s)); done. }
    destruct Hcfg as [Hn|Hc].
    + rewrite Hn, strict_eq_refl, apply_pause_set_baseline. exact Hedge.
    + destruct (strict_eq (currentConfigId (globals s)) JNull).
      * rewrite apply_pause_set_baseline. exact Hedge.
      * rewrite Hc, strict_eq_refl. exact Hedge.
Qed.

(** ** The polling loop of a download request *)

Section PollingLoop.

Variable h : positive.

Lemma reply_keeps_loop o s :
  owns_loop h s -> owns_loop h (pollRequest_reply o s).
Proof.
  intros [Hp Hn]. rewrite pollRequest_reply_cases. unfold owns_loop.
  repeat case_match; cbn; autorewrite with frame; split; try done; lia.
Qed.

Lemma reply_timer o s :
  owns_loop h s ->
  timers (browser (pollRequest_reply o s)) !! h
  = if is_terminal o then None else timers (browser s) !! h.
Proof.
  intros [Hp Hn]. rewrite pollRequest_reply_cases. unfold is_terminal.
  destruct (is_approved o); cbn.
  - autorewrite with frame. rewrite Hp.
    rewrite lookup_insert_ne by lia. apply lookup_delete_eq.
  - destruct (is_rejected o); cbn.
    + autorewrite with frame. rewrite Hp. apply lookup_delete_eq.
    + repeat case_match; done.
Qed.

Lemma reply_approved_shown o s :
  shown (statusApproved (dom (pollRequest_reply o s)))
  <-> shown (statusApproved (dom s)) \/ is_approved o = true.
Proof.
  rewrite pollRequest_reply_cases. unfold shown.
  destruct (is_approved o); cbn.
  - autorewrite with frame. split; [by right|]. intros _.
    unfold cl_remove. rewrite elem_of_difference, elem_of_list_to_set.
    intros [_ Hn]. apply Hn. repeat constructor.
  - assert (forall P : Prop, P <-> P \/ false = true) as Hfalse
      by (intros P; split; [by left|by intros [?|?]]).
    destruct (is_rejected o); cbn.
    + autorewrite with frame. apply Hfalse.
    + repeat case_match; apply Hfalse.
Qed.

Lemma replies_keep_loop os : forall s,
  owns_loop h s -> owns_loop h (run (poll_replies os) s).
Proof.
  induction os as [|o os IH]; intros s Hs; [done|].
  apply IH. by apply reply_keeps_loop.
Qed.

Lemma replies_timer os : forall s,
  owns_loop h s ->
  timers (browser (run (poll_replies os) s)) !! h
  = if forallb (fun o => negb (is_terminal o)) os
    then timers (browser s) !! h else None.
Proof.
  induction os as [|o os IH]; intros s Hs; [done|].
  cbn [poll_replies fmap list_fmap run fold_left step forallb].
  change (fold_left step (Reply_check_request <$> os))
    with (run (poll_replies os)).
  rewrite IH by (by apply reply_keeps_loop).
  rewrite reply_timer by done.
  destruct (is_terminal o); cbn; [|done].
  by destruct (forallb _ os).
Qed.

Lemma replies_approved_shown os : forall s,
  shown (statusApproved (dom (run (poll_replies os) s)))
  <-> shown (statusApproved (dom s)) \/ existsb is_approved os = true.
Proof.
  induction os as [|o os IH]; intros s.
  - cbn. split; [by left|by intros [?|?]].
  - cbn [poll_replies fmap list_fmap run fold_left step existsb].
    change (fold_left step (Reply_check_request <$> os))
      with (run (poll_replies os)).
    rewrite IH, reply_approved_shown, orb_true_iff. tauto.
Qed.

End PollingLoop.

(** *** The approved state is never shown unprompted *)

Lemma statusApproved_clearInterval h s :
  statusApproved (dom (clearInterval h s)) = statusApproved (dom s).
Proof. by destruct h. Qed.

Lemma statusApproved_apply_pause data s :
  statusApproved (dom (apply_pause data s)) = statusApproved (dom s).
Proof. unfold apply_pause. repeat case_match; done. Qed.

Lemma statusApproved_checkStatus_reply o s :
  statusApproved (dom (checkStatus_reply o s)) = statusApproved (dom s).
Proof.
  destruct o as [|[k [data|]]]; try done.
  rewrite checkStatus_reply_data. unfold checkStatus_data.
  repeat case_match; rewrite ?statusApproved_apply_pause; done.
Qed.

Lemma statusApproved_initiateDownload_reply o s :
  statusApproved (dom (initiateDownload_reply o s)) = statusApproved (dom s).
Proof.
  rewrite initiateDownload_reply_cases.
  unfold initiateDownload_catch, pollRequest. handler_cases.
Qed.

Lemma initiateDownload_hides_approved f p s :
  ~ shown (statusApproved (dom (initiateDownload f p s))).
Proof.
  cbn. unfold shown, cl_add. intros Hn. apply Hn.
  rewrite elem_of_union, elem_of_list_to_set. right. repeat constructor.
Qed.

(** One task shows the approved state only if it is a [check_request]
    reply with status [approved]. *)
Lemma step_approved_shown s e :
  shown (statusApproved (dom (step s e))) ->
  shown (statusApproved (dom s))
  \/ exists o, e = Reply_check_request o /\ is_approved o = true.
Proof.
  destruct e as [f p|r| | | |h|o|o|o|o]; unfold step.
  - intros H. by apply initiateDownload_hides_approved in H.
  - by left.
  - unfold cancelDownload. autorewrite with frame. cbn.
    case_match; by left.
  - autorewrite with frame. by left.
  - unfold toggleView. cbn. destruct (negb (isGridView (globals s))); by left.
  - unfold fire, pollRequest_redirect.
    repeat case_match; autorewrite with frame; cbn;
      rewrite ?statusApproved_clearInterval; by left.
  - rewrite statusApproved_checkStatus_reply. by left.
  - rewrite statusApproved_initiateDownload_reply. by left.
  - intros [H|H]%reply_approved_shown; [by left|right; eauto].
  - destruct o; by left.
Qed.

(** Over any run of the page: if the approved state was hidden before and
    is shown after, one of the tasks was an [approved] reply. *)
Lemma approved_only_on_reply es : forall s,
  ~ shown (statusApproved (dom s)) ->
  shown (statusApproved (dom (run es s))) ->
  exists o, Reply_check_request o ∈ es /\ is_approved o = true.
Proof.
  induction es as [|e es IH]; intros s Hh Hs; [done|].
  cbn in Hs.
  destruct (decide (shown (statusApproved (dom (step s e))))) as [Hd|Hd].
  - apply step_approved_shown in Hd as [Hd|(o & -> & Ho)]; [done|].
    exists o. split; [apply list_elem_of_here|done].
  - destruct (IH _ Hd Hs) as (o & Hin & Ho).
    exists o. split; [by apply list_elem_of_further|done].
Qed.

Lemma initiateDownload_pending f p id dl lk s :
  run [Call_initiateDownload f p; Reply_request_download (pending_reply id dl lk)] s
  = pollRequest (JStr id)
      (with_dom (set_reqIdDisplay ("ID: " +:+ String.substring 0 8 id))
         (with_globals (set_currentReqId (JStr id)) (initiateDownload f p s))).
Proof.
  unfold run, fold_left, step, pending_reply.
  by rewrite initiateDownload_reply_cases.
Qed.

(** C2: a loop started by a pending [request_download] reply shows the
    approved state exactly when one of its replies carried the status
    [approved]; its interval stays in the timer table as long as no reply
    carried [approved] or [rejected], however many replies that is, and is
    gone from the first such reply on.  Whatever else the page does in
    between, the approved state is not shown unless an [approved] reply was
    among the tasks. *)
Theorem pollRequest_ends_on_first_verdict
    (s : State) (f p id : string) (dl lk : JsVal)
    (os : list (FetchOutcome RequestData)) (es : list event) :
  let h := nextHandle (browser s) in
  let s1 := run [Call_initiateDownload f p;
                 Reply_request_download (pending_reply id dl lk)] s in
  let s2 := run (poll_replies os) s1 in
  timers (browser s1) !! h = Some (IntervalPoll (JStr id))
  /\ ~ shown (statusApproved (dom s1))
  /\ (shown (statusApproved (dom s2)) <-> existsb is_approved os = true)
  /\ timers (browser s2) !! h
     = (if forallb (fun o => negb (is_terminal o)) os
        then Some (IntervalPoll (JStr id)) else None)
  /\ (shown (statusApproved (dom (run es s1))) ->
      exists o, Reply_check_request o ∈ es /\ is_approved o = true).
Proof.
  intros h s1 s2.
  assert (Hs1 : s1 = pollRequest (JStr id)
      (with_dom (set_reqIdDisplay ("ID: " +:+ String.substring 0 8 id))
         (with_globals (set_currentReqId (JStr id)) (initiateDownload f p s))))
    by apply initiateDownload_pending.
  assert (Htimer : timers (browser s1) !! h = Some (IntervalPoll (JStr id))).
  { rewrite Hs1. cbn. apply lookup_insert_eq. }
  assert (Hhidden : ~ shown (statusApproved (dom s1))).
  { rewrite Hs1. cbn. unfold shown, cl_add. intros Hn. apply Hn.
    rewrite elem_of_union, elem_of_list_to_set. right. repeat constructor. }
  assert (Hown : owns_loop h s1).
  { rewrite Hs1. split; cbn; [done|]. fold h. lia. }
  split; [done|]. split; [done|]. split; [|split].
  - unfold s2. rewrite replies_approved_shown. tauto.
  - unfold s2. rewrite (replies_timer h) by done. by rewrite Htimer.
  - by apply approved_only_on_reply.
Qed.

(** ** One polling loop at a time *)

(** A second [pollRequest] writes its handle over the first one and clears
    nothing: both intervals are in the timer table afterwards, and
    [closeModal] then stops the second one only. *)
Lemma pollRequest_twice (s : State) (r1 r2 : JsVal) :
  let h := nextHandle (browser s) in
  let s2 := run [Call_pollRequest r1; Call_pollRequest r2] s in
  timers (browser s2) !! h = Some (IntervalPoll r1)
  /\ timers (browser s2) !! (h + 1)%positive = Some (IntervalPoll r2)
  /\ pollInterval (globals s2) = Some (h + 1)%positive
  /\ timers (browser (closeModal s2)) !! h = Some (IntervalPoll r1).
Proof.
  cbn. autorewrite with frame. cbn.
  rewrite lookup_delete_ne by lia.
  rewrite lookup_insert_ne by lia.
  rewrite !lookup_insert_eq. done.
Qed.

(** C1 (the script does not keep it): a second download started while the
    first one is still being polled leaves two polling intervals in the
    timer table.  [closeModal] then stops the later one only; the earlier
    one keeps firing and keeps asking for its request. *)
Theorem second_download_leaks_poll_timer :
  let s := run two_downloads demo_state in
  length (poll_timers s) = 2
  /\ timers (browser s) !! 2%positive = Some (IntervalPoll (JStr "abc123"))
  /\ timers (browser s) !! 3%positive = Some (IntervalPoll (JStr "def456"))
  /\ pollInterval (globals s) = Some 3%positive
  /\ poll_timers (run [Call_closeModal] s) = [2%positive]
  /\ last (requests (browser (run [Call_closeModal; TimerFires 2] s)))
     = Some (GetCheckRequest (JStr "abc123")).
Proof. vm_compute. repeat split. Qed.

(** ** A download request that does not get through *)

(** The chain of [initiateDownload] ends with a [catch] whose handler does
    not throw: it is never rejected. *)
Lemma initiateDownload_chain_fulfilled o s :
  fst (initiateDownload_chain o s) = Fulfilled tt.
Proof.
  unfold initiateDownload_chain, catch_.
  by destruct ((fetch_result o THEN initiateDownload_response
                  THEN initiateDownload_data) s) as [[[]|e] s'].
Qed.

Lemma timers_initiateDownload_catch e s :
  timers (browser (initiateDownload_catch e s))
  = match pollInterval (globals s) with
    | Some i => delete i (timers (browser s))
    | None => timers (browser s)
    end.
Proof.
  unfold initiateDownload_catch, closeModal. cbn.
  by destruct (pollInterval (globals s)).
Qed.

Lemma poll_timers_mono s s' :
  timers (browser s') ⊆ timers (browser s) -> poll_timers s' ⊆ poll_timers s.
Proof.
  intros Hsub. unfold poll_timers.
  intros i [[i' t] [-> Hin]]%list_elem_of_fmap.
  apply list_elem_of_In, filter_In in Hin as [Hin Ht].
  apply list_elem_of_In, elem_of_map_to_list in Hin.
  apply list_elem_of_fmap. exists (i', t). split; [done|].
  apply list_elem_of_In, filter_In. split; [|done].
  apply list_elem_of_In, elem_of_map_to_list.
  eapply lookup_weaken; [exact Hin|exact Hsub].
Qed.

(** C5, as amended: in the revisions that test [response.ok] (lines
    422-446, and the same chain in 648-676), when [request_download] comes
    back with a status outside 2xx, the
    page reports the failure on the console and in an alert, closes the
    modal, forgets the request identifier, asks for a reload, and hands out
    no timer: the timer table can only have lost the loop [pollInterval]
    named.  The failure reaches the script's own handler. *)
Theorem initiateDownload_http_failure (s : State) (b : option RequestData) :
  let s' := initiateDownload_reply (Responded {| ok := false; body := b |}) s in
  s' = initiateDownload_catch (Error "File not found or server error") s
  /\ console (browser s')
     = console (browser s)
       ++ ["Download Request Failed: Error: File not found or server error"]
  /\ alerts (browser s')
     = alerts (browser s)
       ++ ["Could not request file. The shared folder might have changed."]
  /\ navigations (browser s') = navigations (browser s) ++ [Reload]
  /\ unhandled (browser s') = unhandled (browser s)
  /\ currentReqId (globals s') = JNull
  /\ nextHandle (browser s') = nextHandle (browser s)
  /\ timers (browser s') ⊆ timers (browser s)
  /\ poll_timers s' ⊆ poll_timers s.
Proof.
  intros s'. subst s'. rewrite initiateDownload_reply_cases. cbn [ok negb].
  assert (Hsub : timers (browser (initiateDownload_catch
                    (Error "File not found or server error") s))
                 ⊆ timers (browser s)).
  { rewrite timers_initiateDownload_catch.
    destruct (pollInterval (globals s)); [apply delete_subseteq|done]. }
  split; [done|].
  repeat split; try exact Hsub; try (by apply poll_timers_mono);
    unfold initiateDownload_catch, closeModal; cbn;
    by destruct (pollInterval (globals s)).
Qed.

(** C10: a 2xx [request_download] reply whose status is neither [approved]
    nor [pending] changes nothing at all: no timer is set, no navigation is
    made, the request identifier stays [null] as [initiateDownload] left
    it, and the modal keeps showing the waiting state. *)
Theorem initiateDownload_other_status
    (s : State) (f p : string) (data : RequestData) :
  status data <> JStr "approved" ->
  status data <> JStr "pending" ->
  let s1 := initiateDownload f p s in
  let s2 := initiateDownload_reply (Responded {| ok := true; body := Some data |}) s1 in
  s2 = s1
  /\ timers (browser s2) = timers (browser s)
  /\ nextHandle (browser s2) = nextHandle (browser s)
  /\ navigations (browser s2) = navigations (browser s)
  /\ currentReqId (globals s2) = JNull
  /\ shown (statusWaiting (dom s2))
  /\ ~ shown (statusRejected (dom s2))
  /\ ~ shown (statusApproved (dom s2)).
Proof.
  intros Ha Hp s1 s2. subst s2. rewrite initiateDownload_reply_cases.
  cbn [ok body negb].
  apply strict_eq_false in Ha, Hp. rewrite Ha, Hp.
  subst s1. cbn. unfold shown, cl_add, cl_remove.
  repeat split; try done.
  - rewrite elem_of_difference, elem_of_list_to_set.
    intros [_ Hn]. apply Hn. repeat constructor.
  - intros Hn. apply Hn. rewrite elem_of_union, elem_of_list_to_set.
    right. repeat constructor.
  - intros Hn. apply Hn. rewrite elem_of_union, elem_of_list_to_set.
    right. repeat constructor.
Qed.

(** ** Failed requests during polling *)

(** C8, as amended: the chains of [checkStatus] and of the polling tick
    have no rejection handler, so a failed request is not caught by the
    script: it ends as one unhandled rejection.  It changes nothing else:
    the variables, the page, the location and the timer table are as
    before, so every interval keeps firing. *)
Theorem poll_failure_goes_unhandled
    (s : State) (o1 : FetchOutcome StatusData) (o2 : FetchOutcome RequestData) :
  (fetch_failed o1 = true ->
     let s' := checkStatus_reply o1 s in
     s' = with_browser (add_unhandled (fetch_error o1)) s
     /\ unhandled (browser s') = unhandled (browser s) ++ [fetch_error o1]
     /\ globals s' = globals s /\ dom s' = dom s
     /\ timers (browser s') = timers (browser s)
     /\ navigations (browser s') = navigations (browser s)
     /\ console (browser s') = console (browser s))
  /\ (fetch_failed o2 = true ->
     let s' := pollRequest_reply o2 s in
     s' = with_browser (add_unhandled (fetch_error o2)) s
     /\ unhandled (browser s') = unhandled (browser s) ++ [fetch_error o2]
     /\ globals s' = globals s /\ dom s' = dom s
     /\ timers (browser s') = timers (browser s)
     /\ navigations (browser s') = navigations (browser s)
     /\ console (browser s') = console (browser s)).
Proof.
  split; intros Hf.
  - destruct o1 as [|[k [data|]]]; [done| |done].
    by apply bool_decide_eq_true in Hf.
  - destruct o2 as [|[k [data|]]]; [done| |done].
    by apply bool_decide_eq_true in Hf.
Qed.

(** C8, as stated, fails: with the network down, the chain of
    [checkStatus] and the chain of the polling tick both end rejected, and
    the rejection is reported as unhandled. *)
Lemma poll_failure_not_caught :
  fst (checkStatus_chain NetworkError demo_state)
  = Rejected (TypeError "Failed to fetch")
  /\ fst (pollRequest_chain NetworkError demo_state)
     = Rejected (TypeError "Failed to fetch")
  /\ unhandled (browser (checkStatus_reply NetworkError demo_state))
     = [TypeError "Failed to fetch"]
  /\ unhandled (browser (pollRequest_reply NetworkError demo_state))
     = [TypeError "Failed to fetch"].
Proof. repeat split. Qed.

(** ** The view preference *)

Lemma loadViewPreference_list s :
  localStorage (browser s) !! "viewMode" = Some "list" ->
  loadViewPreference s = toggleView true s.
Proof.
  intros H. unfold loadViewPreference. by rewrite bool_decide_eq_true_2.
Qed.

Lemma loadViewPreference_other s :
  localStorage (browser s) !! "viewMode" <> Some "list" ->
  loadViewPreference s = s.
Proof.
  intros H. unfold loadViewPreference. by rewrite bool_decide_eq_false_2.
Qed.

Lemma page_load_list d stored :
  stored !! "viewMode" = Some "list" ->
  isGridView (globals (page_load d stored)) = false
  /\ localStorage (browser (page_load d stored)) = stored
  /\ dom (page_load d stored) = enable_list d.
Proof.
  intros H. unfold page_load.
  rewrite loadViewPreference_list by done. cbn.
  repeat split. by apply insert_id.
Qed.

Lemma page_load_other d stored :
  stored !! "viewMode" <> Some "list" ->
  isGridView (globals (page_load d stored)) = true
  /\ localStorage (browser (page_load d stored)) = stored
  /\ dom (page_load d stored) = d.
Proof.
  intros H. unfold page_load. by rewrite loadViewPreference_other.
Qed.

(** C9: [toggleView] writes the mode it switches to into client-local
    storage within the same call; a page loaded with that storage comes up
    in that mode and leaves the stored value as it is, and so does a call of
    [loadViewPreference] on the spot.  A page loaded with nothing stored
    under [viewMode] stays in grid view, with the page and the storage
    untouched. *)
Theorem view_preference_round_trip
    (s : State) (forceList : bool) (d : Dom) (stored : gmap string string) :
  let s1 := toggleView forceList s in
  let saved := localStorage (browser s1) in
  saved !! "viewMode" = Some (mode_name (isGridView (globals s1)))
  /\ isGridView (globals (page_load d saved)) = isGridView (globals s1)
  /\ localStorage (browser (page_load d saved)) = saved
  /\ isGridView (globals (loadViewPreference s1)) = isGridView (globals s1)
  /\ (stored !! "viewMode" = None ->
      isGridView (globals (page_load d stored)) = true
      /\ localStorage (browser (page_load d stored)) = stored
      /\ dom (page_load d stored) = d).
Proof.
  intros s1 saved.
  assert (Hsaved : saved !! "viewMode"
                   = Some (mode_name (isGridView (globals s1)))).
  { unfold saved, s1, toggleView. cbn. apply lookup_insert_eq. }
  assert (Hs1 : localStorage (browser s1) = saved) by done.
  clearbody saved. clearbody s1.
  split; [done|].
  destruct (isGridView (globals s1)) eqn:Hg; cbn in Hsaved.
  - assert (Hne : saved !! "viewMode" <> Some "list") by (by rewrite Hsaved).
    destruct (page_load_other d saved Hne) as (-> & -> & _).
    rewrite loadViewPreference_other by (by rewrite Hs1). rewrite Hg.
    repeat split; try done; apply page_load_other; congruence.
  - destruct (page_load_list d saved Hsaved) as (-> & -> & _).
    rewrite loadViewPreference_list by (by rewrite Hs1).
    repeat split; try done; apply page_load_other; congruence.
Qed.

(** ** The first revision *)

(** With the server offline the first revision reloads the page; it has no
    logout endpoint to go to. *)
Lemma rev1_offline_reloads (s : State) (k : bool) (cfg pause : JsVal) :
  navigations (browser (Rev1.checkStatus_reply
                          (status_reply k false false cfg pause) s))
  = navigations (browser s) ++ [Reload].
Proof.
  change (Rev1.checkStatus_reply (status_reply k false false cfg pause) s)
    with (apply_pause
            {| force_logout := JBool false; running := JBool false;
               config_id := cfg; paused := pause |}
            (navigate Reload s)).
  unfold apply_pause. repeat case_match; done.
Qed.

(** The first revision reads the body of a reply whatever its HTTP status;
    a body that is not JSON ends as an unhandled rejection, with no message
    to the user and no reload. *)
Lemma rev1_failure_unnoticed (s : State) :
  Rev1.initiateDownload_reply (Responded {| ok := false; body := None |}) s
  = with_browser (add_unhandled (SyntaxError "Unexpected token in JSON")) s.
Proof. reflexivity. Qed.

(** C6, as stated, fails on the first revision (lines 66-67): with
    [running] false it asks for a reload, which no [return] follows, so
    the pause step still runs; it never goes to the logout endpoint. *)
Lemma rev1_not_running_no_logout :
  let s' := Rev1.checkStatus_reply
              (status_reply true false false JUndefined (JBool true))
              demo_state in
  navigations (browser s') = [Reload]
  /\ (Assign (JStr "/logout") ∉ navigations (browser s'))
  /\ pausedState (globals s') = true.
Proof.
  vm_compute. split; [done|]. split; [|done].
  intros Hin%list_elem_of_singleton. discriminate.
Qed.

(** C5, as stated, fails on the first revision (lines 109-125): a reply
    with a status outside 2xx whose body says [pending] starts the polling
    loop like any other; nothing is reported on the console or in an
    alert, no reload is asked for, and no rejection is raised. *)
Lemma rev1_http_failure_starts_polling :
  let s' := Rev1.initiateDownload_reply
              (Responded {| ok := false;
                            body := Some {| status := JStr "pending";
                                            direct_link := JUndefined;
                                            req_id := JStr "abc123";
                                            link := JUndefined |} |})
              demo_state in
  poll_timers s' = [2%positive]
  /\ timers (browser s') !! 2%positive = Some (IntervalPoll (JStr "abc123"))
  /\ pollInterval (globals s') = Some 2%positive
  /\ console (browser s') = []
  /\ alerts (browser s') = []
  /\ navigations (browser s') = []
  /\ unhandled (browser s') = [].
Proof. vm_compute. repeat split. Qed.

(** ** The theorems at work on the demo page *)

(** The request [abc123] is still pending at the first reply, fails on the
    network at the second and is approved at the third. *)
Lemma pollRequest_ends_on_first_verdict_witness :
  let check st lk :=
    Responded {| ok := true;
                 body := Some {| status := JStr st; direct_link := JUndefined;
                                 req_id := JUndefined; link := lk |} |} in
  let os := [check "pending" JUndefined; NetworkError;
             check "approved" (JStr "/dl/abc123")] in
  let s1 := run [Call_initiateDownload "report.pdf" "docs";
                 Reply_request_download
                   (pending_reply "abc123" JUndefined JUndefined)] demo_state in
  timers (browser (run (poll_replies (take 2 os)) s1)) !! 2%positive
  = Some (IntervalPoll (JStr "abc123"))
  /\ timers (browser (run (poll_replies os) s1)) !! 2%positive = None
  /\ shown (statusApproved (dom (run (poll_replies os) s1)))
  /\ exists o, Reply_check_request o ∈ poll_replies os /\ is_approved o = true.
Proof.
  intros check os s1.
  destruct (pollRequest_ends_on_first_verdict demo_state "report.pdf" "docs"
              "abc123" JUndefined JUndefined (take 2 os) [])
    as (_ & _ & _ & Hrunning & _).
  destruct (pollRequest_ends_on_first_verdict demo_state "report.pdf" "docs"
              "abc123" JUndefined JUndefined os (poll_replies os))
    as (_ & _ & Happroved & Hstopped & Honly).
  assert (Hshown : shown (statusApproved (dom (run (poll_replies os) s1))))
    by (apply Happroved; reflexivity).
  split; [exact Hrunning|].
  split; [exact Hstopped|].
  split; [exact Hshown|].
  apply Honly. exact Hshown.
Defined.

(** Baseline [cfg_v1]: seen again it changes nothing; [cfg_v2] redirects
    once. *)
Lemma checkStatus_config_baseline_witness :
  let alive cfg := status_reply true false true (JStr cfg) (JBool false) in
  let s1 := checkStatus_reply (alive "cfg_v1") demo_state in
  currentConfigId (globals demo_state) = JNull
  /\ currentConfigId (globals s1) = JStr "cfg_v1"
  /\ checkStatus_reply (alive "cfg_v1") s1 = s1
  /\ checkStatus_reply (alive "cfg_v2") s1 = navigate (Assign (JStr "/files")) s1
  /\ currentConfigId (globals (run two_downloads s1)) = JStr "cfg_v1".
Proof.
  intros alive s1.
  destruct (checkStatus_config_baseline demo_state true
              (JStr "cfg_v1") (JBool false)) as (Hfirst & _).
  destruct (checkStatus_config_baseline s1 true
              (JStr "cfg_v1") (JBool false)) as (_ & Hsame & _ & Hkeep).
  destruct (checkStatus_config_baseline s1 true
              (JStr "cfg_v2") (JBool false)) as (_ & _ & Hdrift & _).
  split; [reflexivity|].
  split; [apply Hfirst; reflexivity|].
  split; [apply Hsame; [vm_compute; discriminate|reflexivity|reflexivity]|].
  split; [apply Hdrift; vm_compute; discriminate|].
  apply Hkeep. vm_compute; discriminate.
Defined.

(** The overlay comes up on the first [paused] reply and is left alone by
    the second. *)
Lemma checkStatus_pause_edge_triggered_witness :
  let held := status_reply true false true (JStr "cfg_v1") (JBool true) in
  let s1 := checkStatus_reply held demo_state in
  pause_ui s1 = entered demo_state
  /\ pause_ui (checkStatus_reply held s1) = pause_ui s1.
Proof.
  intros held s1.
  destruct (checkStatus_pause_edge_triggered held demo_state)
    as (_ & _ & _ & Hedge).
  destruct (checkStatus_pause_edge_triggered held s1) as (_ & Hsame & _).
  split.
  - apply (Hedge true (JStr "cfg_v1") (JBool true));
      [reflexivity|left; reflexivity|vm_compute; discriminate].
  - apply Hsame. reflexivity.
Defined.

(** A status request and a polling request that both fail on the network. *)
Lemma poll_failure_goes_unhandled_witness :
  checkStatus_reply NetworkError demo_state
  = with_browser (add_unhandled (TypeError "Failed to fetch")) demo_state
  /\ timers (browser (pollRequest_reply NetworkError demo_state))
     = timers (browser demo_state).
Proof.
  destruct (poll_failure_goes_unhandled demo_state NetworkError NetworkError)
    as (Hstatus & Hpoll).
  split.
  - apply Hstatus. reflexivity.
  - apply Hpoll. reflexivity.
Defined.

(** Switching the demo page to list view and loading it again. *)
Lemma view_preference_round_trip_witness :
  let s1 := toggleView false demo_state in
  isGridView (globals s1) = false
  /\ localStorage (browser s1) !! "viewMode" = Some "list"
  /\ isGridView (globals (page_load demo_dom (localStorage (browser s1)))) = false
  /\ isGridView (globals (page_load demo_dom ∅)) = true
  /\ dom (page_load demo_dom ∅) = demo_dom.
Proof.
  intros s1.
  destruct (view_preference_round_trip demo_state false demo_dom ∅)
    as (Hsaved & Hload & _ & _ & Hdefault).
  split; [reflexivity|].
  split; [exact Hsaved|].
  split; [exact Hload|].
  destruct Hdefault as (Hgrid & _ & Hdom); [reflexivity|].
  split; [exact Hgrid|exact Hdom].
Defined.

(** A 2xx reply with a status the script does not know. *)
Lemma initiateDownload_other_status_witness :
  let data := {| status := JStr "queued"; direct_link := JUndefined;
                 req_id := JStr "abc123"; link := JUndefined |} in
  let s1 := initiateDownload "report.pdf" "docs" demo_state in
  initiateDownload_reply (Responded {| ok := true; body := Some data |}) s1 = s1
  /\ currentReqId (globals s1) = JNull
  /\ timers (browser s1) = timers (browser demo_state).
Proof.
  intros data s1.
  destruct (initiateDownload_other_status demo_state "report.pdf" "docs" data)
    as (Hsame & _); [discriminate|discriminate|].
  split; [exact Hsame|]. split; reflexivity.
Defined.

(** * Further properties of the client script *)

(** ** Class lists *)

Lemma cl_add_idem A c : cl_add A (cl_add A c) = cl_add A c.
Proof.
  unfold cl_add. apply set_eq. intros x. rewrite !elem_of_union. tauto.
Qed.

Lemma cl_remove_idem A c : cl_remove A (cl_remove A c) = cl_remove A c.
Proof.
  unfold cl_remove. apply set_eq. intros x. rewrite !elem_of_difference. tauto.
Qed.

Lemma cl_add_remove_same A c : cl_add A (cl_remove A c) = cl_add A c.
Proof.
  unfold cl_add, cl_remove. apply set_eq. intros x.
  rewrite !elem_of_union, elem_of_difference.
  destruct (decide (x ∈ (list_to_set A : gset string))); tauto.
Qed.

Lemma cl_remove_add_same A c : cl_remove A (cl_add A c) = cl_remove A c.
Proof.
  unfold cl_add, cl_remove. apply set_eq. intros x.
  rewrite !elem_of_difference, elem_of_union. tauto.
Qed.

(** Switching to one layout forgets a switch to the other one before it. *)
Lemma cl_switch_absorb A B c :
  cl_add A (cl_remove B (cl_add B (cl_remove A c))) = cl_add A (cl_remove B c).
Proof.
  unfold cl_add, cl_remove. apply set_eq. intros x.
  rewrite !elem_of_union, !elem_of_difference, !elem_of_union, !elem_of_difference.
  destruct (decide (x ∈ (list_to_set A : gset string))); tauto.
Qed.

Lemma cl_switch_idem A B c :
  cl_add A (cl_remove B (cl_add A (cl_remove B c))) = cl_add A (cl_remove B c).
Proof.
  unfold cl_add, cl_remove. apply set_eq. intros x.
  rewrite !elem_of_union, !elem_of_difference, !elem_of_union, !elem_of_difference.
  tauto.
Qed.

Lemma cl_remove_add_idem A B c :
  cl_remove A (cl_add B (cl_remove A (cl_add B c))) = cl_remove A (cl_add B c).
Proof.
  unfold cl_add, cl_remove. apply set_eq. intros x.
  rewrite !elem_of_difference, !elem_of_union, !elem_of_difference, !elem_of_union.
  tauto.
Qed.

(** ** Closing and cancelling *)

Lemma clearInterval_twice h s :
  clearInterval h (clearInterval h s) = clearInterval h s.
Proof.
  destruct h as [i|]; [|done].
  destruct s as [g d b]. unfold clearInterval, with_browser, set_timers. cbn.
  by rewrite delete_delete_eq.
Qed.

(** X2: closing the modal a second time changes nothing; closing it
    neither sets a timer, nor navigates, nor sends a request. *)
Theorem closeModal_idempotent (s : State) :
  closeModal (closeModal s) = closeModal s
  /\ timers (browser (closeModal s)) ⊆ timers (browser s)
  /\ nextHandle (browser (closeModal s)) = nextHandle (browser s)
  /\ navigations (browser (closeModal s)) = navigations (browser s)
  /\ requests (browser (closeModal s)) = requests (browser s)
  /\ currentReqId (globals (closeModal s)) = JNull.
Proof.
  split; [|repeat split].
  - destruct s as [[gv ps cc cr [i|]] d b]; unfold closeModal; cbn;
      unfold with_globals, with_dom, with_browser, set_timers, set_modal; cbn;
      rewrite ?delete_delete_eq, cl_add_idem, cl_remove_add_idem; done.
  - autorewrite with frame.
    destruct (pollInterval (globals s)); [apply delete_subseteq|done].
  - by autorewrite with frame.
  - by autorewrite with frame.
  - rewrite browser_closeModal. by destruct (pollInterval (globals s)).
Qed.

(** X1: [cancelDownload] stops the loop [pollInterval] names and forgets
    the request identifier whether or not a request is active; it tells
    the server only when one is; however the cancel request ends, the
    variables, the page, the timers and the location stay as the call left
    them, and the failure is not left unhandled; a second call right after
    sends nothing. *)
Theorem cancelDownload_stops_unconditionally (s : State) (o : FetchOutcome unit) :
  let s' := cancelDownload s in
  let s'' := cancelDownload_reply o s' in
  (forall h, pollInterval (globals s) = Some h -> timers (browser s') !! h = None)
  /\ timers (browser s') ⊆ timers (browser s)
  /\ currentReqId (globals s') = JNull
  /\ requests (browser s')
     = requests (browser s)
       ++ (if truthy (currentReqId (globals s))
           then [PostCancelRequest (currentReqId (globals s))] else [])
  /\ navigations (browser s') = navigations (browser s)
  /\ (globals s'' = globals s' /\ dom s'' = dom s'
      /\ timers (browser s'') = timers (browser s')
      /\ navigations (browser s'') = navigations (browser s')
      /\ unhandled (browser s'') = unhandled (browser s'))
  /\ requests (browser (cancelDownload s')) = requests (browser s').
Proof.
  intros s' s''. subst s'' s'. unfold cancelDownload.
  destruct s as [[gv ps cc cr pi] d b].
  destruct (truthy cr) eqn:Hc; cbn; rewrite ?Hc; cbn.
  all: repeat split; try (by destruct o as [|r]);
       try (by destruct pi; cbn; rewrite ?app_nil_r).
  all: try (destruct pi; [apply delete_subseteq|done]).
  all: intros h [= ->]; cbn; apply lookup_delete_eq.
Qed.

Lemma initiateDownload_catch_effects e s :
  let s' := initiateDownload_catch e s in
  alerts (browser s') = alerts (browser s) ++ [failure_alert]
  /\ navigations (browser s') = navigations (browser s) ++ [Reload]
  /\ console (browser s')
     = console (browser s) ++ ["Download Request Failed: " +:+ error_message e]
  /\ unhandled (browser s') = unhandled (browser s)
  /\ currentReqId (globals s') = JNull
  /\ nextHandle (browser s') = nextHandle (browser s)
  /\ timers (browser s') ⊆ timers (browser s)
  /\ "opacity-0" ∈ approvalModal (dom s').
Proof.
  destruct s as [[gv ps cc cr [i|]] d b]; cbn; repeat split;
    try done; try apply delete_subseteq;
    unfold cl_add; rewrite elem_of_union, elem_of_list_to_set; right;
    repeat constructor.
Qed.

(** X3: whichever way a [request_download] fails (no reply, a status
    outside 2xx, a body that is not JSON, a [pending] reply without a
    string [req_id]), the page alerts the user once, logs the error, closes
    the modal, forgets the request identifier, asks for a reload and sets
    no timer.  In every other case it neither alerts nor logs nor reloads.
    In no case is a rejection left unhandled. *)
Theorem initiateDownload_failure_recovery
    (o : FetchOutcome RequestData) (s : State) :
  let s' := initiateDownload_reply o s in
  unhandled (browser s') = unhandled (browser s)
  /\ (request_fails o = true ->
      alerts (browser s') = alerts (browser s) ++ [failure_alert]
      /\ navigations (browser s') = navigations (browser s) ++ [Reload]
      /\ length (console (browser s')) = S (length (console (browser s)))
      /\ currentReqId (globals s') = JNull
      /\ nextHandle (browser s') = nextHandle (browser s)
      /\ timers (browser s') ⊆ timers (browser s)
      /\ "opacity-0" ∈ approvalModal (dom s'))
  /\ (request_fails o = false ->
      alerts (browser s') = alerts (browser s)
      /\ console (browser s') = console (browser s)
      /\ Reload ∉ drop (length (navigations (browser s))) (navigations (browser s'))).
Proof.
  intros s'. subst s'. rewrite initiateDownload_reply_cases.
  assert (Hfail : forall e s0,
    navigations (browser s0) = navigations (browser s) ->
    alerts (browser s0) = alerts (browser s) ->
    console (browser s0) = console (browser s) ->
    unhandled (browser s0) = unhandled (browser s) ->
    nextHandle (browser s0) = nextHandle (browser s) ->
    timers (browser s0) = timers (browser s) ->
    let s' := initiateDownload_catch e s0 in
    unhandled (browser s') = unhandled (browser s)
    /\ alerts (browser s') = alerts (browser s) ++ [failure_alert]
       /\ navigations (browser s') = navigations (browser s) ++ [Reload]
       /\ length (console (browser s')) = S (length (console (browser s)))
       /\ currentReqId (globals s') = JNull
       /\ nextHandle (browser s') = nextHandle (browser s)
       /\ timers (browser s') ⊆ timers (browser s)
       /\ "opacity-0" ∈ approvalModal (dom s')).
  { intros e s0 Hn Ha Hc Hu Hh Ht.
    destruct (initiateDownload_catch_effects e s0)
      as (Ea & En & Ec & Eu & Er & Eh & Et & Em).
    cbn zeta. rewrite Ea, En, Ec, Eu, Er, Eh, Ha, Hn, Hc, Hu, Hh.
    rewrite <- Ht. repeat split; try done.
    rewrite length_app. cbn. lia. }
  destruct o as [|[k [data|]]]; cbn [request_fails ok body].
  - destruct (Hfail (TypeError "Failed to fetch") s) as (Hu & Hrest); try done.
  - destruct k; cbn [negb orb].
    + destruct (strict_eq (status data) (JStr "approved")) eqn:Ha; cbn [negb andb].
      * clear Hfail. destruct s as [[gv ps cc cr [i|]] d b]; cbn;
          rewrite drop_app_length;
          (split; [done|]); (split; [done|]); intros _; repeat split;
          intros Hin; apply list_elem_of_singleton in Hin; done.
      * destruct (strict_eq (status data) (JStr "pending")) eqn:Hp; cbn [andb].
        -- destruct (req_id data) eqn:Hr; cbn [is_string negb];
             try (destruct (Hfail (TypeError "data.req_id.substring is not a function")
                     (with_globals (set_currentReqId (req_id data)) s))
                    as (Hu & Hrest); try done; rewrite Hr in Hu, Hrest;
                  split; [exact Hu|split; [intros _; exact Hrest|done]]).
           split; [done|]. split; [done|]. intros _. cbn.
           rewrite drop_all. repeat split. apply not_elem_of_nil.
        -- split; [done|]. split; [done|]. intros _.
           rewrite drop_all. repeat split. apply not_elem_of_nil.
    + destruct (Hfail (Error "File not found or server error") s)
        as (Hu & Hrest); try done.
  - destruct k; cbn [negb orb].
    + destruct (Hfail (SyntaxError "Unexpected token in JSON") s)
        as (Hu & Hrest); try done.
    + destruct (Hfail (Error "File not found or server error") s)
        as (Hu & Hrest); try done.
Qed.

(** ** The three ways a download ends *)

Lemma hidden_after_add c : ~ shown (cl_add ["hidden"] c).
Proof.
  unfold shown, cl_add. intros Hn. apply Hn.
  rewrite elem_of_union, elem_of_list_to_set. right. repeat constructor.
Qed.

Lemma shown_after_remove c : shown (cl_remove ["hidden"] c).
Proof.
  unfold shown, cl_remove. rewrite elem_of_difference, elem_of_list_to_set.
  intros [_ Hn]. apply Hn. repeat constructor.
Qed.

Lemma shown_remove_add c : shown (cl_remove ["hidden"] (cl_add ["hidden"] c)).
Proof. apply shown_after_remove. Qed.

Lemma fire_redirect h lnk s :
  timers (browser s) !! h = Some (TimeoutRedirect lnk) ->
  fire h s = closeModal (navigate (Assign lnk) (clearInterval (Some h) s)).
Proof. intros H. unfold fire. by rewrite H. Qed.

(** The state a [pending] reply leaves behind. *)
Lemma pending_download_state s f p id dl lk :
  let h := nextHandle (browser s) in
  let s1 := run [Call_initiateDownload f p;
                 Reply_request_download (pending_reply id dl lk)] s in
  pollInterval (globals s1) = Some h
  /\ currentReqId (globals s1) = JStr id
  /\ timers (browser s1) = <[h := IntervalPoll (JStr id)]> (timers (browser s))
  /\ nextHandle (browser s1) = (h + 1)%positive
  /\ navigations (browser s1) = navigations (browser s)
  /\ statusWaiting (dom s1) = cl_remove ["hidden"] (statusWaiting (dom s))
  /\ statusRejected (dom s1) = cl_add ["hidden"] (statusRejected (dom s))
  /\ statusApproved (dom s1) = cl_add ["hidden"] (statusApproved (dom s))
  /\ approvalModal (dom s1)
     = cl_remove ["opacity-0"; "pointer-events-none"] (approvalModal (dom s)).
Proof.
  intros h s1. subst s1 h. rewrite initiateDownload_pending.
  by destruct s as [g d b].
Qed.

Lemma verdict_approved k lnk s :
  pollRequest_reply (verdict_reply k "approved" lnk) s
  = snd (setTimer (TimeoutRedirect lnk)
           (showApproved (clearInterval (pollInterval (globals s)) s))).
Proof.
  unfold verdict_reply. rewrite pollRequest_reply_data.
  unfold pollRequest_data. cbn [status link]. by rewrite strict_eq_refl.
Qed.

Lemma verdict_rejected k lnk s :
  pollRequest_reply (verdict_reply k "rejected" lnk) s
  = showRejected (clearInterval (pollInterval (globals s)) s).
Proof.
  unfold verdict_reply. rewrite pollRequest_reply_data.
  unfold pollRequest_data. cbn [status link].
  assert (strict_eq (JStr "rejected") (JStr "approved") = false) as ->
    by (by apply strict_eq_false).
  by rewrite strict_eq_refl.
Qed.

(** X4: a 2xx [request_download] reply with status [approved] closes the
    modal and navigates once, to [direct_link]; it starts no polling: no
    timer is set, the loop [pollInterval] named is stopped, no request is
    sent, and the request identifier is [null]. *)
Theorem initiateDownload_direct_link (s : State) (data : RequestData) :
  status data = JStr "approved" ->
  let s' := initiateDownload_reply (Responded {| ok := true; body := Some data |}) s in
  s' = navigate (Assign (direct_link data)) (closeModal s)
  /\ navigations (browser s') = navigations (browser s) ++ [Assign (direct_link data)]
  /\ nextHandle (browser s') = nextHandle (browser s)
  /\ timers (browser s') ⊆ timers (browser s)
  /\ (forall h, pollInterval (globals s) = Some h -> timers (browser s') !! h = None)
  /\ requests (browser s') = requests (browser s)
  /\ currentReqId (globals s') = JNull
  /\ "opacity-0" ∈ approvalModal (dom s').
Proof.
  intros Ha s'. subst s'. rewrite initiateDownload_reply_cases. cbn [ok body negb].
  rewrite Ha, strict_eq_refl.
  destruct s as [[gv ps cc cr [i|]] d b]; cbn; repeat split; try done;
    try apply delete_subseteq;
    try (intros h [= ->]; apply lookup_delete_eq);
    unfold cl_add; rewrite elem_of_union, elem_of_list_to_set; right;
    repeat constructor.
Qed.

(** X5: a download that waits for approval and gets it.  The approved
    reply stops the loop, shows the approved panel and schedules one
    redirect without navigating yet; when that timeout fires the page
    navigates once, to the link of the reply, closes the modal and forgets
    the request; the timeout is then gone, so firing its handle again does
    nothing. *)
Theorem approved_download_redirects_once
    (s : State) (f p id : string) (dl lk lnk : JsVal) (k : bool) :
  let h := nextHandle (browser s) in
  let t := (h + 1)%positive in
  let s3 := run [Call_initiateDownload f p;
                 Reply_request_download (pending_reply id dl lk);
                 Reply_check_request (verdict_reply k "approved" lnk)] s in
  let s4 := run [TimerFires t] s3 in
  navigations (browser s3) = navigations (browser s)
  /\ timers (browser s3) !! h = None
  /\ timers (browser s3) !! t = Some (TimeoutRedirect lnk)
  /\ shown (statusApproved (dom s3)) /\ ~ shown (statusWaiting (dom s3))
  /\ navigations (browser s4) = navigations (browser s) ++ [Assign lnk]
  /\ timers (browser s4) !! h = None /\ timers (browser s4) !! t = None
  /\ currentReqId (globals s4) = JNull
  /\ "opacity-0" ∈ approvalModal (dom s4)
  /\ run [TimerFires t] s4 = s4.
Proof.
  intros h t s3 s4.
  destruct (pending_download_state s f p id dl lk)
    as (Hp1 & _ & Ht1 & Hn1 & Hnav1 & Hw1 & _ & Ha1 & _).
  fold h in Hp1, Ht1, Hn1.
  set (s1 := run [Call_initiateDownload f p;
                  Reply_request_download (pending_reply id dl lk)] s) in *.
  assert (Hs3 : s3 = pollRequest_reply (verdict_reply k "approved" lnk) s1)
    by reflexivity.
  rewrite verdict_approved, Hp1 in Hs3.
  clearbody s1.
  assert (Hnav : navigations (browser s3) = navigations (browser s))
    by (rewrite Hs3; cbn; by rewrite Hnav1).
  assert (Hh : timers (browser s3) !! h = None).
  { rewrite Hs3. cbn. rewrite Hn1, Ht1.
    rewrite lookup_insert_ne by lia. apply lookup_delete_eq. }
  assert (Ht : timers (browser s3) !! t = Some (TimeoutRedirect lnk)).
  { rewrite Hs3. cbn. rewrite Hn1. apply lookup_insert_eq. }
  assert (Hpoll : pollInterval (globals s3) = Some h)
    by (rewrite Hs3; cbn; exact Hp1).
  assert (Happroved : shown (statusApproved (dom s3)))
    by (rewrite Hs3; cbn; apply shown_after_remove).
  assert (Hwaiting : ~ shown (statusWaiting (dom s3)))
    by (rewrite Hs3; cbn; apply hidden_after_add).
  assert (Hs4 : s4 = closeModal (navigate (Assign lnk) (clearInterval (Some t) s3))).
  { unfold s4, run, fold_left, step. by rewrite (fire_redirect _ _ _ Ht). }
  clearbody s3. clearbody s4. subst s4.
  assert (Hgone : timers (browser (closeModal
            (navigate (Assign lnk) (clearInterval (Some t) s3)))) !! t = None).
  { rewrite browser_closeModal. cbn. rewrite Hpoll. cbn.
    rewrite lookup_delete_ne by (subst t; lia). apply lookup_delete_eq. }
  split; [exact Hnav|]. split; [exact Hh|]. split; [exact Ht|].
  split; [exact Happroved|]. split; [exact Hwaiting|].
  split; [|split; [|split; [exact Hgone|split; [|split]]]].
  - rewrite browser_closeModal. cbn. rewrite Hpoll. cbn. by rewrite Hnav.
  - rewrite browser_closeModal. cbn. rewrite Hpoll. cbn. apply lookup_delete_eq.
  - by rewrite globals_closeModal.
  - rewrite dom_closeModal. cbn.
    unfold cl_add. rewrite elem_of_union, elem_of_list_to_set. right.
    repeat constructor.
  - unfold run, fold_left, step, fire. by rewrite Hgone.
Qed.

(** X6: a download that waits for approval and is turned down.  The
    rejected reply stops the loop and shows the rejected panel in place of
    the waiting one; it makes no navigation and schedules none, and the
    modal stays open with the request identifier kept until it is closed. *)
Theorem rejected_download_stays
    (s : State) (f p id : string) (dl lk lnk : JsVal) (k : bool) :
  let h := nextHandle (browser s) in
  let s3 := run [Call_initiateDownload f p;
                 Reply_request_download (pending_reply id dl lk);
                 Reply_check_request (verdict_reply k "rejected" lnk)] s in
  navigations (browser s3) = navigations (browser s)
  /\ timers (browser s3) = delete h (timers (browser s))
  /\ nextHandle (browser s3) = (h + 1)%positive
  /\ shown (statusRejected (dom s3))
  /\ ~ shown (statusWaiting (dom s3))
  /\ ~ shown (statusApproved (dom s3))
  /\ ("opacity-0" ∉ approvalModal (dom s3))
  /\ currentReqId (globals s3) = JStr id.
Proof.
  intros h s3.
  destruct (pending_download_state s f p id dl lk)
    as (Hp1 & Hr1 & Ht1 & Hn1 & Hnav1 & Hw1 & Hrej1 & Ha1 & Hm1).
  fold h in Hp1, Ht1, Hn1.
  set (s1 := run [Call_initiateDownload f p;
                  Reply_request_download (pending_reply id dl lk)] s) in *.
  assert (Hs3 : s3 = pollRequest_reply (verdict_reply k "rejected" lnk) s1)
    by reflexivity.
  rewrite verdict_rejected, Hp1 in Hs3.
  clearbody s1. rewrite Hs3. cbn.
  rewrite Hnav1, Ht1, Hn1, Hr1, Ha1, Hm1.
  repeat split; try done.
  - apply delete_insert_eq.
  - apply shown_after_remove.
  - apply hidden_after_add.
  - apply hidden_after_add.
  - unfold cl_remove. rewrite elem_of_difference, elem_of_list_to_set.
    intros [_ Hn]. apply Hn. repeat constructor.
Qed.

(** X7: closing the modal does not call off a request that is on its way.
    When the [pending] reply of a download arrives after the modal was
    closed, the page still starts polling for it: the interval is set and
    the request identifier recorded while the modal stays hidden. *)
Theorem late_pending_reply_starts_polling
    (s : State) (f p id : string) (dl lk : JsVal) :
  let h := nextHandle (browser s) in
  let s3 := run [Call_initiateDownload f p; Call_closeModal;
                 Reply_request_download (pending_reply id dl lk)] s in
  timers (browser s3) !! h = Some (IntervalPoll (JStr id))
  /\ pollInterval (globals s3) = Some h
  /\ currentReqId (globals s3) = JStr id
  /\ "opacity-0" ∈ approvalModal (dom s3)
  /\ last (requests (browser (run [TimerFires h] s3)))
     = Some (GetCheckRequest (JStr id)).
Proof.
  intros h s3.
  assert (Hs3 : s3 = pollRequest (JStr id)
      (with_dom (set_reqIdDisplay ("ID: " +:+ String.substring 0 8 id))
         (with_globals (set_currentReqId (JStr id))
            (closeModal (initiateDownload f p s))))).
  { unfold s3, run, fold_left, step, pending_reply.
    by rewrite initiateDownload_reply_cases. }
  assert (Hn : nextHandle (browser (closeModal (initiateDownload f p s))) = h).
  { rewrite browser_closeModal, nextHandle_clearInterval. done. }
  assert (Hm : "opacity-0" ∈ approvalModal (dom (closeModal (initiateDownload f p s)))).
  { rewrite dom_closeModal. cbn.
    unfold cl_add. rewrite elem_of_union, elem_of_list_to_set. right.
    repeat constructor. }
  set (s0 := closeModal (initiateDownload f p s)) in *. clearbody s0.
  assert (Ht : timers (browser s3) !! h = Some (IntervalPoll (JStr id))).
  { rewrite Hs3. cbn. rewrite Hn. apply lookup_insert_eq. }
  split; [exact Ht|].
  split; [rewrite Hs3; cbn; by rewrite Hn|].
  split; [by rewrite Hs3|].
  split; [by rewrite Hs3|].
  unfold run, fold_left, step, fire. rewrite Ht. cbn. apply last_snoc.
Qed.

(** ** The two layouts *)

Lemma fmap_option_absorb {A} (f g h : A -> A) (o : option A) :
  (forall x, f (g x) = h x) -> f <$> (g <$> o) = h <$> o.
Proof. intros H. destruct o; cbn; [by rewrite H|done]. Qed.

Ltac classes :=
  first [ apply cl_switch_absorb | apply cl_switch_idem
        | apply cl_remove_add_same | apply cl_add_remove_same
        | apply cl_add_idem | apply cl_remove_idem ].

(** Restyling a card twice: component by component. *)
Ltac card_twice :=
  let el := fresh "el" in
  intros el; destruct el as [cc bg iw ic tc ab];
  unfold card_grid, card_list;
  cbn [card_classes card_bg_icon card_inner_wrapper card_icon_wrapper
       card_text_content card_action_btn_wrapper];
  f_equal;
  [ classes
  | apply fmap_option_absorb; intros x; classes
  | apply fmap_option_absorb; intros x; classes
  | apply fmap_option_absorb; intros x; classes
  | apply fmap_option_absorb; intros [t h3];
    cbn [text_classes text_h3]; f_equal;
    [ classes | apply fmap_option_absorb; intros x; classes ]
  | apply fmap_option_absorb; intros [w bt tx];
    cbn [wrapper_classes wrapper_button wrapper_btn_text]; f_equal;
    [ classes
    | apply fmap_option_absorb; intros x; classes
    | apply fmap_option_absorb; intros x; classes ] ].

Lemma card_grid_list : forall el, card_grid (card_list el) = card_grid el.
Proof. card_twice. Qed.

Lemma card_list_grid : forall el, card_list (card_grid el) = card_list el.
Proof. card_twice. Qed.

Lemma card_grid_idem : forall el, card_grid (card_grid el) = card_grid el.
Proof. card_twice. Qed.

Lemma card_list_idem : forall el, card_list (card_list el) = card_list el.
Proof. card_twice. Qed.

Lemma fmap_cards (f g h : Card -> Card) (cs : list Card) :
  (forall el, f (g el) = h el) -> f <$> (g <$> cs) = h <$> cs.
Proof.
  intros H. rewrite <- list_fmap_compose. apply list_fmap_ext.
  intros i el _. apply H.
Qed.

Lemma enable_grid_list d : enable_grid (enable_list d) = enable_grid d.
Proof.
  unfold enable_grid, enable_list, set_view.
  cbn [fileContainer viewIcon cards].
  rewrite cl_switch_absorb, (fmap_cards _ _ card_grid) by apply card_grid_list.
  reflexivity.
Qed.

Lemma enable_list_grid d : enable_list (enable_grid d) = enable_list d.
Proof.
  unfold enable_grid, enable_list, set_view.
  cbn [fileContainer viewIcon cards].
  rewrite cl_switch_absorb, (fmap_cards _ _ card_list) by apply card_list_grid.
  reflexivity.
Qed.

Lemma enable_grid_idem d : enable_grid (enable_grid d) = enable_grid d.
Proof.
  unfold enable_grid, enable_list, set_view.
  cbn [fileContainer viewIcon cards].
  rewrite cl_switch_idem, (fmap_cards _ _ card_grid) by apply card_grid_idem.
  reflexivity.
Qed.

Lemma enable_list_idem d : enable_list (enable_list d) = enable_list d.
Proof.
  unfold enable_grid, enable_list, set_view.
  cbn [fileContainer viewIcon cards].
  rewrite cl_switch_idem, (fmap_cards _ _ card_list) by apply card_list_idem.
  reflexivity.
Qed.

(** [toggleView] is [switch_to] the mode it settles on. *)
Lemma toggleView_switch forceList s :
  toggleView forceList s
  = switch_to (if forceList then false else negb (isGridView (globals s))) s.
Proof. reflexivity. Qed.

(** A switch makes the one before it irrelevant. *)
Lemma switch_to_absorb g g' s : switch_to g (switch_to g' s) = switch_to g s.
Proof.
  unfold switch_to. cbn [globals dom browser]. f_equal.
  - destruct g, g'.
    + apply enable_grid_idem.
    + apply enable_grid_list.
    + apply enable_list_grid.
    + apply enable_list_idem.
  - unfold set_localStorage.
    cbn [timers nextHandle localStorage navigations requests console alerts
         unhandled].
    by rewrite insert_insert_eq.
Qed.

(** X8: the layout [toggleView] produces depends on the mode it switches
    to and not on how often the view was switched before.  Once the view
    has been switched, switching twice more gives back the very same
    state: mode, stored preference, container, icon and every card.
    Forcing list view twice is the same as forcing it once. *)
Theorem toggleView_twice_restores (s : State) (forceList : bool) :
  let s1 := toggleView forceList s in
  toggleView false (toggleView false s1) = s1
  /\ isGridView (globals (toggleView false s1)) = negb (isGridView (globals s1))
  /\ toggleView true (toggleView true s) = toggleView true s.
Proof.
  intros s1. subst s1. rewrite !toggleView_switch.
  cbn [switch_to globals isGridView set_isGridView].
  rewrite !switch_to_absorb, negb_involutive. done.
Qed.

(** ** What holds over every run of the page *)

(** How one task changes the timer table: not at all, or by the new
    interval of [pollRequest], or by [clearInterval(pollInterval)], or by
    that and the redirect timeout, or by a redirect timeout that fires. *)
Lemma step_timer_state s e :
  let '(tm, n, pi) := timer_state s in
  timer_state (step s e) = (tm, n, pi)
  \/ (exists r, timer_state (step s e)
                = (<[n := IntervalPoll r]> tm, (n + 1)%positive, Some n))
  \/ timer_state (step s e) = (cleared pi tm, n, pi)
  \/ (exists l, timer_state (step s e)
                = (<[n := TimeoutRedirect l]> (cleared pi tm), (n + 1)%positive, pi))
  \/ (exists h l, tm !! h = Some (TimeoutRedirect l)
                  /\ timer_state (step s e) = (cleared pi (delete h tm), n, pi)).
Proof.
  unfold timer_state.
  destruct e as [f p|r| | | |h|o|o|o|o]; unfold step.
  - by left.
  - right. left. by exists r.
  - right. right. left. unfold cancelDownload.
    destruct (truthy (currentReqId (globals s)));
      by destruct s as [[gv ps cc cr [i|]] d b].
  - right. right. left. by destruct s as [[gv ps cc cr [i|]] d b].
  - by left.
  - unfold fire. destruct (timers (browser s) !! h) as [[|r|l]|] eqn:Hh;
      try (by left).
    right. right. right. right. exists h, l. split; [done|].
    unfold pollRequest_redirect. by destruct s as [[gv ps cc cr [i|]] d b].
  - left. destruct o as [|[k [data|]]]; try done.
    rewrite checkStatus_reply_data. unfold checkStatus_data, apply_pause.
    repeat case_match; done.
  - rewrite initiateDownload_reply_cases.
    destruct o as [|[[] [data|]]]; cbn [ok body negb].
    all: try (right; right; left; by destruct s as [[gv ps cc cr [i|]] d b]).
    destruct (strict_eq (status data) (JStr "approved")).
    { right; right; left; by destruct s as [[gv ps cc cr [i|]] d b]. }
    destruct (strict_eq (status data) (JStr "pending")); [|by left].
    destruct (req_id data) as [| | | |rid] eqn:Hr;
      try (right; right; left; by destruct s as [[gv ps cc cr [i|]] dm br]).
    right. left. by exists (JStr rid).
  - rewrite pollRequest_reply_cases.
    destruct (is_approved o).
    { right. right. right. left. eexists.
      by destruct s as [[gv ps cc cr [i|]] d b]. }
    destruct (is_rejected o).
    { right. right. left. by destruct s as [[gv ps cc cr [i|]] d b]. }
    left. by destruct o as [|[k [data|]]].
  - left. by destruct o.
Qed.

Lemma timers_page_load d stored :
  timers (browser (page_load d stored)) = <[1%positive := IntervalCheckStatus]> ∅
  /\ nextHandle (browser (page_load d stored)) = 2%positive
  /\ pollInterval (globals (page_load d stored)) = None.
Proof.
  unfold page_load, loadViewPreference.
  by destruct (bool_decide _).
Qed.

Lemma cleared_lookup pi (tm : gmap positive Timer) h t :
  cleared pi tm !! h = Some t -> tm !! h = Some t.
Proof.
  destruct pi as [i|]; cbn; [|done].
  intros H. by apply lookup_delete_Some in H as [_ H].
Qed.

Lemma cleared_lookup_other pi (tm : gmap positive Timer) h :
  pi <> Some h -> cleared pi tm !! h = tm !! h.
Proof.
  destruct pi as [i|]; cbn; [|done].
  intros H. apply lookup_delete_ne. congruence.
Qed.

Lemma step_keeps_watcher s e : watcher_alive s -> watcher_alive (step s e).
Proof.
  intros (H1 & Hfresh & Hpoll).
  pose proof (Hfresh _ _ H1) as Hn.
  assert (Hpi : pollInterval (globals s) <> Some 1%positive).
  { intros Hp. apply Hpoll in Hp. lia. }
  pose proof (step_timer_state s e) as H. unfold timer_state in H.
  destruct H as [H|[[r H]|[H|[[l H]|(h & l & Hh & H)]]]];
    injection H as Ht Hnh Hp; unfold watcher_alive; rewrite Ht, Hnh, Hp.
  - done.
  - split; [by rewrite lookup_insert_ne by lia|]. split.
    + intros h t [[-> _]|[_ Hl]]%lookup_insert_Some; [lia|].
      apply Hfresh in Hl. lia.
    + intros h [= <-]. lia.
  - split; [by rewrite cleared_lookup_other|]. split.
    + intros h t Hl%cleared_lookup. by apply Hfresh in Hl.
    + done.
  - split; [rewrite lookup_insert_ne by lia; by rewrite cleared_lookup_other|].
    split.
    + intros h t [[-> _]|[_ Hl%cleared_lookup]]%lookup_insert_Some; [lia|].
      apply Hfresh in Hl. lia.
    + intros h Hh. apply Hpoll in Hh. lia.
  - assert (h <> 1%positive) by (intros ->; congruence).
    split; [rewrite cleared_lookup_other by done; by rewrite lookup_delete_ne|].
    split.
    + intros h' t [_ Hl]%cleared_lookup%lookup_delete_Some.
      by apply Hfresh in Hl.
    + done.
Qed.

Lemma run_keeps_watcher es : forall s,
  watcher_alive s -> watcher_alive (run es s).
Proof.
  induction es as [|e es IH]; intros s Hs; [done|].
  apply IH. by apply step_keeps_watcher.
Qed.

Lemma page_load_watcher d stored : watcher_alive (page_load d stored).
Proof.
  destruct (timers_page_load d stored) as (Ht & Hn & Hp).
  unfold watcher_alive. rewrite Ht, Hn, Hp.
  split; [apply lookup_insert_eq|]. split; [|done].
  intros h t [[<- _]|[_ Hl]]%lookup_insert_Some; [lia|].
  by rewrite lookup_empty in Hl.
Qed.

(** X9: nothing the page does stops the session watcher.  After any run
    of tasks from a page load the interval of [checkStatus] is still in the
    timer table under the first handle, its next tick asks for the status
    again, and the handle the next timer will get is free, so that no
    timer is ever replaced by another. *)
Theorem session_watcher_never_stopped
    (d : Dom) (stored : gmap string string) (es : list event) :
  let s := run es (page_load d stored) in
  timers (browser s) !! 1%positive = Some IntervalCheckStatus
  /\ requests (browser (run [TimerFires 1] s)) = requests (browser s) ++ [GetStatus]
  /\ timers (browser s) !! nextHandle (browser s) = None
  /\ pollInterval (globals s) <> Some 1%positive.
Proof.
  intros s.
  destruct (run_keeps_watcher es _ (page_load_watcher d stored))
    as (H1 & Hfresh & Hpoll). fold s in H1, Hfresh, Hpoll.
  split; [exact H1|]. split; [|split].
  - unfold run, fold_left, step, fire. by rewrite H1.
  - destruct (timers (browser s) !! nextHandle (browser s)) eqn:Hl; [|done].
    apply Hfresh in Hl. lia.
  - intros Hp. apply Hpoll in Hp. lia.
Qed.

(** Only [toggleView] touches the view mode and client-local storage. *)
Lemma step_keeps_view s e :
  e <> Call_toggleView ->
  localStorage (browser (step s e)) = localStorage (browser s)
  /\ isGridView (globals (step s e)) = isGridView (globals s).
Proof.
  intros He.
  destruct e as [f p|r| | | |h|o|o|o|o]; unfold step; try done.
  - unfold cancelDownload. destruct (truthy (currentReqId (globals s)));
      by destruct s as [[gv ps cc cr [i|]] dm br].
  - by destruct s as [[gv ps cc cr [i|]] dm br].
  - unfold fire, pollRequest_redirect.
    destruct (timers (browser s) !! h) as [[|r|l]|]; try done.
    by destruct s as [[gv ps cc cr [i|]] dm br].
  - destruct o as [|[k [data|]]]; try done.
    rewrite checkStatus_reply_data. unfold checkStatus_data, apply_pause.
    repeat case_match; done.
  - rewrite initiateDownload_reply_cases.
    destruct o as [|[[] [data|]]]; cbn [ok body negb];
      try (by destruct s as [[gv ps cc cr [i|]] dm br]).
    destruct (strict_eq (status data) (JStr "approved"));
      [by destruct s as [[gv ps cc cr [i|]] dm br]|].
    destruct (strict_eq (status data) (JStr "pending")); [|done].
    destruct (req_id data); by destruct s as [[gv ps cc cr [i|]] dm br].
  - rewrite pollRequest_reply_cases.
    destruct (is_approved o); [by destruct s as [[gv ps cc cr [i|]] dm br]|].
    destruct (is_rejected o); [by destruct s as [[gv ps cc cr [i|]] dm br]|].
    by destruct o as [|[k [data|]]].
  - by destruct o.
Qed.

Lemma step_keeps_synced s e : view_synced s -> view_synced (step s e).
Proof.
  intros Hs.
  assert (e = Call_toggleView \/ e <> Call_toggleView) as [->|He]
    by (destruct e; (by left) || (by right)).
  - unfold view_synced, step. rewrite toggleView_switch.
    cbn [switch_to globals browser isGridView set_isGridView localStorage
         set_localStorage].
    rewrite lookup_insert_eq. by destruct (isGridView (globals s)).
  - destruct (step_keeps_view s e He) as [Hl Hg].
    unfold view_synced. by rewrite Hl, Hg.
Qed.

Lemma run_keeps_synced es : forall s, view_synced s -> view_synced (run es s).
Proof.
  induction es as [|e es IH]; intros s Hs; [done|].
  apply IH. by apply step_keeps_synced.
Qed.

Lemma page_load_synced d stored : view_synced (page_load d stored).
Proof.
  unfold view_synced.
  destruct (decide (stored !! "viewMode" = Some "list")) as [Hl|Hl].
  - destruct (page_load_list d stored Hl) as (-> & -> & _). done.
  - destruct (page_load_other d stored Hl) as (-> & -> & _). done.
Qed.

Lemma page_load_keeps_storage d stored :
  localStorage (browser (page_load d stored)) = stored.
Proof.
  destruct (decide (stored !! "viewMode" = Some "list")) as [Hl|Hl].
  - by destruct (page_load_list d stored Hl) as (_ & -> & _).
  - by destruct (page_load_other d stored Hl) as (_ & -> & _).
Qed.

Lemma run_keeps_storage es : forall s,
  Call_toggleView ∉ es ->
  localStorage (browser (run es s)) = localStorage (browser s).
Proof.
  induction es as [|e es IH]; intros s Hn; [done|].
  apply not_elem_of_cons in Hn as [He Hn].
  cbn. rewrite IH by done.
  apply step_keeps_view. congruence.
Qed.

(** X10: the stored preference keeps up with the view over any run of the
    page: whenever the page is loaded again with what client-local storage
    then holds, it comes up in the mode the user last saw.  A run without a
    view toggle leaves client-local storage exactly as the visit found it. *)
Theorem view_preference_survives_reload
    (d d' : Dom) (stored : gmap string string) (es : list event) :
  let s := run es (page_load d stored) in
  isGridView (globals (page_load d' (localStorage (browser s))))
  = isGridView (globals s)
  /\ (Call_toggleView ∉ es -> localStorage (browser s) = stored).
Proof.
  intros s. split.
  - pose proof (run_keeps_synced es _ (page_load_synced d stored)) as Hs.
    fold s in Hs. unfold view_synced in Hs.
    destruct (decide (localStorage (browser s) !! "viewMode" = Some "list"))
      as [Hl|Hl].
    + destruct (page_load_list d' _ Hl) as (-> & _). symmetry. by apply Hs.
    + destruct (page_load_other d' _ Hl) as (-> & _).
      destruct (isGridView (globals s)); [done|]. exfalso. apply Hl. by apply Hs.
  - intros Hn. unfold s. rewrite run_keeps_storage by done.
    apply page_load_keeps_storage.
Qed.

(** ** The overlay and the flag *)

Lemma step_keeps_pause_ui s e :
  (forall o, e <> Reply_status o) -> pause_ui (step s e) = pause_ui s.
Proof.
  intros He. unfold pause_ui.
  destruct e as [f p|r| | | |h|o|o|o|o]; unfold step; try done.
  - unfold cancelDownload. destruct (truthy (currentReqId (globals s)));
      by destruct s as [[gv ps cc cr [i|]] dm br].
  - by destruct s as [[gv ps cc cr [i|]] dm br].
  - rewrite toggleView_switch. unfold switch_to.
    by destruct (negb (isGridView (globals s))).
  - unfold fire, pollRequest_redirect.
    destruct (timers (browser s) !! h) as [[|r|l]|]; try done.
    by destruct s as [[gv ps cc cr [i|]] dm br].
  - by destruct (He o).
  - rewrite initiateDownload_reply_cases.
    destruct o as [|[[] [data|]]]; cbn [ok body negb];
      try (by destruct s as [[gv ps cc cr [i|]] dm br]).
    destruct (strict_eq (status data) (JStr "approved"));
      [by destruct s as [[gv ps cc cr [i|]] dm br]|].
    destruct (strict_eq (status data) (JStr "pending")); [|done].
    destruct (req_id data); by destruct s as [[gv ps cc cr [i|]] dm br].
  - rewrite pollRequest_reply_cases.
    destruct (is_approved o); [by destruct s as [[gv ps cc cr [i|]] dm br]|].
    destruct (is_rejected o); [by destruct s as [[gv ps cc cr [i|]] dm br]|].
    by destruct o as [|[k [data|]]].
  - by destruct o.
Qed.

Lemma checkStatus_reply_pause_ui o s :
  pause_ui (checkStatus_reply o s) = pause_ui s
  \/ exists data, pause_ui (checkStatus_reply o s) = pause_ui (apply_pause data s).
Proof.
  destruct o as [|[k [data|]]]; try (by left).
  rewrite checkStatus_reply_data. unfold checkStatus_data.
  repeat case_match; try (by left); right; exists data.
  - by rewrite apply_pause_set_baseline.
  - done.
Qed.

Lemma overlay_by_pause_ui s s' :
  pause_ui s' = pause_ui s -> overlay_matches_flag s -> overlay_matches_flag s'.
Proof.
  unfold pause_ui, overlay_matches_flag, overlay_up, overlay_down.
  intros [= -> -> ->]. done.
Qed.

Lemma apply_pause_keeps_overlay data s :
  overlay_matches_flag s -> overlay_matches_flag (apply_pause data s).
Proof.
  intros Hs. pose proof (apply_pause_cases data s) as Hc.
  destruct (truthy (paused data) && negb (pausedState (globals s))).
  { unfold pause_ui, entered in Hc. injection Hc as Hf Ho Hm.
    unfold overlay_matches_flag, overlay_up. rewrite Hf, Ho, Hm.
    unfold cl_remove, cl_add.
    rewrite !elem_of_difference, elem_of_union, !elem_of_list_to_set.
    split; [|split].
    - intros [_ Hn]. apply Hn. repeat constructor.
    - intros [_ Hn]. apply Hn. repeat constructor.
    - right. repeat constructor. }
  destruct (negb (truthy (paused data)) && pausedState (globals s)).
  { unfold pause_ui, exited in Hc. injection Hc as Hf Ho Hm.
    unfold overlay_matches_flag, overlay_down. rewrite Hf, Ho, Hm.
    unfold cl_remove, cl_add.
    rewrite elem_of_difference, !elem_of_union, !elem_of_list_to_set.
    split; [|split].
    - right. repeat constructor.
    - right. repeat constructor.
    - intros [_ Hn]. apply Hn. repeat constructor. }
  by apply (overlay_by_pause_ui s).
Qed.

Lemma step_keeps_overlay s e :
  overlay_matches_flag s -> overlay_matches_flag (step s e).
Proof.
  intros Hs. destruct e as [f p|r| | | |h|o|o1|o2|o3].
  7: { destruct (checkStatus_reply_pause_ui o s) as [H|[data H]].
       - by apply (overlay_by_pause_ui s).
       - apply (overlay_by_pause_ui (apply_pause data s)); [done|].
         by apply apply_pause_keeps_overlay. }
  all: apply (overlay_by_pause_ui s); [|done];
       apply step_keeps_pause_ui; done.
Qed.

Lemma run_keeps_overlay es : forall s,
  overlay_matches_flag s -> overlay_matches_flag (run es s).
Proof.
  induction es as [|e es IH]; intros s Hs; [done|].
  apply IH. by apply step_keeps_overlay.
Qed.

(** X11: when the page comes with the pause overlay down, the overlay and
    the flag never part over any run of the page: whenever [pausedState] is
    set the overlay is up as a whole (visible, catching clicks, content
    blurred), and whenever it is not the overlay is down as a whole. *)
Theorem overlay_follows_flag
    (d : Dom) (stored : gmap string string) (es : list event) :
  overlay_down d ->
  let s := run es (page_load d stored) in
  (pausedState (globals s) = true -> overlay_up (dom s))
  /\ (pausedState (globals s) = false -> overlay_down (dom s)).
Proof.
  intros Hd s.
  assert (H0 : overlay_matches_flag (page_load d stored)).
  { unfold page_load, loadViewPreference.
    destruct (bool_decide _); [|exact Hd].
    rewrite toggleView_switch. exact Hd. }
  assert (Hs : overlay_matches_flag s) by (by apply run_keeps_overlay).
  unfold overlay_matches_flag in Hs.
  split; intros Hp; by rewrite Hp in Hs.
Qed.

(** ** The first revision, continued *)

(** X12: the first revision's [checkStatus] reads [running] and [paused]
    and nothing else: replies that agree on the truth of these two are
    handled alike, whatever [force_logout] and [config_id] say.  With
    [running] false it asks for a reload and, having no [return], goes on
    to the pause step all the same; it never assigns a location and never
    writes the configuration baseline. *)
Theorem rev1_checkStatus_two_fields (s : State) (k k' : bool) (data data' : StatusData) :
  let reply d := Rev1.checkStatus_reply (Responded {| ok := k; body := Some d |}) s in
  (truthy (running data) = truthy (running data') ->
   truthy (paused data) = truthy (paused data') ->
   Rev1.checkStatus_reply (Responded {| ok := k'; body := Some data' |}) s
   = reply data)
  /\ navigations (browser (reply data))
     = navigations (browser s)
       ++ (if truthy (running data) then [] else [Reload])
  /\ pause_ui (reply data) = pause_ui (apply_pause data s)
  /\ pausedState (globals (reply data)) = truthy (paused data)
  /\ currentConfigId (globals (reply data)) = currentConfigId (globals s).
Proof.
  intros reply. subst reply.
  assert (Hr : forall kk d,
    Rev1.checkStatus_reply (Responded {| ok := kk; body := Some d |}) s
    = Rev1.checkStatus_data d s) by reflexivity.
  rewrite !Hr. unfold Rev1.checkStatus_data.
  split; [|split; [|split; [|split]]].
  - intros Hrun Hp. rewrite Hrun. unfold apply_pause. by rewrite Hp.
  - destruct (truthy (running data)); cbn [negb];
      unfold apply_pause; repeat case_match; cbn; by rewrite ?app_nil_r.
  - destruct (truthy (running data)); cbn [negb]; [done|].
    rewrite !apply_pause_cases. done.
  - apply apply_pause_flag.
  - rewrite apply_pause_baseline. by destruct (negb (truthy (running data))).
Qed.

(** X13: the first revision's [initiateDownload] does not look at the HTTP
    status: a reply is handled by its body alone, so that an error reply
    whose body says [pending] starts the polling loop like any other, with
    no alert and no navigation.  Nothing in its chain
    catches: when the request fails on the network, or the body is not
    JSON, the failure ends as an unhandled rejection and nothing else
    happens: no alert, no console message, no reload, no timer, and the
    modal stays as it was. *)
Theorem rev1_initiateDownload_ignores_status
    (s : State) (k k' : bool) (b : option RequestData) (o : FetchOutcome RequestData) :
  Rev1.initiateDownload_reply (Responded {| ok := k; body := b |}) s
  = Rev1.initiateDownload_reply (Responded {| ok := k'; body := b |}) s
  /\ (forall id dl lk,
        let s' := Rev1.initiateDownload_reply
                    (Responded {| ok := false;
                                  body := Some {| status := JStr "pending";
                                                  direct_link := dl;
                                                  req_id := JStr id;
                                                  link := lk |} |}) s in
        timers (browser s') !! nextHandle (browser s)
        = Some (IntervalPoll (JStr id))
        /\ pollInterval (globals s') = Some (nextHandle (browser s))
        /\ alerts (browser s') = alerts (browser s)
        /\ navigations (browser s') = navigations (browser s))
  /\ (fetch_failed o = true ->
      Rev1.initiateDownload_reply o s
      = with_browser (add_unhandled (fetch_error o)) s).
Proof.
  split; [reflexivity|]. split.
  - intros id dl lk s'. subst s'.
    unfold Rev1.initiateDownload_reply, Rev1.initiateDownload_chain, settle,
      then_, fetch_result, json, resolve, Rev1.initiateDownload_data.
    cbn [body status req_id].
    assert (strict_eq (JStr "pending") (JStr "approved") = false) as ->
      by (by apply strict_eq_false).
    rewrite strict_eq_refl. cbn.
    split; [apply lookup_insert_eq|done].
  - destruct o as [|[kk [data|]]]; intros Hf; try reflexivity.
    by apply bool_decide_eq_true in Hf.
Qed.

(** ** The view toggle without a stored preference *)

Lemma plain_forEach_all grid cs :
  Forall PlainView.has_icon cs ->
  PlainView.forEach grid cs = (PlainView.restyle grid <$> cs, None).
Proof.
  induction 1 as [|el cs [bg Hbg] _ IH]; [done|].
  cbn. by rewrite Hbg, IH.
Qed.

Lemma plain_forEach_stops grid pre el post :
  Forall PlainView.has_icon pre ->
  PlainView.icon_bg el = None ->
  PlainView.forEach grid (pre ++ el :: post)
  = ((PlainView.restyle grid <$> pre)
       ++ PlainView.restyle_classes grid el :: post,
     Some (TypeError "Cannot read properties of null (reading 'closest')")).
Proof.
  intros Hpre Hel. induction Hpre as [|x pre [bg Hbg] _ IH].
  - cbn. by rewrite Hel.
  - cbn. by rewrite Hbg, IH.
Qed.

(** X14: the view toggle of the first and third revision stops at the
    first card that has no file or folder icon.  The call then ends with a
    TypeError after the mode flag, the container and the toolbar icon have
    been switched: the cards before that one are restyled in full, that
    card has only its own classes changed, and the cards after it are left
    in the old layout.  When every card has its icon the call ends
    normally with every card restyled. *)
Theorem plain_toggleView_stops_at_missing_icon
    (v : PlainView.View) (pre post : list PlainView.Card) (el : PlainView.Card) :
  let grid := negb (PlainView.grid_view v) in
  let v' := fst (PlainView.toggleView v) in
  PlainView.grid_view v' = grid
  /\ PlainView.icon v' = (if grid then "fas fa-list-ul" else "fas fa-th-large")
  /\ PlainView.container v'
     = (if grid
        then cl_add ["grid"; "grid-cols-1"; "sm:grid-cols-2"; "md:grid-cols-3";
                     "lg:grid-cols-4"]
               (cl_remove ["flex"; "flex-col"] (PlainView.container v))
        else cl_add ["flex"; "flex-col"]
               (cl_remove ["grid"; "grid-cols-1"; "sm:grid-cols-2";
                           "md:grid-cols-3"; "lg:grid-cols-4"]
                  (PlainView.container v)))
  /\ (Forall PlainView.has_icon (PlainView.file_cards v) ->
      snd (PlainView.toggleView v) = None
      /\ PlainView.file_cards v'
         = (PlainView.restyle grid <$> PlainView.file_cards v))
  /\ (PlainView.file_cards v = pre ++ el :: post ->
      Forall PlainView.has_icon pre ->
      PlainView.icon_bg el = None ->
      snd (PlainView.toggleView v)
      = Some (TypeError "Cannot read properties of null (reading 'closest')")
      /\ PlainView.file_cards v'
         = (PlainView.restyle grid <$> pre)
             ++ PlainView.restyle_classes grid el :: post).
Proof.
  intros grid v'. subst v'. unfold PlainView.toggleView. fold grid.
  destruct (PlainView.forEach grid (PlainView.file_cards v)) as [cs err] eqn:He.
  cbn [fst snd PlainView.grid_view PlainView.icon PlainView.container
       PlainView.file_cards].
  split; [done|]. split; [done|]. split; [done|]. split.
  - intros Hall. rewrite plain_forEach_all in He by done. by injection He as <- <-.
  - intros Hc Hpre Hel. rewrite Hc, plain_forEach_stops in He by done.
    by injection He as <- <-.
Qed.

Lemma cl_round_trip G L P c :
  (forall x, x ∈ P -> x ∉ L) ->
  cl_add G (cl_remove L (cl_add (L ++ P) (cl_remove G c)))
  = cl_add P (cl_add G (cl_remove L c)).
Proof.
  intros Hdisj. unfold cl_add, cl_remove. apply set_eq. intros x.
  rewrite list_to_set_app_L.
  rewrite !elem_of_union, !elem_of_difference, !elem_of_union,
    !elem_of_difference, !elem_of_list_to_set.
  specialize (Hdisj x).
  destruct (decide (x ∈ G)); [tauto|].
  destruct (decide (x ∈ L)); tauto.
Qed.

(** X15: in the first and third revision a trip to list view and back
    does not give the grid layout back exactly.  With every card carrying
    its icon, two toggles from grid view end normally with the flag, the
    toolbar icon and the container as a direct switch to grid view leaves
    them, and every card as a direct restyling for grid view leaves it,
    except that each card has picked up the class [gap-4], which the grid
    branch never removes. *)
Theorem plain_toggleView_round_trip_keeps_gap (v : PlainView.View) :
  PlainView.grid_view v = true ->
  Forall PlainView.has_icon (PlainView.file_cards v) ->
  let v1 := fst (PlainView.toggleView v) in
  let v2 := fst (PlainView.toggleView v1) in
  snd (PlainView.toggleView v) = None
  /\ snd (PlainView.toggleView v1) = None
  /\ PlainView.grid_view v2 = true
  /\ PlainView.icon v2 = "fas fa-list-ul"
  /\ PlainView.container v2
     = cl_add ["grid"; "grid-cols-1"; "sm:grid-cols-2"; "md:grid-cols-3";
               "lg:grid-cols-4"]
         (cl_remove ["flex"; "flex-col"] (PlainView.container v))
  /\ PlainView.file_cards v2
     = (fun el =>
          {| PlainView.classes :=
               cl_add ["gap-4"] (PlainView.classes (PlainView.restyle true el));
             PlainView.icon_bg := PlainView.icon_bg (PlainView.restyle true el) |})
         <$> PlainView.file_cards v.
Proof.
  intros Hg Hall v1 v2.
  assert (H1 : PlainView.toggleView v
    = ({| PlainView.grid_view := false;
          PlainView.container :=
            cl_add ["flex"; "flex-col"]
              (cl_remove ["grid"; "grid-cols-1"; "sm:grid-cols-2";
                          "md:grid-cols-3"; "lg:grid-cols-4"]
                 (PlainView.container v));
          PlainView.icon := "fas fa-th-large";
          PlainView.file_cards :=
            PlainView.restyle false <$> PlainView.file_cards v |}, None)).
  { unfold PlainView.toggleView. rewrite Hg. cbn [negb].
    by rewrite plain_forEach_all. }
  assert (Hall1 : Forall PlainView.has_icon
                    (PlainView.restyle false <$> PlainView.file_cards v)).
  { apply Forall_fmap. eapply Forall_impl; [exact Hall|].
    intros el [bg Hbg]. unfold PlainView.has_icon. cbn. by rewrite Hbg. }
  assert (H2 : PlainView.toggleView v1
    = ({| PlainView.grid_view := true;
          PlainView.container :=
            cl_add ["grid"; "grid-cols-1"; "sm:grid-cols-2"; "md:grid-cols-3";
                    "lg:grid-cols-4"]
              (cl_remove ["flex"; "flex-col"] (PlainView.container v1));
          PlainView.icon := "fas fa-list-ul";
          PlainView.file_cards :=
            PlainView.restyle true <$> PlainView.file_cards v1 |}, None)).
  { unfold v1. rewrite H1. unfold PlainView.toggleView.
    cbn [fst PlainView.grid_view PlainView.file_cards negb PlainView.container].
    by rewrite plain_forEach_all. }
  unfold v2. rewrite H2. unfold v1. rewrite H1.
  cbn [fst snd PlainView.grid_view PlainView.icon PlainView.container
       PlainView.file_cards].
  split; [done|]. split; [done|]. split; [done|]. split; [done|]. split.
  - apply cl_switch_absorb.
  - rewrite <- list_fmap_compose. apply list_fmap_ext.
    intros i [c bg] _. unfold PlainView.restyle, PlainView.restyle_classes.
    cbn [compose PlainView.classes PlainView.icon_bg]. f_equal.
    + apply (cl_round_trip _ ["flex-row"; "items-center"; "min-h-[60px]"] ["gap-4"]).
      intros x ->%list_elem_of_singleton Hin.
      repeat (apply elem_of_cons in Hin as [Hin|Hin]; [discriminate|]).
      by apply elem_of_nil in Hin.
    + destruct bg as [[b|]|]; cbn; [|done|done]. do 2 f_equal.
      apply cl_remove_add_same.
Qed.

(** * Properties of the admin dashboard script *)

(** ** The toast and its timer *)

Lemma admin_toast_frame s s' :
  Admin.timers s' = Admin.timers s ->
  Admin.nextHandle s' = Admin.nextHandle s ->
  Admin.toastTimeout s' = Admin.toastTimeout s ->
  Admin.notificationToast (Admin.dom s') = Admin.notificationToast (Admin.dom s) ->
  Admin.toast_kept s -> Admin.toast_kept s'.
Proof.
  unfold Admin.toast_kept, Admin.toast_up. by intros -> -> -> ->.
Qed.

Lemma admin_showNotification_keeps m s :
  Admin.toast_kept s -> Admin.toast_kept (Admin.showNotification m s).
Proof.
  intros (H1 & H2 & Hfresh & Huniq & Hrange & _).
  pose proof (Hfresh _ _ H2) as Hn.
  destruct s as [[h0|] d tm n rq un]; cbn in *.
  - pose proof (Hrange h0 eq_refl) as Hh0.
    unfold Admin.toast_kept, Admin.toast_up; cbn.
    split; [rewrite lookup_insert_ne by lia; by rewrite lookup_delete_ne by lia|].
    split; [rewrite lookup_insert_ne by lia; by rewrite lookup_delete_ne by lia|].
    split; [|split; [|split]].
    + intros h t [[<- _]|[_ [_ Hl]%lookup_delete_Some]]%lookup_insert_Some;
        [lia|]. apply Hfresh in Hl. lia.
    + intros h [[<- _]|[_ [Hne Hl]%lookup_delete_Some]]%lookup_insert_Some;
        [done|]. apply Huniq in Hl. congruence.
    + intros h [= <-]. lia.
    + intros _. exists n. apply lookup_insert_eq.
  - unfold Admin.toast_kept, Admin.toast_up; cbn.
    split; [by rewrite lookup_insert_ne by lia|].
    split; [by rewrite lookup_insert_ne by lia|].
    split; [|split; [|split]].
    + intros h t [[<- _]|[_ Hl]]%lookup_insert_Some; [lia|].
      apply Hfresh in Hl. lia.
    + intros h [[<- _]|[_ Hl]]%lookup_insert_Some; [done|].
      by apply Huniq in Hl.
    + intros h [= <-]. lia.
    + intros _. exists n. apply lookup_insert_eq.
Qed.

Lemma admin_fire_keeps h s :
  Admin.toast_kept s -> Admin.toast_kept (Admin.fire h s).
Proof.
  intros Hs. unfold Admin.fire.
  destruct (Admin.timers s !! h) as [[| |]|] eqn:Hh; try done.
  destruct Hs as (H1 & H2 & Hfresh & Huniq & Hrange & _).
  assert (h <> 1%positive) by (intros ->; congruence).
  assert (h <> 2%positive) by (intros ->; congruence).
  unfold Admin.toast_kept, Admin.toast_up; cbn.
  split; [by rewrite lookup_delete_ne|].
  split; [by rewrite lookup_delete_ne|].
  split; [|split; [|split]].
  - intros h' t [_ Hl]%lookup_delete_Some. by apply Hfresh in Hl.
  - intros h' [_ Hl]%lookup_delete_Some. by apply Huniq.
  - done.
  - intros Hup. exfalso. apply Hup. unfold cl_add.
    rewrite elem_of_union, elem_of_list_to_set. right. repeat constructor.
Qed.

Lemma admin_step_keeps_toast s e :
  Admin.toast_kept s -> Admin.toast_kept (Admin.step s e).
Proof.
  intros Hs.
  destruct e as [m|k|t|r dc|h|o|o|o|t o|dc o]; unfold Admin.step.
  - by apply admin_showNotification_keeps.
  - by apply (admin_toast_frame s).
  - by apply (admin_toast_frame s).
  - by apply (admin_toast_frame s).
  - by apply admin_fire_keeps.
  - apply (admin_toast_frame s); try done;
      destruct o as [|[k [[[c|]]|]]]; done.
  - apply (admin_toast_frame s); try done;
      destruct o as [|[k [[|entries]|]]]; try done;
      unfold Admin.fetchRequests_reply, Admin.then_json,
        Admin.fetchRequests_data; cbn [body];
      destruct (Nat.eqb _ 0); try done;
      destruct (Admin.render entries entries.*1); done.
  - destruct o as [|r]; by apply (admin_toast_frame s).
  - destruct o as [|r]; [by apply (admin_toast_frame s)|].
    by apply admin_showNotification_keeps.
  - destruct o as [|r]; [by apply (admin_toast_frame s)|].
    apply admin_showNotification_keeps. by apply (admin_toast_frame s).
Qed.

Lemma admin_run_keeps_toast es : forall s,
  Admin.toast_kept s -> Admin.toast_kept (Admin.run es s).
Proof.
  induction es as [|e es IH]; intros s Hs; [done|].
  apply IH. by apply admin_step_keeps_toast.
Qed.

Lemma admin_page_load_toast d :
  "opacity-0" ∈ Admin.notificationToast d -> Admin.toast_kept (Admin.page_load d).
Proof.
  intros Hd. unfold Admin.toast_kept, Admin.toast_up. cbn.
  split; [by rewrite lookup_insert_ne|]. split; [apply lookup_insert_eq|].
  split; [|split; [|split]]; try done.
  - intros h t [[<- _]|[_ [[<- _]|[_ Hl]]%lookup_insert_Some]]%lookup_insert_Some;
      [lia|lia|]. by rewrite lookup_empty in Hl.
  - intros h [[_ [=]]|[_ [[_ [=]]|[_ Hl]]%lookup_insert_Some]]%lookup_insert_Some.
    by rewrite lookup_empty in Hl.
Qed.

(** At most one key of a map can satisfy a property that pins it down. *)
Lemma at_most_one_key (tm : gmap positive Admin.Timer) (h0 : option positive) :
  (forall h, tm !! h = Some Admin.TimeoutToast -> h0 = Some h) ->
  length (fst <$> List.filter
            (fun p => match snd p with Admin.TimeoutToast => true | _ => false end)
            (map_to_list tm)) <= 1.
Proof.
  intros Huniq.
  assert (Hnd : NoDup (fst <$> List.filter
            (fun p => match snd p with Admin.TimeoutToast => true | _ => false end)
            (map_to_list tm))).
  { assert (Hall : NoDup (map_to_list tm).*1) by apply NoDup_fst_map_to_list.
    revert Hall. generalize (map_to_list tm). intros l.
    induction l as [|[h t] l IH]; cbn; [done|].
    intros [Hnin Hl]%NoDup_cons. specialize (IH Hl).
    destruct t; cbn; try done.
    apply NoDup_cons. split; [|done].
    intros [[h' t'] [-> Hin]]%list_elem_of_fmap. apply Hnin.
    apply list_elem_of_In, filter_In in Hin as [Hin _].
    apply list_elem_of_fmap. exists (h', t'). split; [done|].
    by apply list_elem_of_In. }
  assert (Hin : forall h, h ∈ (fst <$> List.filter
            (fun p => match snd p with Admin.TimeoutToast => true | _ => false end)
            (map_to_list tm)) -> h0 = Some h).
  { intros h [[h' t] [-> Hin]]%list_elem_of_fmap.
    apply list_elem_of_In, filter_In in Hin as [Hin Ht].
    apply list_elem_of_In, elem_of_map_to_list in Hin.
    cbn in Ht. destruct t; try done. by apply Huniq. }
  revert Hnd Hin.
  generalize (fst <$> List.filter
            (fun p => match snd p with Admin.TimeoutToast => true | _ => false end)
            (map_to_list tm)).
  intros [|a [|b l]] Hnd Hin; cbn; try lia.
  exfalso. apply NoDup_cons in Hnd as [Hnin _]. apply Hnin.
  assert (h0 = Some a) as Ha by (apply Hin; by left).
  assert (h0 = Some b) as Hb by (apply Hin; right; by left).
  assert (a = b) as -> by congruence. by left.
Qed.

(** X16: the admin page never has more than one toast timeout pending,
    and notifications never disturb the two pollers.  When the page comes
    with the toast hidden, then after any run of tasks both pollers are
    still in the timer table, at most one toast timeout is pending, and a
    toast that is up has its timeout pending under the handle
    [toastTimeout] names, so that it will be taken down: when that timeout
    fires the toast is hidden. *)
Theorem admin_toast_single_timer (d : Admin.Dom) (es : list Admin.event) :
  "opacity-0" ∈ Admin.notificationToast d ->
  let s := Admin.run es (Admin.page_load d) in
  Admin.timers s !! 1%positive = Some Admin.IntervalFetchState
  /\ Admin.timers s !! 2%positive = Some Admin.IntervalFetchRequests
  /\ length (Admin.toast_timers s) <= 1
  /\ (Admin.toast_up s ->
      exists h, Admin.toastTimeout s = Some h
                /\ Admin.timers s !! h = Some Admin.TimeoutToast
                /\ ~ Admin.toast_up (Admin.run [Admin.TimerFires h] s)).
Proof.
  intros Hd s.
  destruct (admin_run_keeps_toast es _ (admin_page_load_toast d Hd))
    as (H1 & H2 & Hfresh & Huniq & Hrange & Hup).
  fold s in H1, H2, Hfresh, Huniq, Hrange, Hup.
  split; [exact H1|]. split; [exact H2|]. split.
  - unfold Admin.toast_timers. by apply (at_most_one_key _ (Admin.toastTimeout s)).
  - intros Hs. destruct (Hup Hs) as [h Hh]. exists h.
    split; [by apply Huniq|]. split; [exact Hh|].
    unfold Admin.run, fold_left, Admin.step, Admin.fire. rewrite Hh.
    unfold Admin.toast_up. cbn. intros Hn. apply Hn. unfold cl_add.
    rewrite elem_of_union, elem_of_list_to_set. right. repeat constructor.
Qed.

(** ** What the admin page reports *)

Lemma not_in_cl_remove x A c : x ∈ A -> x ∉ cl_remove A c.
Proof.
  intros HA. unfold cl_remove. rewrite elem_of_difference, elem_of_list_to_set.
  by intros [_ Hn].
Qed.

Lemma in_cl_add x A c : x ∈ A -> x ∈ cl_add A c.
Proof.
  intros HA. unfold cl_add. rewrite elem_of_union, elem_of_list_to_set.
  by right.
Qed.

Lemma admin_toast_after_notification m s :
  let s' := Admin.showNotification m s in
  Admin.toastMessage (Admin.dom s') = m
  /\ Admin.toast_up s'
  /\ Admin.timers s' !! Admin.nextHandle s = Some Admin.TimeoutToast
  /\ Admin.toastTimeout s' = Some (Admin.nextHandle s)
  /\ Admin.requests s' = Admin.requests s
  /\ Admin.unhandled s' = Admin.unhandled s.
Proof.
  destruct s as [[h0|] d tm n rq un]; unfold Admin.toast_up;
    cbn -[cl_add cl_remove];
    (split; [done|]);
    (split; [apply not_in_cl_remove; repeat constructor|]);
    (split; [apply lookup_insert_eq|]); done.
Qed.

(** X17: [updateConfig] sends the folder path for the type [folder] and
    the password for every other type, and reports success on any
    response: whatever the HTTP status of the reply, the toast comes up
    with the message of the type and its timeout is set.  Only when the
    request fails on the network is nothing reported; the page is then
    left as it was and the rejection goes unhandled. *)
Theorem admin_updateConfig_reports_any_status
    (s : Admin.State) (type : string) (r : Response unit) :
  let folder := String.eqb type "folder" in
  let s1 := Admin.run [Admin.Call_updateConfig type] s in
  let s2 := Admin.run [Admin.Reply_updateConfig type (Responded r)] s1 in
  let s2' := Admin.run [Admin.Reply_updateConfig type NetworkError] s1 in
  Admin.requests s1
  = Admin.requests s
    ++ [if folder
        then Admin.PostStatus "folder_path" (JStr (Admin.folderPath (Admin.dom s)))
        else Admin.PostStatus "password" (JStr (Admin.clientPass (Admin.dom s)))]
  /\ Admin.dom s1 = Admin.dom s
  /\ Admin.toastMessage (Admin.dom s2)
     = (if folder then "Shared folder path updated."
        else "Access password updated.")
  /\ Admin.toast_up s2
  /\ Admin.timers s2 !! Admin.nextHandle s = Some Admin.TimeoutToast
  /\ Admin.unhandled s2 = Admin.unhandled s
  /\ Admin.dom s2' = Admin.dom s
  /\ Admin.timers s2' = Admin.timers s
  /\ Admin.unhandled s2' = Admin.unhandled s ++ [TypeError "Failed to fetch"].
Proof.
  intros folder s1 s2 s2'.
  destruct (admin_toast_after_notification
              (if folder then "Shared folder path updated."
               else "Access password updated.") s1)
    as (Hm & Hup & Ht & _ & _ & Hu).
  split; [subst s1 folder; cbn; by destruct (String.eqb type "folder")|].
  split; [done|]. split; [exact Hm|]. split; [exact Hup|].
  split; [exact Ht|]. split; [exact Hu|]. done.
Qed.

(** X18: [decide] posts the decision and, on any response whatever its
    HTTP status, asks for the table of requests again and puts up the
    toast "Request <decision>."; when the request fails on the network it
    does neither and the rejection goes unhandled. *)
Theorem admin_decide_refreshes_and_reports
    (s : Admin.State) (reqId decision : string) (r : Response unit) :
  let s1 := Admin.run [Admin.Call_decide reqId decision] s in
  let s2 := Admin.run [Admin.Reply_decide decision (Responded r)] s1 in
  let s2' := Admin.run [Admin.Reply_decide decision NetworkError] s1 in
  Admin.requests s2
  = Admin.requests s ++ [Admin.PostDecision reqId decision; Admin.GetRequests]
  /\ Admin.toastMessage (Admin.dom s2) = "Request " +:+ decision +:+ "."
  /\ Admin.toast_up s2
  /\ Admin.timers s2 !! Admin.nextHandle s = Some Admin.TimeoutToast
  /\ Admin.requestsTable (Admin.dom s2) = Admin.requestsTable (Admin.dom s)
  /\ Admin.requests s2' = Admin.requests s ++ [Admin.PostDecision reqId decision]
  /\ Admin.dom s2' = Admin.dom s
  /\ Admin.unhandled s2' = Admin.unhandled s ++ [TypeError "Failed to fetch"].
Proof.
  intros s1 s2 s2'.
  destruct (admin_toast_after_notification
              ("Request " +:+ decision +:+ ".") (Admin.fetchRequests s1))
    as (Hm & Hup & Ht & _ & Hr & _).
  split.
  { unfold s2, Admin.run, fold_left, Admin.step, Admin.decide_reply,
      Admin.then_any. rewrite Hr. subst s1. cbn. by rewrite <- app_assoc. }
  split; [exact Hm|]. split; [exact Hup|]. split; [exact Ht|].
  split; [|done].
  subst s2 s1. by destruct s as [[h0|] d tm n rq un].
Qed.

(** ** The switches and the table *)

(** X19: a status reply that carries a configuration sets the three
    switches to the truth of its three properties and the indicator to
    Active exactly when the running switch ends up checked; it sends
    nothing and sets no timer.  A reply that cannot be read (no response,
    a body that is not JSON, no [config] in it) leaves the page as it was
    and ends as an unhandled rejection.  The HTTP status plays no part. *)
Theorem admin_fetchState_mirrors_config
    (s : Admin.State) (k : bool) (c : Admin.Config) (o : FetchOutcome Admin.StatusData) :
  let s' := Admin.fetchState_reply
              (Responded {| ok := k; body := Some {| Admin.config := Some c |} |}) s in
  Admin.toggleRunning (Admin.dom s') = truthy (Admin.is_running c)
  /\ Admin.togglePause (Admin.dom s') = truthy (Admin.is_paused c)
  /\ Admin.toggleApproval (Admin.dom s') = truthy (Admin.require_approval c)
  /\ (Admin.indicator_html (Admin.dom s') = Admin.active_html
      <-> Admin.toggleRunning (Admin.dom s') = true)
  /\ (Admin.indicator_class (Admin.dom s') = Admin.active_class
      <-> Admin.toggleRunning (Admin.dom s') = true)
  /\ Admin.requests s' = Admin.requests s
  /\ Admin.timers s' = Admin.timers s
  /\ Admin.unhandled s' = Admin.unhandled s
  /\ ((o = NetworkError
       \/ (exists kk, o = Responded {| ok := kk; body := None |})
       \/ (exists kk, o = Responded {| ok := kk;
                                       body := Some {| Admin.config := None |} |})) ->
      Admin.dom (Admin.fetchState_reply o s) = Admin.dom s
      /\ length (Admin.unhandled (Admin.fetchState_reply o s))
         = S (length (Admin.unhandled s))).
Proof.
  intros s'. subst s'. cbn.
  repeat split; try done.
  - destruct (truthy (Admin.is_running c)); [done|].
    intros H. apply (f_equal String.length) in H. vm_compute in H. discriminate.
  - by destruct (truthy (Admin.is_running c)).
  - destruct (truthy (Admin.is_running c)); [done|].
    intros H. apply (f_equal String.length) in H. vm_compute in H. discriminate.
  - by destruct (truthy (Admin.is_running c)).
  - by destruct H as [->|[[kk ->]|[kk ->]]].
  - destruct H as [->|[[kk ->]|[kk ->]]]; cbn; rewrite length_app; cbn; lia.
Qed.

Lemma string_app_assoc (a b c : string) : (a +:+ b) +:+ c = a +:+ (b +:+ c).
Proof. induction a as [|x a IH]; [done|]. exact (f_equal (String x) IH). Qed.

Lemma admin_get_elem k v (entries : list (string * option Admin.PendingRequest)) :
  NoDup entries.*1 -> (k, v) ∈ entries -> Admin.get k entries = Some v.
Proof.
  induction entries as [|[k' v'] entries IH]; cbn [fmap list_fmap fst].
  - by intros _ ?%elem_of_nil.
  - intros [Hk' Hnd]%NoDup_cons [Heq|Hin]%elem_of_cons; cbn [Admin.get].
    + injection Heq as -> ->. by rewrite String.eqb_refl.
    + destruct (String.eqb_spec k' k) as [->|_]; [|by apply IH].
      exfalso. apply Hk'. apply list_elem_of_fmap. by exists (k, v).
Qed.

Lemma admin_render_present all reqs :
  (forall r, r ∈ reqs -> Admin.get r.1 all = Some (Some r.2)) ->
  Admin.render all reqs.*1 = inr (Admin.rows_html reqs).
Proof.
  induction reqs as [|r reqs IH]; intros Hall; [done|].
  cbn [fmap list_fmap Admin.render]. unfold Admin.row.
  rewrite (Hall r) by left. fold (fmap (M:=list) (@fst string Admin.PendingRequest) reqs).
  rewrite IH; [done|]. intros r' Hr'. apply Hall. by right.
Qed.

Lemma admin_render_null all keys :
  (forall k, k ∈ keys -> is_Some (Admin.get k all)) ->
  (exists k, k ∈ keys /\ Admin.get k all = Some None) ->
  Admin.render all keys
  = inl (TypeError "Cannot read properties of null (reading 'timestamp')").
Proof.
  induction keys as [|k keys IH]; intros Hall (k0 & Hin & Hnull).
  - by apply elem_of_nil in Hin.
  - cbn [Admin.render]. unfold Admin.row.
    destruct (Hall k) as [[req|] Hk]; [by left| |by rewrite Hk].
    rewrite Hk, IH; [done| |].
    + intros k' Hk'. apply Hall. by right.
    + exists k0. split; [|done].
      apply elem_of_cons in Hin as [->|Hin]; [congruence|done].
Qed.

(** X20: [fetchRequests] writes the badge before it builds the table.
    For a reply whose keys are distinct the badge ends up showing the
    number of keys.  With no key the table is the placeholder markup; when
    no value is [null] it is the blocks of the template one after the
    other, in the order of the keys, and the file goes into its block as
    it is, with nothing escaped.  When some value is [null] the TypeError
    of the callback goes unhandled after the badge has been written: the
    table keeps the markup it had.  A reply that cannot be read, or whose
    body is [null], leaves the page as it was.  Nothing is sent and no
    timer is touched. *)
Theorem admin_fetchRequests_badge_before_table
    (s : Admin.State) (k : bool)
    (entries : list (string * option Admin.PendingRequest))
    (o : FetchOutcome Admin.RequestsData) :
  NoDup entries.*1 ->
  let s' := Admin.fetchRequests_reply
              (Responded {| ok := k;
                            body := Some (Admin.DataObject entries) |}) s in
  Admin.pendingCount (Admin.dom s') = length entries
  /\ Admin.requests s' = Admin.requests s
  /\ Admin.timers s' = Admin.timers s
  /\ (entries = [] ->
      Admin.requestsTable (Admin.dom s') = Admin.placeholder_html
      /\ Admin.unhandled s' = Admin.unhandled s)
  /\ (forall reqs, reqs <> [] -> entries = Admin.all_present reqs ->
      Admin.requestsTable (Admin.dom s') = Admin.rows_html reqs
      /\ Admin.unhandled s' = Admin.unhandled s)
  /\ (forall id t, exists before after, forall f,
      Admin.row_html id {| Admin.file := f; Admin.timeStr := t |}
      = before +:+ Admin.to_string f +:+ after)
  /\ (None ∈ entries.*2 ->
      Admin.requestsTable (Admin.dom s') = Admin.requestsTable (Admin.dom s)
      /\ Admin.unhandled s'
         = Admin.unhandled s
           ++ [TypeError "Cannot read properties of null (reading 'timestamp')"])
  /\ ((fetch_failed o = true
       \/ exists kk, o = Responded {| ok := kk; body := Some Admin.DataNull |}) ->
      Admin.dom (Admin.fetchRequests_reply o s) = Admin.dom s
      /\ length (Admin.unhandled (Admin.fetchRequests_reply o s))
         = S (length (Admin.unhandled s))).
Proof.
  intros Hnd s'. subst s'.
  assert (Hreply :
    Admin.fetchRequests_reply
      (Responded {| ok := k; body := Some (Admin.DataObject entries) |}) s
    = Admin.fetchRequests_data (Admin.DataObject entries) s) by reflexivity.
  rewrite Hreply. clear Hreply.
  assert (Hpresent : forall reqs, entries = Admin.all_present reqs ->
    Admin.render entries entries.*1 = inr (Admin.rows_html reqs)).
  { intros reqs Heq.
    assert (Hk : entries.*1 = reqs.*1).
    { rewrite Heq. unfold Admin.all_present.
      rewrite <- list_fmap_compose. by apply list_fmap_ext. }
    rewrite Hk. apply admin_render_present. intros r Hr.
    apply admin_get_elem; [done|]. rewrite Heq.
    apply list_elem_of_fmap. by exists r. }
  assert (Hnull : None ∈ entries.*2 ->
    Admin.render entries entries.*1
    = inl (TypeError "Cannot read properties of null (reading 'timestamp')")).
  { intros [[id v] [Hv Hin]]%list_elem_of_fmap. cbn in Hv. subst v.
    apply admin_render_null.
    - intros id' [[id'' v] [-> Hin']]%list_elem_of_fmap.
      exists v. by apply admin_get_elem.
    - exists id. split; [|by apply admin_get_elem].
      apply list_elem_of_fmap. by exists (id, None). }
  assert (Hsplice : forall id t, exists before after, forall f,
    Admin.row_html id {| Admin.file := f; Admin.timeStr := t |}
    = before +:+ Admin.to_string f +:+ after).
  { intros id t. unfold Admin.row_html. cbn [Admin.file Admin.timeStr].
    exists
      (Admin.nl +:+
       "                    <tr class=" +:+ Admin.dq +:+ "bg-slate-900/20 hover:bg-slate-800/50 transition" +:+ Admin.dq +:+ ">" +:+ Admin.nl +:+
       "                        <td class=" +:+ Admin.dq +:+ "px-4 py-3 font-mono text-xs" +:+ Admin.dq +:+ ">" +:+ t +:+ "</td>" +:+ Admin.nl +:+
       "                        <td class=" +:+ Admin.dq +:+ "px-4 py-3 text-white font-medium" +:+ Admin.dq +:+ ">"),
      ("</td>" +:+ Admin.nl +:+
       "                        <td class=" +:+ Admin.dq +:+ "px-4 py-3 flex gap-2" +:+ Admin.dq +:+ ">" +:+ Admin.nl +:+
       "                            <button onclick=" +:+ Admin.dq +:+ "decide('" +:+ id +:+ "', 'approved')" +:+ Admin.dq +:+ " class=" +:+ Admin.dq +:+ "px-3 py-1 bg-emerald-600 hover:bg-emerald-500 text-white rounded text-xs transition" +:+ Admin.dq +:+ ">Approve</button>" +:+ Admin.nl +:+
       "                            <button onclick=" +:+ Admin.dq +:+ "decide('" +:+ id +:+ "', 'rejected')" +:+ Admin.dq +:+ " class=" +:+ Admin.dq +:+ "px-3 py-1 bg-red-600 hover:bg-red-500 text-white rounded text-xs transition" +:+ Admin.dq +:+ ">Reject</button>" +:+ Admin.nl +:+
       "                        </td>" +:+ Admin.nl +:+
       "                    </tr>" +:+ Admin.nl +:+
       "                ").
    intros f. by rewrite <- !string_app_assoc. }
  assert (Hfail : (fetch_failed o = true
       \/ exists kk, o = Responded {| ok := kk; body := Some Admin.DataNull |}) ->
      Admin.dom (Admin.fetchRequests_reply o s) = Admin.dom s
      /\ length (Admin.unhandled (Admin.fetchRequests_reply o s))
         = S (length (Admin.unhandled s))).
  { intros [Hf|[kk ->]].
    - destruct o as [|[kk [d|]]]; [| |];
        cbn; rewrite ?length_app; cbn; try (split; [done|lia]).
      by apply bool_decide_eq_true in Hf.
    - cbn. rewrite length_app. cbn. split; [done|lia]. }
  unfold Admin.fetchRequests_data. rewrite length_fmap.
  destruct entries as [|e0 entries'].
  - cbn. split; [done|]. split; [done|]. split; [done|]. split; [done|].
    split; [|split; [exact Hsplice|split; [|exact Hfail]]].
    + intros [|r reqs] Hne Heq; [done|discriminate].
    + by intros ?%elem_of_nil.
  - cbn [length Nat.eqb].
    destruct (Admin.render (e0 :: entries') (e0 :: entries').*1)
      as [e|html] eqn:Hr; cbn.
    + split; [done|]. split; [done|]. split; [done|]. split; [done|].
      split; [|split; [exact Hsplice|split; [|exact Hfail]]].
      * intros reqs _ Heq. by specialize (Hpresent reqs Heq).
      * intros Hn. by injection (Hnull Hn) as ->.
    + split; [done|]. split; [done|]. split; [done|]. split; [done|].
      split; [|split; [exact Hsplice|split; [|exact Hfail]]].
      * intros reqs _ Heq. by injection (Hpresent reqs Heq) as ->.
      * intros Hn. by specialize (Hnull Hn).
Qed.

(** X21: [toggleState] sends the key it is given with the state of the
    switch that belongs to it, the approval switch standing in for every
    key other than [is_running] and [is_paused]; it changes nothing on the
    page itself.  On any response it asks for the status again, and the
    switches then show what the server reports, not what was clicked. *)
Theorem admin_toggleState_round_trip
    (s : Admin.State) (key : string) (r : Response unit) (k : bool)
    (c : Admin.Config) :
  let s1 := Admin.run [Admin.Call_toggleState key] s in
  let s3 := Admin.run
              [Admin.Reply_toggleState (Responded r);
               Admin.Reply_status
                 (Responded {| ok := k; body := Some {| Admin.config := Some c |} |})]
              s1 in
  Admin.dom s1 = Admin.dom s
  /\ Admin.requests s3
     = Admin.requests s
       ++ [Admin.PostStatus key
             (JBool (if String.eqb key "is_running" then Admin.toggleRunning (Admin.dom s)
                     else if String.eqb key "is_paused" then Admin.togglePause (Admin.dom s)
                     else Admin.toggleApproval (Admin.dom s)));
           Admin.GetStatus]
  /\ Admin.toggleRunning (Admin.dom s3) = truthy (Admin.is_running c)
  /\ Admin.togglePause (Admin.dom s3) = truthy (Admin.is_paused c)
  /\ Admin.toggleApproval (Admin.dom s3) = truthy (Admin.require_approval c)
  /\ Admin.requests (Admin.run [Admin.Reply_toggleState NetworkError] s1)
     = Admin.requests s1.
Proof.
  intros s1 s3. subst s3 s1. cbn.
  repeat split; try done. by rewrite <- app_assoc.
Qed.

(** ** The further theorems at work *)

(** Cancelling the pending download [abc123] on the demo page. *)
Lemma cancelDownload_stops_unconditionally_witness :
  let s := run [Call_initiateDownload "report.pdf" "docs";
                Reply_request_download
                  (pending_reply "abc123" JUndefined JUndefined)] demo_state in
  timers (browser (cancelDownload s)) !! 2%positive = None
  /\ last (requests (browser (cancelDownload s)))
     = Some (PostCancelRequest (JStr "abc123")).
Proof.
  intros s.
  destruct (cancelDownload_stops_unconditionally s NetworkError)
    as (Hstop & _ & _ & Hreq & _).
  split.
  - apply Hstop. reflexivity.
  - rewrite Hreq. reflexivity.
Defined.

(** A [pending] reply without a request identifier. *)
Lemma initiateDownload_failure_recovery_witness :
  let o := Responded {| ok := true;
                        body := Some {| status := JStr "pending";
                                        direct_link := JUndefined;
                                        req_id := JUndefined;
                                        link := JUndefined |} |} in
  alerts (browser (initiateDownload_reply o demo_state)) = [failure_alert]
  /\ alerts (browser (initiateDownload_reply
                        (pending_reply "abc123" JUndefined JUndefined) demo_state))
     = [].
Proof.
  intros o.
  destruct (initiateDownload_failure_recovery o demo_state) as (_ & Hfail & _).
  destruct (initiateDownload_failure_recovery
              (pending_reply "abc123" JUndefined JUndefined) demo_state)
    as (_ & _ & Hfine).
  split.
  - destruct Hfail as (Ha & _); [reflexivity|]. exact Ha.
  - destruct Hfine as (Ha & _); [reflexivity|]. exact Ha.
Defined.

Lemma initiateDownload_direct_link_witness :
  let data := {| status := JStr "approved"; direct_link := JStr "/dl/report.pdf";
                 req_id := JUndefined; link := JUndefined |} in
  navigations (browser (initiateDownload_reply
                          (Responded {| ok := true; body := Some data |})
                          demo_state))
  = [Assign (JStr "/dl/report.pdf")].
Proof.
  intros data.
  destruct (initiateDownload_direct_link demo_state data) as (_ & Hnav & _);
    [reflexivity|]. exact Hnav.
Defined.

Lemma approved_download_redirects_once_witness :
  let t := (nextHandle (browser demo_state) + 1)%positive in
  let s3 := run [Call_initiateDownload "report.pdf" "docs";
                 Reply_request_download
                   (pending_reply "abc123" JUndefined JUndefined);
                 Reply_check_request
                   (verdict_reply true "approved" (JStr "/dl/abc123"))]
              demo_state in
  navigations (browser (run [TimerFires t] s3))
  = navigations (browser demo_state) ++ [Assign (JStr "/dl/abc123")]
  /\ run [TimerFires t] (run [TimerFires t] s3) = run [TimerFires t] s3.
Proof.
  intros t s3.
  destruct (approved_download_redirects_once demo_state "report.pdf" "docs"
              "abc123" JUndefined JUndefined (JStr "/dl/abc123") true)
    as (_ & _ & _ & _ & _ & Hnav & _ & _ & _ & _ & Honce).
  split; [exact Hnav|exact Honce].
Defined.

Lemma rejected_download_stays_witness :
  navigations
    (browser
       (run [Call_initiateDownload "report.pdf" "docs";
             Reply_request_download (pending_reply "abc123" JUndefined JUndefined);
             Reply_check_request (verdict_reply true "rejected" JUndefined)]
          demo_state))
  = navigations (browser demo_state).
Proof.
  destruct (rejected_download_stays demo_state "report.pdf" "docs"
              "abc123" JUndefined JUndefined JUndefined true) as (Hnav & _).
  exact Hnav.
Defined.

Lemma session_watcher_never_stopped_witness :
  timers (browser (run two_downloads demo_state)) !! 1%positive
  = Some IntervalCheckStatus.
Proof.
  destruct (session_watcher_never_stopped demo_dom ∅ two_downloads) as (H & _).
  exact H.
Defined.

Lemma view_preference_survives_reload_witness :
  localStorage (browser (run two_downloads demo_state)) = ∅
  /\ isGridView
       (globals (page_load demo_dom
                   (localStorage (browser (run [Call_toggleView] demo_state)))))
     = false.
Proof.
  destruct (view_preference_survives_reload demo_dom demo_dom ∅ two_downloads)
    as (_ & Hkeep).
  destruct (view_preference_survives_reload demo_dom demo_dom ∅ [Call_toggleView])
    as (Hload & _).
  split.
  - apply Hkeep. unfold two_downloads. intros Hin.
    repeat (apply elem_of_cons in Hin as [Hin|Hin]; [discriminate|]).
    by apply elem_of_nil in Hin.
  - exact Hload.
Defined.

Lemma overlay_follows_flag_witness :
  overlay_up
    (dom (run [Reply_status (status_reply true false true (JStr "cfg_v1") (JBool true))]
            demo_state)).
Proof.
  destruct (overlay_follows_flag demo_dom ∅
              [Reply_status (status_reply true false true (JStr "cfg_v1") (JBool true))])
    as (Hup & _).
  - unfold overlay_down, demo_dom. cbn -[list_to_set].
    rewrite !elem_of_list_to_set. split; [|split].
    + repeat constructor.
    + repeat constructor.
    + apply not_elem_of_empty.
  - apply Hup. reflexivity.
Defined.

Lemma rev1_checkStatus_two_fields_witness :
  let offline := {| force_logout := JBool true; running := JBool false;
                    config_id := JStr "cfg_v1"; paused := JBool false |} in
  let offline' := {| force_logout := JBool false; running := JNull;
                     config_id := JStr "cfg_v2"; paused := JNum 0 |} in
  Rev1.checkStatus_reply (Responded {| ok := false; body := Some offline' |}) demo_state
  = Rev1.checkStatus_reply (Responded {| ok := true; body := Some offline |}) demo_state.
Proof.
  intros offline offline'.
  destruct (rev1_checkStatus_two_fields demo_state true false offline offline')
    as (Hsame & _).
  apply Hsame; reflexivity.
Defined.

Lemma rev1_initiateDownload_ignores_status_witness :
  Rev1.initiateDownload_reply NetworkError demo_state
  = with_browser (add_unhandled (TypeError "Failed to fetch")) demo_state.
Proof.
  destruct (rev1_initiateDownload_ignores_status demo_state true false None
              NetworkError) as (_ & _ & Hfail).
  apply Hfail. reflexivity.
Defined.

Lemma plain_toggleView_stops_at_missing_icon_witness :
  snd (PlainView.toggleView demo_plain_view)
  = Some (TypeError "Cannot read properties of null (reading 'closest')")
  /\ PlainView.grid_view (fst (PlainView.toggleView demo_plain_view)) = false
  /\ "flex" ∈ PlainView.container (fst (PlainView.toggleView demo_plain_view)).
Proof.
  destruct (plain_toggleView_stops_at_missing_icon demo_plain_view
              [ {| PlainView.classes := list_to_set ["file-card"; "flex-col"];
                   PlainView.icon_bg := Some (Some ∅) |} ]
              []
              {| PlainView.classes := list_to_set ["file-card"; "flex-col"];
                 PlainView.icon_bg := None |})
    as (Hflag & _ & Hcont & _ & Hstop).
  destruct Hstop as (Herr & _).
  - reflexivity.
  - repeat constructor. by eexists.
  - reflexivity.
  - split; [exact Herr|]. split; [exact Hflag|].
    rewrite Hcont. cbn [demo_plain_view PlainView.grid_view negb].
    unfold cl_add. apply elem_of_union. right.
    apply elem_of_list_to_set. left.
Defined.

Lemma plain_toggleView_round_trip_keeps_gap_witness :
  let v := {| PlainView.grid_view := true;
              PlainView.container := list_to_set ["grid"];
              PlainView.icon := "fas fa-list-ul";
              PlainView.file_cards :=
                [ {| PlainView.classes := list_to_set ["file-card"; "flex-col"];
                     PlainView.icon_bg := Some (Some ∅) |} ] |} in
  PlainView.grid_view (fst (PlainView.toggleView (fst (PlainView.toggleView v))))
  = true.
Proof.
  intros v.
  destruct (plain_toggleView_round_trip_keeps_gap v) as (_ & _ & Hg & _).
  - reflexivity.
  - repeat constructor. by eexists.
  - exact Hg.
Defined.

Lemma admin_toast_single_timer_witness :
  let s := Admin.run [Admin.Call_showNotification "one";
                      Admin.Call_showNotification "two"] demo_admin_state in
  length (Admin.toast_timers s) <= 1
  /\ Admin.timers s !! 2%positive = Some Admin.IntervalFetchRequests.
Proof.
  intros s.
  destruct (admin_toast_single_timer demo_admin_dom
              [Admin.Call_showNotification "one";
               Admin.Call_showNotification "two"])
    as (_ & H2 & Hone & _).
  - unfold demo_admin_dom. cbn -[list_to_set].
    rewrite elem_of_list_to_set. repeat constructor.
  - split; [exact Hone|exact H2].
Defined.

Lemma admin_fetchState_mirrors_config_witness :
  Admin.dom (Admin.fetchState_reply NetworkError demo_admin_state)
  = Admin.dom demo_admin_state.
Proof.
  destruct (admin_fetchState_mirrors_config demo_admin_state true
              {| Admin.is_running := JBool true; Admin.is_paused := JBool false;
                 Admin.require_approval := JBool true |} NetworkError)
    as (_ & _ & _ & _ & _ & _ & _ & _ & Hfail).
  destruct Hfail as (Hd & _); [by left|]. exact Hd.
Defined.

(** A reply with one request and one [null] value: the badge counts
    both, the table keeps what it showed. *)
Lemma admin_fetchRequests_badge_before_table_witness :
  let entries :=
    [("abc123", Some {| Admin.file := JStr "report.pdf";
                        Admin.timeStr := "10:13:20 PM" |});
     ("def456", None)] in
  let s' := Admin.fetchRequests_reply
              (Responded {| ok := true;
                            body := Some (Admin.DataObject entries) |})
              demo_admin_state in
  Admin.pendingCount (Admin.dom s') = length entries
  /\ Admin.requestsTable (Admin.dom s')
     = Admin.requestsTable (Admin.dom demo_admin_state).
Proof.
  intros entries s'.
  destruct (admin_fetchRequests_badge_before_table demo_admin_state true
              entries NetworkError) as (Hb & _ & _ & _ & _ & _ & Hnull & _).
  - apply NoDup_cons. split.
    + intros Hin%list_elem_of_singleton. discriminate.
    + apply NoDup_singleton.
  - destruct Hnull as (Ht & _).
    + right. left.
    + split; [exact Hb|exact Ht].
Defined.

(** ** When there is one polling loop at most *)

Lemma elem_of_poll_timers h s :
  h ∈ poll_timers s <-> exists r, timers (browser s) !! h = Some (IntervalPoll r).
Proof.
  unfold poll_timers. rewrite list_elem_of_fmap. split.
  - intros [[h' t] [-> Hin]].
    apply list_elem_of_In, filter_In in Hin as [Hin Ht].
    apply list_elem_of_In, elem_of_map_to_list in Hin.
    destruct t; try done. by eexists.
  - intros [r Hr]. exists (h, IntervalPoll r). split; [done|].
    apply list_elem_of_In, filter_In. split; [|done].
    by apply list_elem_of_In, elem_of_map_to_list.
Qed.

Lemma poll_timers_NoDup s : NoDup (poll_timers s).
Proof.
  unfold poll_timers.
  assert (Hall : NoDup (map_to_list (timers (browser s))).*1)
    by apply NoDup_fst_map_to_list.
  revert Hall. generalize (map_to_list (timers (browser s))). intros l.
  induction l as [|[h t] l IH]; cbn; [done|].
  intros [Hnin Hl]%NoDup_cons. specialize (IH Hl).
  destruct (is_poll t); cbn; [|done].
  apply NoDup_cons. split; [|done].
  intros [[h' t'] [-> Hin]]%list_elem_of_fmap. apply Hnin.
  apply list_elem_of_In, filter_In in Hin as [Hin _].
  apply list_elem_of_fmap. exists (h', t'). split; [done|].
  by apply list_elem_of_In.
Qed.

Lemma single_loop_length s : single_loop s -> length (poll_timers s) <= 1.
Proof.
  intros Hs. pose proof (poll_timers_NoDup s) as Hnd.
  assert (Hin : forall h, h ∈ poll_timers s -> pollInterval (globals s) = Some h).
  { intros h [r Hr]%elem_of_poll_timers. by apply (Hs h r). }
  destruct (poll_timers s) as [|a [|b l]]; cbn; try lia.
  exfalso. apply NoDup_cons in Hnd as [Hnin _]. apply Hnin.
  assert (pollInterval (globals s) = Some a) as Ha by (apply Hin; by left).
  assert (pollInterval (globals s) = Some b) as Hb by (apply Hin; right; by left).
  assert (a = b) as -> by congruence. by left.
Qed.

(** A task that does not reach [pollRequest] adds no polling interval. *)
Lemma step_without_start s e :
  starts_loop e = false ->
  let '(tm, n, pi) := timer_state s in
  timer_state (step s e) = (tm, n, pi)
  \/ timer_state (step s e) = (cleared pi tm, n, pi)
  \/ (exists l, timer_state (step s e)
                = (<[n := TimeoutRedirect l]> (cleared pi tm), (n + 1)%positive, pi))
  \/ (exists h, timer_state (step s e) = (cleared pi (delete h tm), n, pi)).
Proof.
  intros Hno. unfold timer_state.
  destruct e as [f p|r| | | |h|o|o|o|o]; unfold step; try done.
  - by left.
  - right. left. unfold cancelDownload.
    destruct (truthy (currentReqId (globals s)));
      by destruct s as [[gv ps cc cr [i|]] d b].
  - right. left. by destruct s as [[gv ps cc cr [i|]] d b].
  - by left.
  - unfold fire. destruct (timers (browser s) !! h) as [[|r|l]|] eqn:Hh;
      try (by left).
    right. right. right. exists h.
    unfold pollRequest_redirect. by destruct s as [[gv ps cc cr [i|]] d b].
  - left. destruct o as [|[k [data|]]]; try done.
    rewrite checkStatus_reply_data. unfold checkStatus_data, apply_pause.
    repeat case_match; done.
  - rewrite initiateDownload_reply_cases.
    destruct o as [|[[] [data|]]]; cbn [starts_loop ok body andb negb] in Hno |- *.
    all: try (right; left; by destruct s as [[gv ps cc cr [i|]] d b]).
    destruct (strict_eq (status data) (JStr "approved")).
    { right; left; by destruct s as [[gv ps cc cr [i|]] d b]. }
    destruct (strict_eq (status data) (JStr "pending")); [|by left].
    destruct (req_id data) as [| | | |rid] eqn:Hr; try done;
      right; left; by destruct s as [[gv ps cc cr [i|]] dm br].
  - rewrite pollRequest_reply_cases.
    destruct (is_approved o).
    { right. right. left. eexists.
      by destruct s as [[gv ps cc cr [i|]] d b]. }
    destruct (is_rejected o).
    { right. left. by destruct s as [[gv ps cc cr [i|]] d b]. }
    left. by destruct o as [|[k [data|]]].
  - left. by destruct o.
Qed.

(** A task that reaches [pollRequest] adds the interval it sets, and
    nothing else changes in the table. *)
Lemma step_with_start s e :
  starts_loop e = true ->
  let '(tm, n, pi) := timer_state s in
  exists r, timer_state (step s e)
            = (<[n := IntervalPoll r]> tm, (n + 1)%positive, Some n).
Proof.
  intros Hyes. unfold timer_state.
  destruct e as [f p|r| | | |h|o|o|o|o]; try done; unfold step.
  - by exists r.
  - rewrite initiateDownload_reply_cases.
    destruct o as [|[[] [data|]]]; cbn [starts_loop ok body andb negb] in Hyes |- *;
      try done.
    destruct (strict_eq (status data) (JStr "approved")); [done|].
    destruct (strict_eq (status data) (JStr "pending")); [|done].
    destruct (req_id data) as [| | | |rid] eqn:Hr; try done.
    by exists (JStr rid).
Qed.

Lemma step_keeps_single s e :
  single_loop s ->
  (starts_loop e = true -> poll_timers s = []) ->
  single_loop (step s e).
Proof.
  intros Hs Hord. destruct (starts_loop e) eqn:Hst.
  - specialize (Hord eq_refl).
    pose proof (step_with_start s e Hst) as H. unfold timer_state in H.
    destruct H as [r H]. injection H as Ht Hn Hp.
    unfold single_loop. rewrite Ht, Hp.
    intros h r' [[<- _]|[_ Hl]]%lookup_insert_Some; [done|].
    assert (h ∈ poll_timers s) as Hin by (apply elem_of_poll_timers; eauto).
    rewrite Hord in Hin. by apply elem_of_nil in Hin.
  - pose proof (step_without_start s e Hst) as H. unfold timer_state in H.
    destruct H as [H|[H|[[l H]|[h' H]]]]; injection H as Ht Hn Hp;
      unfold single_loop; rewrite Ht, Hp.
    + done.
    + intros h r Hl%cleared_lookup. by apply (Hs h r).
    + intros h r [[_ [=]]|[_ Hl%cleared_lookup]]%lookup_insert_Some.
      by apply (Hs h r).
    + intros h r [_ Hl]%cleared_lookup%lookup_delete_Some. by apply (Hs h r).
Qed.

Lemma run_keeps_single es : forall s,
  single_loop s -> orderly es s -> single_loop (run es s).
Proof.
  induction es as [|e es IH]; intros s Hs Ho; [done|].
  destruct Ho as [Hfirst Hrest]. apply IH; [|done].
  by apply step_keeps_single.
Qed.

(** X22: the page polls for one request at most as long as no loop is
    started while another is still in the timer table.  In a run from a
    page load in which every task that reaches [pollRequest] finds no
    polling interval in the table, there is never more than one polling
    interval, and it is the one [pollInterval] names, so that [closeModal]
    leaves none behind. *)
Theorem one_loop_when_started_in_turn
    (d : Dom) (stored : gmap string string) (es : list event) :
  orderly es (page_load d stored) ->
  let s := run es (page_load d stored) in
  length (poll_timers s) <= 1
  /\ (forall h, h ∈ poll_timers s -> pollInterval (globals s) = Some h)
  /\ poll_timers (closeModal s) = [].
Proof.
  intros Ho s.
  assert (H0 : single_loop (page_load d stored)).
  { destruct (timers_page_load d stored) as (Ht & _ & _).
    unfold single_loop. rewrite Ht.
    intros h r [[_ [=]]|[_ Hl]]%lookup_insert_Some.
    by rewrite lookup_empty in Hl. }
  pose proof (run_keeps_single es _ H0 Ho) as Hs. fold s in Hs.
  split; [by apply single_loop_length|]. split.
  - intros h [r Hr]%elem_of_poll_timers. by apply (Hs h r).
  - destruct (poll_timers (closeModal s)) as [|h l] eqn:Hl; [done|].
    exfalso.
    assert (h ∈ poll_timers (closeModal s)) as Hin by (rewrite Hl; by left).
    apply elem_of_poll_timers in Hin as [r Hr].
    rewrite browser_closeModal, timers_clearInterval in Hr.
    destruct (pollInterval (globals s)) as [i|] eqn:Hp.
    + apply lookup_delete_Some in Hr as [Hne Hr].
      apply Hs in Hr. congruence.
    + apply Hs in Hr. congruence.
Qed.

(** Two downloads, the first one cancelled before the second starts. *)
Lemma one_loop_when_started_in_turn_witness :
  let es := [Call_initiateDownload "report.pdf" "docs";
             Reply_request_download (pending_reply "abc123" JUndefined JUndefined);
             Call_cancelDownload;
             Call_initiateDownload "notes.txt" "docs";
             Reply_request_download (pending_reply "def456" JUndefined JUndefined)] in
  length (poll_timers (run es demo_state)) <= 1.
Proof.
  intros es.
  destruct (one_loop_when_started_in_turn demo_dom ∅ es) as (Hone & _).
  - vm_compute. repeat split; discriminate.
  - exact Hone.
Defined.
